(* ===== verification/_CoqProject ===== *)
-Q . S2P
Prelude.v
PyFloat.v
Frames.v
Funnel.v
Calendar.v
DateFormat.v
DateRange.v
PyInt.v
Config.v
Drill.v
Fetch.v
Render.v
Mail.v
Pipeline.v
Cli.v
