(* ===== verification/Prelude.v ===== *)
(** * Funnel Report ETL Pipeline: a verification development

    The repository ([src/Funnel Report ETL Pipeline/]) is two Python files:
    - [report_engine.py]: configuration, the Drill queries
      ([fetch_stage_metrics], [fetch_otp_totals], [fetch_discovery_totals],
      [fetch_fi_status_counts]), the date helpers [_date_range] and
      [_month_prefixes], the stage aggregation [aggregate_stages], the
      percentage helper [_pct], the table builder [build_report_table] and
      the demo data [get_mock_funnel_data];
    - [run_reports.py]: recipients, the Excel renderer
      [write_funnel_excel], the mailer [send_report_mail] and the per-entity
      driver [run].

    The data flows fetch -> aggregate -> build -> render -> mail, once per
    entity, inside one [try] block per entity.

    ** Files (in dependency order)
    - [Prelude] (this file): the Python exception type [PyExc], the error
      monad [except] with its [let*] notation in [py_scope], the class
      [EqDec] of column names, [mem] (Python's [in]), sums over lists of
      integers, the hint database [funnel] and the shared tactics.
    - [PyFloat]: Python's float arithmetic on integers as the source uses
      it: [int / int] (correctly rounded true division), [float * int],
      [round(x, 1)] (correctly rounded decimal, ties to even, then parsed
      back) and [_pct], on the Standard Library's IEEE-754 binary64
      specification [SpecFloat] (precision 53, emax 1024).
    - [Frames]: DataFrames with numeric columns ([Frame C]: a column list
      and rows of nullable cells [C -> option Z]), [.empty], [iloc], the
      column enums of the four queries, [aggregate_stages] and
      [get_mock_funnel_data].
    - [Funnel]: Module [Table] with [build_report_table] (lines 233-319)
      into [except] and its readers; the derivation chain, the 24-row
      layout and the demo branch of [run] ([run_demo_table]).
    - [Calendar]: [datetime] dates (proleptic Gregorian, [toordinal]),
      [+ timedelta(days=n)] with [OverflowError] past 31 Dec 9999,
      [replace(day=1)] and the tuple order of [<=].
    - [DateFormat]: [strftime("%d_%m_%Y")], [strftime("%m_%Y")],
      [str.strip()] and [strptime] with the regular expression CPython's
      [_strptime] builds for [%d<sep>%m<sep>%Y] (all its matches, then the
      [datetime] constructor's check).
    - [DateRange]: [_date_range] and [_month_prefixes], each [while] loop a
      [Fixpoint] on fuel.
    - [PyInt]: Python's [int()] on a string (strip, sign, digits with
      single underscores, [ValueError]), the grammar [IntLiteral] it
      implements, and [str()] on an integer.
    - [Config]: [load_config] over the process environment, with [int()]
      on the port strings, and [load_recipients] over the parsed JSON
      value ([JValue]), with the [AttributeError] of [.get] on a
      non-object.
    - [Drill]: [run_sql] over an HTTP transport [post] (a raised request,
      or a status and a JSON body), with its [RequestException] fallbacks
      and the [TypeError]s of ["rows" in out] and [out["rows"]]; the URL
      from host and port; the exact SQL text of every query of the four
      fetchers (the f-strings, with their indentation).
    - [Fetch]: the class [DrillSource] ([run_sql(sql, host, port)] of each
      kind of query, as the frame pandas builds from Drill's rows), the
      four fetchers with their [->] dispatch and the SQL they send,
      [pd.concat], the stage [Date] filter, [.sum(numeric_only=True)] and
      the fetch-status [groupby] as a stdpp [gmap].
    - [Render]: the sheet operations [write_funnel_excel] issues (column
      widths, merges, each body cell with the format its row and column
      select), as a list of [SheetOp].
    - [Mail]: [send_report_mail]: the configuration check, the message
      (headers, plain text by [str.replace], attachments) and the class
      [MailEnv] for the file system and the SMTP session.
    - [Pipeline]: the class [ReportEnv] (the Drill source, the mail
      environment, the process environment, the parsed [recipients.json],
      yesterday's token, [os.makedirs], the workbook save), the output
      path, and [run]: the start-up, the demo branch and the per-entity
      loop with its [try] blocks and [any_written], as a fold of
      [run_step].  Each entity is fetched with the Drill base path, host
      and port [load_config] read; a report written before an exception
      (from [cc_map.get]) still counts as written.
    - [Cli]: the [__main__] block: the [Namespace] [parse_args] returns
      (its defaults from the two [add_argument] calls) and the call of
      [run].

    ** Theorems (by group)
    - Table builder ([Funnel]): the cohort; the decomposition of the
      authentication and discovery dropoffs into their sub-rows; the
      running subtraction and its monotonicity up to Account Linking; the
      FI balance; the linking/review balance; every percentage cell is
      [_pct] of its count; the errors ([KeyError] of a missing discovery
      column, [TypeError] of [int(None)] on a null OTP cell) and the zero
      figures of empty breakdowns.
    - Percentages ([PyFloat]): no division for a non-positive cohort.
    - Aggregation ([Frames], [Fetch]): a missing stage column raises; the
      range paths sum the days (OTP, fetch statuses); the [groupby]
      refines the raw rows (the report is the same); the stage filter
      keeps only rows dated in the range; a range whose month files are
      all empty raises [KeyError]; a null OTP cell of a day fails the read
      in both forms of the date spec ([TypeError], [KeyError]).
    - Dates ([DateFormat], [DateRange]): [strptime] inverts [strftime];
      [_date_range] and [_month_prefixes] terminate with the expected days
      and months (consecutive, in order, the last one the end), and raise
      [OverflowError] for ranges ending in December 9999.
    - Renderer ([Render]): the hard-coded row sets of the renderer agree
      with the builder's layout on every built table.
    - Configuration and mail ([Config], [Mail]): [load_config] succeeds
      exactly when both port settings are integer literals (the grammar
      [IntLiteral], proved equivalent to [int()]), with their values as
      the ports; [send_report_mail] returns [True] exactly when configured
      and delivered, and the message it builds.
    - Drill ([Drill]): [run_sql] gives the empty frame on every transport
      failure and raises only [TypeError], only on a JSON answer that is
      not an object.
    - Pipeline: every entity is processed once, in order, in isolation,
      [any_written] is exactly "some report written"; an unparsable range
      is not fatal; a bad port setting is; with Drill unreachable nothing
      is written, day and month specs skip every entity and ranges fail
      each with [KeyError]; an id with [@] and the different id with [-]
      in its place write the same file.

    ** Bounds and fuel
    Counts are unbounded integers [Z]: the program's own arithmetic is on
    Python integers, which do not wrap.  [aggregate_stages] goes through
    numpy's [astype(float)] and [astype(int)] and an int64 [sum]: the model
    reads these exactly, which holds for counts and sums below 2^53 (a
    funnel's user counts are far below).  The float model of [_pct] is
    exact IEEE binary64 for every input.  The [while] loops of
    [_date_range] and [_month_prefixes] run on fuel computed from the
    ordinals of the two ends (one step per day, resp. per month, plus
    one); [DateRange] proves the fuel enough: on valid dates the loop
    returns its result before the fuel runs out.  Dates are bounded by
    [datetime]'s 1..9999 years, and the overflow at the top is modelled,
    not assumed away.

    ** Not modelled
    Reading the [.env] file ([load_dotenv]) and [recipients.json] ([open],
    [json.load]): their results enter as the environment list and the
    [JValue] of [ReportEnv]; the sockets behind [requests.post] (the
    transport [post] of [run_sql]) and pandas' decoding of Drill's JSON
    cells into numbers (the class [DrillSource] gives the decoded frames
    of each query, a null cell as [None]; it cannot show [run_sql]'s own
    [TypeError], which [Drill] proves separately); the xlsx encoding and
    the file write of [write_funnel_excel]; the MIME encoding, [base64]
    and the SMTP protocol of [send_report_mail] (the class [MailEnv]);
    printing and logging; the clock ([datetime.now()] gives
    [yesterday_token]); argparse's parsing of the command line (a library:
    its [Namespace] is the input of [Cli.main]).  [int()] is modelled on
    ASCII: the other Unicode digits and spaces it accepts are not.
    [strftime("%Y")] is taken as four digits; glibc prints a year below
    1000 unpadded.  [pd.concat] is taken to ignore all-null pieces when it
    types a column, as pandas 2.x does.
*)

From Stdlib Require Import ZArith List String Lia.
Import ListNotations.

(** Python exceptions that the modelled code can raise. *)
Inductive PyExc : Type :=
| TypeError         (* int(None) *)
| ValueError        (* int(NaN), strptime on a malformed token *)
| KeyError          (* a missing DataFrame column *)
| IndexError        (* iloc past the last row *)
| OverflowError     (* date arithmetic past datetime.max *)
| AttributeError    (* .get or .items on a JSON value that is not a dict *)
| IOError.          (* an external collaborator failed *)

Definition except (A : Type) : Type := PyExc + A.

Definition ok {A : Type} (a : A) : except A := inr a.
Definition raise {A : Type} (e : PyExc) : except A := inl e.

Definition bind {A B : Type} (m : except A) (k : A -> except B) : except B :=
  match m with
  | inl e => inl e
  | inr a => k a
  end.

Declare Scope py_scope.
Delimit Scope py_scope with py.
Notation "'let*' x ':=' m 'in' k" := (bind m (fun x => k))
  (at level 100, x name, m at next level, right associativity) : py_scope.
Open Scope py_scope.

Lemma bind_ok {A B : Type} (a : A) (k : A -> except B) : bind (ok a) k = k a.
Proof. reflexivity. Qed.

Lemma bind_raise {A B : Type} (e : PyExc) (k : A -> except B) :
  bind (raise e) k = raise e.
Proof. reflexivity. Qed.

Lemma bind_inr {A B : Type} (m : except A) (k : A -> except B) (b : B) :
  bind m k = inr b -> exists a, m = inr a /\ k a = inr b.
Proof. destruct m as [e | a]; simpl; [discriminate | eauto]. Qed.

(** Decidable equality, for column names and keys. *)
Class EqDec (A : Type) := eq_dec : forall x y : A, {x = y} + {x <> y}.

Definition is_some {A : Type} (o : option A) : bool :=
  match o with Some _ => true | None => false end.

(** Python's [x in xs]. *)
Definition mem {A : Type} `{EqDec A} (x : A) (xs : list A) : bool :=
  existsb (fun y => if eq_dec x y then true else false) xs.

Lemma mem_In {A : Type} `{EqDec A} (x : A) (xs : list A) : mem x xs = true <-> In x xs.
Proof.
  unfold mem. rewrite existsb_exists. split.
  - intros [y [Hy Hxy]]. destruct (eq_dec x y); [subst; exact Hy | discriminate].
  - intros Hx. exists x. split; [exact Hx |]. destruct (eq_dec x x); congruence.
Qed.

(** Python's [d.get(k, default)] on a dict kept as an association list
    of distinct keys, in insertion order. *)
Fixpoint assoc_get {V : Type} (d : list (string * V)) (k : string) (default : V) : V :=
  match d with
  | [] => default
  | (k', v) :: d' => if String.eqb k k' then v else assoc_get d' k default
  end.

(** [s.startswith(p)]. *)
Fixpoint starts_with (p s : string) : bool :=
  match p, s with
  | EmptyString, _ => true
  | String a p', String b s' => Ascii.eqb a b && starts_with p' s'
  | String _ _, EmptyString => false
  end.

(** The line feed ["\n"]. *)
Definition newline : string := String (Ascii.ascii_of_nat 10) EmptyString.

Lemma existsb_map {A B : Type} (f : B -> bool) (g : A -> B) (l : list A) :
  existsb f (map g l) = existsb (fun a => f (g a)) l.
Proof. induction l as [|a l IH]; cbn; [reflexivity | rewrite IH; reflexivity]. Qed.

(** Sums of integer lists, Python's [sum(...)]. *)
Definition sumZ (l : list Z) : Z := fold_right Z.add 0%Z l.

Lemma sumZ_nil : sumZ [] = 0%Z.
Proof. reflexivity. Qed.

Lemma sumZ_cons (x : Z) (l : list Z) : sumZ (x :: l) = (x + sumZ l)%Z.
Proof. reflexivity. Qed.

Lemma sumZ_app (l1 l2 : list Z) : sumZ (l1 ++ l2) = (sumZ l1 + sumZ l2)%Z.
Proof. induction l1 as [| x l IH]; simpl; [reflexivity | rewrite IH; lia]. Qed.

Lemma sumZ_map_add {A : Type} (f g : A -> Z) (l : list A) :
  sumZ (map (fun a => f a + g a)%Z l) = (sumZ (map f l) + sumZ (map g l))%Z.
Proof. induction l as [| a l IH]; simpl; [reflexivity | rewrite IH; lia]. Qed.

Lemma sumZ_nonneg (l : list Z) : Forall (fun x => 0 <= x)%Z l -> (0 <= sumZ l)%Z.
Proof. induction 1; simpl; lia. Qed.

Create HintDb funnel.
Create Rewrite HintDb funnel_rw.
#[export] Hint Rewrite @bind_ok @bind_raise sumZ_nil sumZ_cons sumZ_app : funnel_rw.
#[export] Hint Resolve sumZ_nonneg : funnel.

(** Split a goal on every [match] or [if] of its conclusion. *)
Ltac split_matches :=
  repeat match goal with
         | |- context [match ?x with _ => _ end] => destruct x eqn:?
         end.

(** Unfold through the error monad and simplify with the funnel rewrites. *)
Ltac py_simp := repeat (simpl; autorewrite with funnel_rw in *).
