(* ===== verification/PyFloat.v ===== *)
(** * PyFloat: the Python float arithmetic behind [_pct]

    [_pct(value, total)] in [report_engine.py] (lines 228-230) computes
    [round((value / total) * 100, 1) if total > 0 else 0].  Its operands
    are Python integers; [/] is Python's true division of integers, which
    returns the binary64 float nearest to the exact quotient (ties to even);
    [* 100] multiplies a float by an integer converted to float; and
    [round(x, 1)] rounds the exact binary value of [x] to the nearest
    multiple of 1/10 (ties to even, CPython's [_Py_dg_dtoa] in mode 3) and
    parses that decimal back to the nearest float.

    Floats are the Standard Library's [spec_float] (IEEE-754 semantics
    without NaN payloads) at precision 53 and maximal exponent 1024.  An
    integer operand is given to [SFdiv] as an exact, possibly non-canonical,
    value ([exact_signed]): [SFdiv] then rounds the exact quotient once,
    which is Python's correctly rounded [int / int]. *)

From Stdlib Require Import ZArith SpecFloat Lia.
From S2P Require Import Prelude.

Open Scope Z_scope.

Definition binary64_prec : Z := 53.
Definition binary64_emax : Z := 1024.

(** The exact value [(-1)^s * n] as a [spec_float] operand. *)
Definition exact_signed (s : bool) (n : Z) : spec_float :=
  match n with
  | Z0 => S754_zero s
  | Zpos p => S754_finite s p 0
  | Zneg p => S754_finite (negb s) p 0
  end.

Definition exact (n : Z) : spec_float := exact_signed false n.

(** [float(n)]: the integer rounded to the nearest float. *)
Definition py_float_of_int (n : Z) : spec_float :=
  binary_normalize binary64_prec binary64_emax n 0 false.

(** [a / b] on Python integers with [b <> 0] (at [b = 0] Python raises
    [ZeroDivisionError]; the only caller, [_pct], divides under the guard
    [total > 0]). *)
Definition py_truediv (a b : Z) : spec_float :=
  SFdiv binary64_prec binary64_emax (exact a) (exact b).

(** [x * n] for a float [x] and an integer [n]. *)
Definition py_mul_int (x : spec_float) (n : Z) : spec_float :=
  SFmul binary64_prec binary64_emax x (py_float_of_int n).

(** The integer nearest to [num / den] ([den > 0]), ties to even. *)
Definition round_half_even (num den : Z) : Z :=
  let '(q, r) := Z.div_eucl num den in
  match Z.compare (2 * r) den with
  | Lt => q
  | Gt => q + 1
  | Eq => if Z.even q then q else q + 1
  end.

(** [NDIGITS_MAX] of CPython's [floatobject.c] for binary64. *)
Definition NDIGITS_MAX : nat := 323.

(** [round(x, ndigits)] for a float [x] and [ndigits >= 0]: infinities,
    NaN and zeros are returned as they are; otherwise the magnitude
    [m * 2^e] is rounded to [n / 10^ndigits] and the decimal is parsed
    back with the sign of [x]. *)
Definition py_round (x : spec_float) (ndigits : nat) : spec_float :=
  if Nat.ltb NDIGITS_MAX ndigits then x else
  match x with
  | S754_finite s m e =>
      let scale := 10 ^ Z.of_nat ndigits in
      let n := if 0 <=? e then Z.pos m * scale * 2 ^ e
               else round_half_even (Z.pos m * scale) (2 ^ (- e)) in
      SFdiv binary64_prec binary64_emax (exact_signed s n) (exact scale)
  | _ => x
  end.

(** A Python number: the result of [_pct] is the integer [0] when the
    total is not positive, a float otherwise. *)
Inductive PyNum : Type :=
| PyInt (z : Z)
| PyFloat (f : spec_float).

(** The float denoted by the decimal literal [n * 10^-k], e.g. [10.4]. *)
Definition py_float_literal (n : Z) (k : nat) : spec_float :=
  SFdiv binary64_prec binary64_emax (exact n) (exact (10 ^ Z.of_nat k)).

(** [_pct(value, total)], report_engine.py lines 228-230. *)
Definition _pct (value total : Z) : PyNum :=
  if total >? 0 then PyFloat (py_round (py_mul_int (py_truediv value total) 100) 1)
  else PyInt 0.

(** Unary minus on Python numbers. *)
Definition py_neg (x : PyNum) : PyNum :=
  match x with
  | PyInt z => PyInt (- z)
  | PyFloat f => PyFloat (SFopp f)
  end.

(** ** Lemmas on the IEEE operations *)

Section SignSymmetry.
Context (prec emax : Z).

(** Rounding commutes with the sign: the rounding mode is to nearest. *)
Lemma binary_round_aux_opp (s : bool) (m e : Z) (l : location) :
  binary_round_aux prec emax (negb s) m e l
  = SFopp (binary_round_aux prec emax s m e l).
Proof.
  unfold binary_round_aux.
  destruct (shr_fexp prec emax m e l) as [mrs e'].
  destruct (shr_fexp prec emax _ e' loc_Exact) as [mrs' e''].
  destruct (shr_m mrs') as [| p | p]; [reflexivity | | reflexivity].
  destruct (e'' <=? emax - prec); reflexivity.
Qed.

Lemma SFdiv_opp_l (x : spec_float) (my : positive) (ey : Z) :
  SFdiv prec emax (SFopp x) (S754_finite false my ey)
  = SFopp (SFdiv prec emax x (S754_finite false my ey)).
Proof.
  destruct x as [s | s | | s mx ex]; simpl; rewrite ?Bool.xorb_false_r;
    try reflexivity.
  destruct (SFdiv_core_binary prec emax _ _ _ _) as [[mz ez] lz].
  apply binary_round_aux_opp.
Qed.

Lemma SFmul_opp_l (x : spec_float) (my : positive) (ey : Z) :
  SFmul prec emax (SFopp x) (S754_finite false my ey)
  = SFopp (SFmul prec emax x (S754_finite false my ey)).
Proof.
  destruct x as [s | s | | s mx ex]; simpl; rewrite ?Bool.xorb_false_r;
    try reflexivity.
  apply binary_round_aux_opp.
Qed.
End SignSymmetry.

Lemma exact_signed_negb (s : bool) (n : Z) :
  exact_signed (negb s) n = SFopp (exact_signed s n).
Proof. destruct n; reflexivity. Qed.

Lemma exact_opp (v : Z) : v <> 0 -> exact (- v) = SFopp (exact v).
Proof. destruct v; simpl; congruence. Qed.

Lemma exact_pos (p : positive) : exact (Z.pos p) = S754_finite false p 0.
Proof. reflexivity. Qed.

Lemma py_float_of_int_100 :
  py_float_of_int 100 = S754_finite false 7036874417766400 (-46).
Proof. reflexivity. Qed.

Lemma pow10_pos (k : nat) : exists p, 10 ^ Z.of_nat k = Z.pos p.
Proof.
  assert (H : 0 < 10 ^ Z.of_nat k) by (apply Z.pow_pos_nonneg; lia).
  destruct (10 ^ Z.of_nat k) as [| p | p]; [lia | eauto | lia].
Qed.

Lemma py_round_opp (x : spec_float) (k : nat) :
  py_round (SFopp x) k = SFopp (py_round x k).
Proof.
  unfold py_round. destruct (Nat.ltb NDIGITS_MAX k); [reflexivity |].
  destruct x as [s | s | | s m e]; try reflexivity. simpl SFopp.
  destruct (pow10_pos k) as [p Hp]. rewrite Hp, exact_pos, exact_signed_negb.
  apply SFdiv_opp_l.
Qed.

(** [Z.div_eucl] as the pair of [Z.div] and [Z.modulo]. *)
Lemma div_eucl_div_mod (a b : Z) : Z.div_eucl a b = (a / b, a mod b).
Proof. unfold Z.div, Z.modulo. destruct (Z.div_eucl a b); reflexivity. Qed.

Lemma new_location_exact (n : Z) : new_location n 0 = loc_Exact.
Proof.
  unfold new_location, new_location_even, new_location_odd.
  destruct (Z.even n); reflexivity.
Qed.

(** The quotient of an integer by itself is the canonical [1.0]. *)
Lemma SFdiv_exact_self (p : positive) :
  SFdiv binary64_prec binary64_emax (exact (Z.pos p)) (exact (Z.pos p))
  = S754_finite false 4503599627370496 (-52).
Proof.
  unfold exact, exact_signed, SFdiv, SFdiv_core_binary.
  replace (Zdigits2 (Z.pos p) + 0 - (Zdigits2 (Z.pos p) + 0)) with 0 by lia.
  change (Z.min (fexp binary64_prec binary64_emax 0) (0 - 0)) with (-53).
  change (0 - 0 - -53) with 53.
  rewrite Z.shiftl_mul_pow2 by lia.
  rewrite div_eucl_div_mod, (Z.mul_comm (Z.pos p)), Z.div_mul, Z.mod_mul by lia.
  rewrite new_location_exact. reflexivity.
Qed.

#[export] Hint Rewrite exact_signed_negb py_round_opp SFdiv_exact_self : funnel_rw.

(** ** Properties of [_pct] *)

(** C11: [_pct] returns the integer [0], not a float, whenever the total is
    not positive: the guard [if total > 0] avoids the division. *)
Theorem _pct_nonpos_total (value total : Z) :
  total <= 0 -> _pct value total = PyInt 0.
Proof.
  intros H. unfold _pct. destruct (Z.gtb_spec total 0); [lia | reflexivity].
Qed.

Lemma _pct_nonpos_total_witness : -3 <= 0 /\ _pct 800 (-3) = PyInt 0.
Proof. split; [lia | apply (_pct_nonpos_total 800 (-3)); lia]. Defined.

Lemma _pct_pos_total (value total : Z) :
  total > 0 ->
  _pct value total = PyFloat (py_round (py_mul_int (py_truediv value total) 100) 1).
Proof.
  intros H. unfold _pct. destruct (Z.gtb_spec total 0); [reflexivity | lia].
Qed.

(** [_pct] is odd in its count: a negative count (the residuals of the
    report can be negative) shows the negated percentage, and a count that
    rounds to zero keeps its sign ([-0.0]). *)
Theorem _pct_opp (value total : Z) :
  total > 0 -> value <> 0 -> _pct (- value) total = py_neg (_pct value total).
Proof.
  intros Ht Hv. rewrite !_pct_pos_total by lia.
  destruct total as [| p | p]; try lia.
  unfold py_mul_int, py_truediv. rewrite exact_opp, exact_pos, SFdiv_opp_l by exact Hv.
  rewrite py_float_of_int_100, SFmul_opp_l, py_round_opp. reflexivity.
Qed.

Lemma _pct_opp_witness :
  7700 > 0 /\ 450 <> 0 /\ _pct (- 450) 7700 = py_neg (_pct 450 7700).
Proof. split; [lia | split; [lia | exact (_pct_opp 450 7700 ltac:(lia) ltac:(lia))]]. Defined.

(** A count equal to the total is exactly [100.0]. *)
Theorem _pct_self (total : Z) :
  total > 0 -> _pct total total = PyFloat (py_float_literal 100 0).
Proof.
  intros Ht. rewrite _pct_pos_total by lia. destruct total as [| p | p]; try lia.
  unfold py_truediv. rewrite SFdiv_exact_self. reflexivity.
Qed.

Lemma _pct_self_witness :
  7700 > 0 /\ _pct 7700 7700 = PyFloat (py_float_literal 100 0).
Proof. split; [lia | apply _pct_self; lia]. Defined.

(** A zero count is [+0.0] of a positive total. *)
Theorem _pct_zero (total : Z) :
  total > 0 -> _pct 0 total = PyFloat (S754_zero false).
Proof.
  intros Ht. rewrite _pct_pos_total by lia. destruct total as [| p | p]; try lia.
  reflexivity.
Qed.

Lemma _pct_zero_witness : 7700 > 0 /\ _pct 0 7700 = PyFloat (S754_zero false).
Proof. split; [lia | apply _pct_zero; lia]. Defined.
