(* ===== verification/Frames.v ===== *)
(** * Frames: the row sets of the pipeline and [aggregate_stages]

    The fetchers of [report_engine.py] return pandas DataFrames.  A frame
    is modelled by its list of columns and its rows, a row mapping each
    column to a nullable integer ([None] for SQL NULL, pandas NaN or an
    empty CSV cell).  Columns are inductive types named as in the CSV
    files and SQL aliases.  [aggregate_stages] (lines 222-225) and the demo
    data [get_mock_funnel_data] (lines 326-367) are here; the table builder
    that consumes the frames is in [Funnel]. *)

From Stdlib Require Import ZArith List String Bool Lia.
From S2P Require Import Prelude.
Import ListNotations.
Open Scope Z_scope.

(** [STAGE_COLUMNS], report_engine.py lines 207-219. *)
Inductive StageColumn : Type :=
| AA_client_Initialization
| OTP_Based_Sign_in_Sign_up
| View_Consent_Details
| Discovery
| Linking
| Rejected_Consent_Requests
| Approved_Consent_Requests
| FIP_Rejected_Consent_Artefacts
| FIP_Accepted_Consent_Artefacts
| Data_Fetch_Success
| Data_Fetch_Not_Attempted.

Definition STAGE_COLUMNS : list StageColumn :=
  [AA_client_Initialization; OTP_Based_Sign_in_Sign_up; View_Consent_Details;
   Discovery; Linking; Rejected_Consent_Requests; Approved_Consent_Requests;
   FIP_Rejected_Consent_Artefacts; FIP_Accepted_Consent_Artefacts;
   Data_Fetch_Success; Data_Fetch_Not_Attempted].

(** The aliases of the OTP query, lines 133-135. *)
Inductive OtpColumn : Type :=
| Total_Correct_OTP_Entered
| Total_Incorrect_OTP_Entered
| Total_OTP_Not_Entered.

(** The aliases of the discovery query, lines 161-165, in the order of the
    loop of [build_report_table] (line 258). *)
Inductive DiscoveryColumn : Type :=
| Account_Discovered
| Account_not_Found
| FIP_Not_Selected
| Failure
| NO_STATUS.

Definition DISCOVERY_COLUMNS : list DiscoveryColumn :=
  [Account_Discovered; Account_not_Found; FIP_Not_Selected; Failure; NO_STATUS].

#[export] Instance StageColumn_EqDec : EqDec StageColumn.
Proof. intros x y; decide equality. Defined.
#[export] Instance OtpColumn_EqDec : EqDec OtpColumn.
Proof. intros x y; decide equality. Defined.
#[export] Instance DiscoveryColumn_EqDec : EqDec DiscoveryColumn.
Proof. intros x y; decide equality. Defined.

(** A DataFrame with numeric columns of type [C]. *)
Record Frame (C : Type) : Type := mkFrame {
  columns : list C;
  rows : list (C -> option Z)
}.
Arguments mkFrame {C} _ _.
Arguments columns {C} _.
Arguments rows {C} _.

(** [pd.DataFrame()], what [run_sql] returns on a failed request. *)
Definition empty_frame {C : Type} : Frame C := mkFrame [] [].

(** [df.empty]: true when either axis has length 0. *)
Definition frame_empty {C : Type} (df : Frame C) : bool :=
  match columns df, rows df with
  | [], _ | _, [] => true
  | _, _ => false
  end.

(** [df[col].iloc[i]]. *)
Definition iloc {C : Type} `{EqDec C} (df : Frame C) (col : C) (i : nat)
  : except (option Z) :=
  if mem col (columns df) then
    match nth_error (rows df) i with
    | Some r => ok (r col)
    | None => raise IndexError
    end
  else raise KeyError.

(** [int(v)] of a cell of a one-row frame pandas built from Drill's JSON
    row: a null cell (an SQL [SUM] over no rows) is Python's [None], kept
    as such in its all-[None] object column, and [int(None)] raises
    [TypeError]. *)
Definition py_int (v : option Z) : except Z :=
  match v with
  | Some z => ok z
  | None => raise TypeError
  end.

(** [int(float(v)) if pd.notna(v) else 0]. *)
Definition notna_int (v : option Z) : Z :=
  match v with
  | Some z => z
  | None => 0
  end.

(** A row of the fetch-status query: [fetch_status, Count]. *)
Record FiRow : Type := mkFiRow {
  fetch_status : string;
  Count : Z
}.

(** The Series returned by [aggregate_stages], indexed by the stage columns. *)
Definition StageTotals : Type := StageColumn -> Z.

(** [aggregate_stages(stage_df)], lines 222-225:
    [stage_df[STAGE_COLUMNS].astype(float).astype(int).sum()].  Selecting a
    missing column raises [KeyError]; [astype(int)] of a NaN raises
    [ValueError]; the sum of no rows is 0. *)
Definition aggregate_stages (stage_df : Frame StageColumn) : except StageTotals :=
  if forallb (fun c => mem c (columns stage_df)) STAGE_COLUMNS then
    if forallb (fun r => forallb (fun c => is_some (r c)) STAGE_COLUMNS) (rows stage_df)
    then ok (fun c => sumZ (map (fun r => notna_int (r c)) (rows stage_df)))
    else raise ValueError
  else raise KeyError.

(** One row from an association of stage columns to counts. *)
Definition stage_row (f : StageColumn -> Z) : StageColumn -> option Z :=
  fun c => Some (f c).

(** [get_mock_funnel_data()], lines 326-367. *)
Definition get_mock_funnel_data
  : Frame StageColumn * Frame OtpColumn * Frame DiscoveryColumn * list FiRow :=
  let stage_df := mkFrame STAGE_COLUMNS [stage_row (fun c =>
      match c with
      | AA_client_Initialization => 800
      | OTP_Based_Sign_in_Sign_up => 450
      | View_Consent_Details => 1050
      | Discovery => 600
      | Linking => 1600
      | Rejected_Consent_Requests => 1950
      | Approved_Consent_Requests => 1250
      | FIP_Rejected_Consent_Artefacts => 150
      | FIP_Accepted_Consent_Artefacts => 1100
      | Data_Fetch_Success => 820
      | Data_Fetch_Not_Attempted => 50
      end)] in
  let otp_df := mkFrame
      [Total_Correct_OTP_Entered; Total_Incorrect_OTP_Entered; Total_OTP_Not_Entered]
      [fun c => match c with
                | Total_Correct_OTP_Entered => Some 0
                | Total_Incorrect_OTP_Entered => Some 450
                | Total_OTP_Not_Entered => Some 1200
                end] in
  let discovery_df := mkFrame DISCOVERY_COLUMNS
      [fun c => match c with
                | Account_Discovered => Some 350
                | Account_not_Found => Some 600
                | FIP_Not_Selected => Some 400
                | Failure => Some 150
                | NO_STATUS => Some 200
                end] in
  let fi_status_df :=
      [mkFiRow "Success" 820; mkFiRow "Failed" 230; mkFiRow "Not Attempted" 50] in
  (stage_df, otp_df, discovery_df, fi_status_df).

(** ** Properties of [aggregate_stages] *)

Section Aggregation.
Context (cols : list StageColumn).

(** Every stage column is selected. *)
Definition has_stage_columns : bool :=
  forallb (fun c => mem c cols) STAGE_COLUMNS.

Definition no_null (r : StageColumn -> option Z) : bool :=
  forallb (fun c => is_some (r c)) STAGE_COLUMNS.

Lemma forallb_app_iff {A : Type} (f : A -> bool) (l1 l2 : list A) :
  forallb f (l1 ++ l2) = forallb f l1 && forallb f l2.
Proof. induction l1 as [| x l IH]; cbn; [reflexivity | rewrite IH; apply andb_assoc]. Qed.

(** The three outcomes: the column sums, [ValueError] for a null cell,
    [KeyError] for a missing column. *)
Lemma aggregate_stages_spec (rs : list (StageColumn -> option Z)) :
  aggregate_stages (mkFrame cols rs) =
    if has_stage_columns then
      if forallb no_null rs
      then ok (fun c => sumZ (map (fun r => notna_int (r c)) rs))
      else raise ValueError
    else raise KeyError.
Proof. reflexivity. Qed.

End Aggregation.

(** C12: a frame without one of the stage columns is refused. *)
Theorem aggregate_stages_missing_column (cols : list StageColumn) rs c :
  In c STAGE_COLUMNS -> ~ In c cols -> aggregate_stages (mkFrame cols rs) = raise KeyError.
Proof.
  intros Hin Hout. rewrite aggregate_stages_spec.
  destruct (has_stage_columns cols) eqn:E; [| reflexivity].
  exfalso. apply Hout. unfold has_stage_columns in E.
  rewrite forallb_forall in E. apply mem_In, E, Hin.
Qed.

(** The rows of the demo stage frame. *)
Definition mock_stage_rows : list (StageColumn -> option Z) :=
  rows (fst (fst (fst get_mock_funnel_data))).

Lemma aggregate_stages_missing_column_witness :
  In Linking STAGE_COLUMNS /\ ~ In Linking [] /\
  aggregate_stages (mkFrame [] mock_stage_rows) = raise KeyError.
Proof.
  assert (H1 : In Linking STAGE_COLUMNS) by (cbn; tauto).
  assert (H2 : ~ In Linking []) by (cbn; tauto).
  split; [exact H1 | split; [exact H2 |]].
  exact (aggregate_stages_missing_column [] mock_stage_rows Linking H1 H2).
Defined.
