(* ===== verification/Funnel.v ===== *)
(** * Funnel: [build_report_table]

    [build_report_table(stage_totals, otp_totals, discovery_totals,
    fi_status_df)] (report_engine.py lines 233-319) turns the aggregated
    stage counts and the three breakdown frames into the 24 rows of 7 cells
    of the report: two summary lines, a spacer, two header lines and the
    19-row stage and sub-dropoff body.  Cells are strings, Python integers
    or the floats of [_pct].  The function raises only when it reads a
    cell: a missing OTP or discovery column ([KeyError]) or a null OTP cell
    ([int(None)], [TypeError]).

    [Module Table] holds the model; the theorems below it state the layout,
    the arithmetic of the derivation chain and the percentages. *)

From Stdlib Require Import ZArith List String Bool Lia SpecFloat Sorted.
From S2P Require Import Prelude PyFloat Frames.
Import ListNotations.
Open Scope Z_scope.

Module Table.

(** A cell of the report DataFrame. *)
Inductive Cell : Type :=
| CStr (s : string)
| CNum (n : PyNum).

Definition blank : Cell := CStr EmptyString.
Definition int_cell (z : Z) : Cell := CNum (PyInt z).

(** [disc.get(col, 0)] on the dictionary built by the loop of lines 257-261,
    kept as the association list of its insertions. *)
Fixpoint dict_get (d : list (DiscoveryColumn * Z)) (k : DiscoveryColumn) (dflt : Z) : Z :=
  match d with
  | [] => dflt
  | (k', v) :: d' => if eq_dec k k' then v else dict_get d' k dflt
  end.

(** Lines 255-261: [disc[col] = int(float(v)) if pd.notna(v) else 0] for
    each column, from the first row, when the frame is not empty. *)
Definition discovery_dict (discovery_totals : Frame DiscoveryColumn)
  : except (list (DiscoveryColumn * Z)) :=
  if frame_empty discovery_totals then ok []
  else fold_right
         (fun col acc =>
            let* v := iloc discovery_totals col 0 in
            let* d := acc in
            ok ((col, notna_int v) :: d))
         (ok []) DISCOVERY_COLUMNS.

(** Line 284-285: [int(otp_totals[col].iloc[0]) if not otp_totals.empty else 0]. *)
Definition otp_value (otp_totals : Frame OtpColumn) (col : OtpColumn) : except Z :=
  if frame_empty otp_totals then ok 0
  else let* v := iloc otp_totals col 0 in py_int v.

(** [fi_status_df.loc[fi_status_df["fetch_status"] == status, "Count"].sum()]. *)
Definition status_count (fi_status_df : list FiRow) (status : string) : Z :=
  sumZ (map Count (filter (fun r => String.eqb (fetch_status r) status) fi_status_df)).

(** Lines 277-281.  The fetch-status frame is the list of its rows: the
    empty frame of a failed query is [[]], and a frame with rows always has
    the [fetch_status] column (the query selects it), so the guard
    [not fi_status_df.empty and "fetch_status" in fi_status_df.columns]
    is the test for [[]]. *)
Definition fi_request_count (fi_status_df : list FiRow) : Z :=
  match fi_status_df with
  | [] => 0
  | _ => status_count fi_status_df "Success" + status_count fi_status_df "Failed"
  end.

(** The seven stage columns whose sum is the cohort, lines 239-247. *)
Definition cohort_columns : list StageColumn :=
  [AA_client_Initialization; OTP_Based_Sign_in_Sign_up; View_Consent_Details;
   Discovery; Linking; Rejected_Consent_Requests; Approved_Consent_Requests].

(** [build_report_table], report_engine.py lines 233-319. *)
Definition build_report_table (stage_totals : StageTotals)
  (otp_totals : Frame OtpColumn) (discovery_totals : Frame DiscoveryColumn)
  (fi_status_df : list FiRow) : except (list (list Cell)) :=
  let total_users :=
    stage_totals AA_client_Initialization
    + stage_totals OTP_Based_Sign_in_Sign_up
    + stage_totals View_Consent_Details
    + stage_totals Discovery
    + stage_totals Linking
    + stage_totals Rejected_Consent_Requests
    + stage_totals Approved_Consent_Requests in
  let pct := fun x => CNum (_pct x total_users) in
  let d1 := stage_totals AA_client_Initialization in
  let d2 := stage_totals OTP_Based_Sign_in_Sign_up in
  let view_drop := stage_totals View_Consent_Details in
  let auth_drop := d2 + view_drop in
  let* disc := discovery_dict discovery_totals in
  let d3 := sumZ (map snd disc) in
  let d4 := stage_totals Linking in
  let rej := stage_totals Rejected_Consent_Requests in
  let appr := stage_totals Approved_Consent_Requests in
  let fip_rej := stage_totals FIP_Rejected_Consent_Artefacts in
  let fip_ok := stage_totals FIP_Accepted_Consent_Artefacts in
  let fetch_ok := stage_totals Data_Fetch_Success in
  let not_attempted := stage_totals Data_Fetch_Not_Attempted in
  let n_consent := total_users in
  let n_after_init := n_consent - d1 in
  let n_after_auth := n_after_init - auth_drop in
  let n_after_disc := n_after_auth - d3 in
  let n_after_link := n_after_disc - d4 in
  let fi_req_ok := fi_request_count fi_status_df in
  let fi_fetch_drop := fi_req_ok - fetch_ok in
  let* otp_wrong := otp_value otp_totals Total_Incorrect_OTP_Entered in
  let* otp_miss := otp_value otp_totals Total_OTP_Not_Entered in
  let otp_ok_drop := d2 - (otp_wrong + otp_miss) + view_drop in
  let no_rec := dict_get disc Account_not_Found 0 in
  let fip_fail := dict_get disc NO_STATUS 0 in
  let some_fail := dict_get disc Failure 0 in
  let found_not_linked := dict_get disc Account_Discovered 0 + dict_get disc FIP_Not_Selected 0 in
  ok [
    [CStr "Summary"; CStr "% of initial users"; blank; CStr "Note"; blank; blank; blank];
    [CStr "Percentage of initial users who approved the consent"; pct appr; blank;
     CStr "Please note that this funnel describes the journey of a user and not a consent request.";
     blank; blank; blank];
    [CStr "Percentage of initial users who shared their data"; pct fetch_ok; blank; blank; blank; blank; blank];
    [blank; blank; blank; blank; blank; blank; blank];
    [blank; blank; CStr "Successful Users"; blank; blank; CStr "Dropped off Users"; blank];
    [CStr "Stage"; CStr "Positive Action"; CStr "Count"; CStr "% of initial users";
     CStr "Dropoff Cause"; CStr "Count"; CStr "% of initial users"];
    [CStr "Consent Initiated"; CStr "AA successfully received a consent handle";
     int_cell n_consent; pct n_consent; CStr "AA did not receive a consent handle";
     int_cell 0; pct 0];
    [CStr "FIU initiated AA Client"; CStr "AA client was successfully initiated";
     int_cell n_after_init; pct n_after_init; CStr "AA client was not successfully initiated";
     int_cell d1; pct d1];
    [CStr "Registration/Login"; CStr "User was authenticated"; int_cell n_after_auth;
     pct n_after_auth; CStr "User was not authenticated"; int_cell auth_drop; pct auth_drop];
    [blank; blank; blank; blank; CStr "↳Incorrect OTP entered"; int_cell otp_wrong; pct otp_wrong];
    [blank; blank; blank; blank; CStr "↳OTP not received back"; int_cell otp_miss; pct otp_miss];
    [blank; blank; blank; blank; CStr "↳Correct OTP entered but user dropped off";
     int_cell otp_ok_drop; pct otp_ok_drop];
    [CStr "Account Discovery"; CStr "User was able to find accounts"; int_cell n_after_disc;
     pct n_after_disc; CStr "User was not able to find accounts"; int_cell d3; pct d3];
    [blank; blank; blank; blank; CStr "↳FIP returned 'No Records Found'"; int_cell no_rec; pct no_rec];
    [blank; blank; blank; blank; CStr "↳FIP failed to send records"; int_cell fip_fail; pct fip_fail];
    [blank; blank; blank; blank;
     CStr "↳Some FIP returned 'No Records Found' and some failed to send records";
     int_cell some_fail; pct some_fail];
    [blank; blank; blank; blank;
     CStr "↳FIP returned accounts, but user did not link any accounts";
     int_cell found_not_linked; pct found_not_linked];
    [CStr "Account Linking"; CStr "User was able to link accounts"; int_cell n_after_link;
     pct n_after_link; CStr "User was not able to link accounts"; int_cell d4; pct d4];
    [CStr "Consent Request Review"; CStr "User approved the consent request"; int_cell appr;
     pct appr; CStr "User did not approve the consent request"; int_cell rej; pct rej];
    [blank; blank; blank; blank; CStr "↳User rejected the consent"; int_cell rej; pct rej];
    [blank; blank; blank; blank; CStr "↳User did not take any action"; blank; blank];
    [CStr "Consent Artefact Delivery"; CStr "FIP accepted the consent artefact"; int_cell fip_ok;
     pct fip_ok; CStr "FIP rejected the consent artefact"; int_cell fip_rej; pct fip_rej];
    [CStr "FI Request"; CStr "FIU successfully requested the data"; int_cell fi_req_ok;
     pct fi_req_ok; CStr "FIU did not request the data"; int_cell not_attempted; pct not_attempted];
    [CStr "FI Fetch"; CStr "FIU successfully received the data"; int_cell fetch_ok;
     pct fetch_ok; CStr "FIU did not received the data"; int_cell fi_fetch_drop; pct fi_fetch_drop]
  ].

End Table.

Import Table.

(** ** Reading the table *)

(** [table.iloc[r, c]]. *)
Definition cell (t : list (list Cell)) (r c : nat) : option Cell :=
  match nth_error t r with
  | Some row => nth_error row c
  | None => None
  end.

(** The integer in a count cell. *)
Definition int_at (t : list (list Cell)) (r c : nat) : option Z :=
  match cell t r c with
  | Some (CNum (PyInt z)) => Some z
  | _ => None
  end.

(** The layout of a cell: its text, or [None] for a number. *)
Definition layout (c : Cell) : option string :=
  match c with
  | CStr s => Some s
  | CNum _ => None
  end.

(** The cohort of the table: the denominator of every percentage. *)
Definition cohort (stage_totals : StageTotals) : Z :=
  sumZ (map stage_totals cohort_columns).

(** The discovery count of a category as the builder reads it: 0 when the
    frame is empty or the cell is null. *)
Definition disc_value (df : Frame DiscoveryColumn) (col : DiscoveryColumn) : Z :=
  if frame_empty df then 0
  else match rows df with
       | r :: _ => notna_int (r col)
       | [] => 0
       end.

(** The rows of the five funnel stages whose successful count is the
    running subtraction (Consent Initiated to Account Linking). *)
Definition stage_rows : list nat := [6; 7; 8; 12; 17]%nat.

Definition column (t : list (list Cell)) (c : nat) (rs : list nat) : list (option Z) :=
  map (fun r => int_at t r c) rs.

(** [cohort - d1 - d2 - ...], each prefix. *)
Fixpoint running_success (c : Z) (drops : list Z) : list Z :=
  match drops with
  | [] => []
  | d :: ds => (c - d) :: running_success (c - d) ds
  end.

(** A percentage cell pair is [_pct] of the count beside it. *)
Definition pct_pair (total : Z) (count pct : Cell) : Prop :=
  match count with
  | CNum (PyInt n) => pct = CNum (_pct n total)
  | CStr s => pct = CStr s /\ s = EmptyString
  | CNum (PyFloat _) => False
  end.

Definition pct_row (total : Z) (row : list Cell) : Prop :=
  pct_pair total (nth 2 row blank) (nth 3 row blank) /\
  pct_pair total (nth 5 row blank) (nth 6 row blank).

(** ** Lemmas on the readers *)

Lemma discovery_dict_shape (df : Frame DiscoveryColumn) d :
  discovery_dict df = ok d ->
  d = map (fun col => (col, disc_value df col)) DISCOVERY_COLUMNS \/
  (d = [] /\ frame_empty df = true).
Proof.
  unfold discovery_dict, disc_value, iloc.
  destruct (frame_empty df) eqn:E; [intros H; injection H as <-; right; auto |].
  left. revert H. unfold frame_empty in E.
  destruct (columns df); [discriminate |]. destruct (rows df) as [| r rs]; [discriminate |].
  cbn [fold_right DISCOVERY_COLUMNS nth_error map].
  split_matches; cbn; intros H; try discriminate; injection H as <-; reflexivity.
Qed.

Lemma dict_get_disc (df : Frame DiscoveryColumn) d col :
  discovery_dict df = ok d -> dict_get d col 0 = disc_value df col.
Proof.
  intros H. destruct (discovery_dict_shape df d H) as [-> | [-> E]].
  - destruct col; reflexivity.
  - unfold disc_value. rewrite E. reflexivity.
Qed.

Lemma disc_sum (df : Frame DiscoveryColumn) d :
  discovery_dict df = ok d ->
  sumZ (map snd d) = sumZ (map (disc_value df) DISCOVERY_COLUMNS).
Proof.
  intros H. destruct (discovery_dict_shape df d H) as [-> | [-> E]].
  - reflexivity.
  - unfold disc_value. rewrite E. reflexivity.
Qed.

(** Invert a successful [build_report_table]: name the dictionary and the
    two OTP figures and replace the table by its literal. *)
Ltac build_inv H :=
  unfold build_report_table in H;
  let Hd := fresh "Hdisc" in let Hw := fresh "Hwrong" in let Hm := fresh "Hmiss" in
  match type of H with
  | context [discovery_dict ?df] =>
      destruct (discovery_dict df) as [? | ?disc] eqn:Hd; [discriminate H |]
  end;
  cbn [bind] in H;
  match type of H with
  | context [otp_value ?o Total_Incorrect_OTP_Entered] =>
      destruct (otp_value o Total_Incorrect_OTP_Entered) as [? | ?w] eqn:Hw; [discriminate H |]
  end;
  cbn [bind] in H;
  match type of H with
  | context [otp_value ?o Total_OTP_Not_Entered] =>
      destruct (otp_value o Total_OTP_Not_Entered) as [? | ?m] eqn:Hm; [discriminate H |]
  end;
  cbn [bind] in H; injection H as <-.

Ltac read_cells := unfold int_at, cell, int_cell; cbn [nth_error].

(** ** Layout *)

(** the table has 24 rows of 7 cells. *)
Theorem build_report_table_shape st otp disc fi t :
  build_report_table st otp disc fi = ok t ->
  List.length t = 24%nat /\ Forall (fun row => List.length row = 7%nat) t.
Proof. intros H. build_inv H. split; [reflexivity | repeat constructor]. Qed.

(** the layout does not depend on the data: every text cell, the
    blank ones included, is the same string for all inputs, and the numbers
    are at the same positions; the rows are never reordered or filtered. *)
Theorem build_report_table_layout st otp disc fi t st' otp' disc' fi' t' :
  build_report_table st otp disc fi = ok t ->
  build_report_table st' otp' disc' fi' = ok t' ->
  map (map layout) t = map (map layout) t'.
Proof. intros H H'. build_inv H. build_inv H'. reflexivity. Qed.

Lemma cohort_unfold (st : StageTotals) :
  cohort st =
    st AA_client_Initialization + st OTP_Based_Sign_in_Sign_up
    + st View_Consent_Details + st Discovery + st Linking
    + st Rejected_Consent_Requests + st Approved_Consent_Requests.
Proof. unfold cohort, sumZ. cbn. lia. Qed.

(** C1: the Consent Initiated row counts the cohort, the sum of the seven
    stage columns of [cohort_columns], and drops nobody. *)
Theorem build_report_table_cohort st otp disc fi t :
  build_report_table st otp disc fi = ok t ->
  int_at t 6 2 = Some (cohort st) /\ int_at t 6 5 = Some 0.
Proof. intros H. build_inv H. read_cells. rewrite cohort_unfold. auto. Qed.

(** C5: every percentage cell of the body is [_pct] of the count beside it
    over the cohort (blank beside blank), and the two summary percentages
    are those of the consent review and FI fetch rows. *)
Theorem build_report_table_pct st otp disc fi t :
  build_report_table st otp disc fi = ok t ->
  Forall (pct_row (cohort st)) (skipn 6 t) /\
  cell t 1 1 = cell t 18 3 /\ cell t 2 1 = cell t 23 3.
Proof.
  intros H. build_inv H. rewrite <- cohort_unfold.
  split; [| split; reflexivity].
  cbn [skipn]. repeat constructor.
Qed.

(** C3: the authentication dropoff is [OTP_Based_Sign_in_Sign_up +
    View_Consent_Details], and its three sub-rows (incorrect OTP, OTP not
    entered, the residual) add up to it exactly; the residual is not
    clamped and can be negative. *)
Theorem build_report_table_auth st otp disc fi t :
  build_report_table st otp disc fi = ok t ->
  int_at t 8 5 = Some (st OTP_Based_Sign_in_Sign_up + st View_Consent_Details) /\
  exists wrong miss,
    otp_value otp Total_Incorrect_OTP_Entered = ok wrong /\
    otp_value otp Total_OTP_Not_Entered = ok miss /\
    int_at t 9 5 = Some wrong /\ int_at t 10 5 = Some miss /\
    int_at t 11 5 = Some (st OTP_Based_Sign_in_Sign_up + st View_Consent_Details
                          - (wrong + miss)).
Proof.
  intros H. build_inv H. read_cells. split; [reflexivity |].
  exists w, m. repeat split; auto. f_equal. lia.
Qed.

(** C4: the discovery dropoff is the sum of the five discovery categories
    of the frame (0 when it is empty), and its four sub-rows add up to it:
    not found, no status, failure, and discovered plus FIP not selected. *)
Theorem build_report_table_discovery st otp disc fi t :
  build_report_table st otp disc fi = ok t ->
  int_at t 12 5 = Some (sumZ (map (disc_value disc) DISCOVERY_COLUMNS)) /\
  int_at t 13 5 = Some (disc_value disc Account_not_Found) /\
  int_at t 14 5 = Some (disc_value disc NO_STATUS) /\
  int_at t 15 5 = Some (disc_value disc Failure) /\
  int_at t 16 5 = Some (disc_value disc Account_Discovered
                        + disc_value disc FIP_Not_Selected) /\
  disc_value disc Account_not_Found + disc_value disc NO_STATUS
  + disc_value disc Failure
  + (disc_value disc Account_Discovered + disc_value disc FIP_Not_Selected)
  = sumZ (map (disc_value disc) DISCOVERY_COLUMNS).
Proof.
  intros H. build_inv H. read_cells.
  rewrite (disc_sum _ _ Hdisc), !(dict_get_disc _ _ _ Hdisc).
  repeat split. cbn. lia.
Qed.

(** C2: running cohort subtraction: from Consent Initiated to Account
    Linking, each stage's successful count is the previous one minus the
    stage's dropoff, starting from the cohort. *)
Theorem build_report_table_running st otp disc fi t :
  build_report_table st otp disc fi = ok t ->
  exists drops,
    column t 5 stage_rows = map Some drops /\
    column t 2 stage_rows = map Some (running_success (cohort st) drops).
Proof.
  intros H. build_inv H. rewrite <- cohort_unfold.
  match type of Hdisc with
  | discovery_dict _ = inr ?d =>
      exists [0; st AA_client_Initialization;
              st OTP_Based_Sign_in_Sign_up + st View_Consent_Details;
              sumZ (map snd d); st Linking]
  end.
  split; [reflexivity |]. cbn. rewrite !Z.sub_0_r. reflexivity.
Qed.

(** The successful count of each funnel stage after the first. *)
Lemma build_report_table_stage_cells st otp disc fi t :
  build_report_table st otp disc fi = ok t ->
  let d3 := sumZ (map (disc_value disc) DISCOVERY_COLUMNS) in
  column t 5 stage_rows =
    map Some [0; st AA_client_Initialization;
              st OTP_Based_Sign_in_Sign_up + st View_Consent_Details; d3; st Linking] /\
  column t 2 stage_rows =
    map Some [cohort st; cohort st - st AA_client_Initialization;
              cohort st - st AA_client_Initialization
                - (st OTP_Based_Sign_in_Sign_up + st View_Consent_Details);
              cohort st - st AA_client_Initialization
                - (st OTP_Based_Sign_in_Sign_up + st View_Consent_Details) - d3;
              cohort st - st AA_client_Initialization
                - (st OTP_Based_Sign_in_Sign_up + st View_Consent_Details) - d3
                - st Linking].
Proof.
  intros H. build_inv H. rewrite <- cohort_unfold, <- (disc_sum _ _ Hdisc).
  split; reflexivity.
Qed.

Lemma running_success_sorted (c : Z) (ds : list Z) :
  Forall (fun d => 0 <= d) ds -> Sorted.Sorted Z.ge (running_success c ds).
Proof.
  intros Hds. revert c. induction Hds as [| d ds Hd Hds IH]; intros c; cbn.
  - constructor.
  - constructor; [apply IH |].
    destruct ds as [| d' ds']; cbn; constructor. inversion Hds. lia.
Qed.

(** C6: with non-negative stage counts and discovery categories, the
    successful counts from Consent Initiated to Account Linking never
    increase. *)
Theorem build_report_table_monotone st otp disc fi t :
  (forall c, 0 <= st c) ->
  (forall col, 0 <= disc_value disc col) ->
  build_report_table st otp disc fi = ok t ->
  exists l, column t 2 stage_rows = map Some l /\ Sorted.Sorted Z.ge l.
Proof.
  intros Hst Hdisc H. destruct (build_report_table_stage_cells _ _ _ _ _ H) as [H5 H2].
  eexists. split; [exact H2 |].
  set (d3 := sumZ _).
  assert (H3 : 0 <= d3) by (subst d3; cbn; pose proof (Hdisc Account_Discovered);
    pose proof (Hdisc Account_not_Found); pose proof (Hdisc FIP_Not_Selected);
    pose proof (Hdisc Failure); pose proof (Hdisc NO_STATUS); lia).
  pose proof (Hst AA_client_Initialization). pose proof (Hst OTP_Based_Sign_in_Sign_up).
  pose proof (Hst View_Consent_Details). pose proof (Hst Linking).
  repeat constructor; lia.
Qed.

(** C8: the successful count of Account Linking exceeds the users of the
    consent review row (approved plus rejected) by exactly the gap between
    the [Discovery] stage count and the discovery breakdown: the two
    sources agree only when that gap is zero. *)
Theorem build_report_table_linking_balance st otp disc fi t :
  build_report_table st otp disc fi = ok t ->
  exists link appr rej,
    int_at t 17 2 = Some link /\ int_at t 18 2 = Some appr /\ int_at t 18 5 = Some rej /\
    link = appr + rej + (st Discovery - sumZ (map (disc_value disc) DISCOVERY_COLUMNS)).
Proof.
  intros H. build_inv H. read_cells. rewrite <- (disc_sum _ _ Hdisc).
  do 3 eexists. repeat split. lia.
Qed.

(** The guard [if not fi_status_df.empty] of lines 278-281 is redundant:
    the two sums are 0 on an empty frame. *)
Lemma fi_request_count_sums (fi : list FiRow) :
  fi_request_count fi = status_count fi "Success" + status_count fi "Failed".
Proof. destruct fi; reflexivity. Qed.

(** C7: FI Request counts the [Success] and [Failed] fetch statuses (0 for
    an empty frame), its dropoff is [Data_Fetch_Not_Attempted], and the FI
    Fetch dropoff is the requested count minus [Data_Fetch_Success]. *)
Theorem build_report_table_fi st otp disc fi t :
  build_report_table st otp disc fi = ok t ->
  int_at t 22 2 = Some (status_count fi "Success" + status_count fi "Failed") /\
  int_at t 22 5 = Some (st Data_Fetch_Not_Attempted) /\
  int_at t 23 2 = Some (st Data_Fetch_Success) /\
  int_at t 23 5 = Some (status_count fi "Success" + status_count fi "Failed"
                        - st Data_Fetch_Success).
Proof. intros H. build_inv H. read_cells. rewrite fi_request_count_sums. auto. Qed.

(** the consent review and artefact rows pass the stage counts through;
    the rejection sub-row repeats the rejected count and the no-action
    sub-row is blank (unmeasured), not zero. *)
Theorem build_report_table_review st otp disc fi t :
  build_report_table st otp disc fi = ok t ->
  int_at t 18 2 = Some (st Approved_Consent_Requests) /\
  int_at t 18 5 = Some (st Rejected_Consent_Requests) /\
  cell t 19 5 = cell t 18 5 /\
  cell t 20 5 = Some blank /\ cell t 20 6 = Some blank /\
  int_at t 21 2 = Some (st FIP_Accepted_Consent_Artefacts) /\
  int_at t 21 5 = Some (st FIP_Rejected_Consent_Artefacts).
Proof. intros H. build_inv H. read_cells. auto 8. Qed.

(** ** Errors and empty breakdowns *)

Lemma otp_value_empty (otp : Frame OtpColumn) col :
  frame_empty otp = true -> otp_value otp col = ok 0.
Proof. intros E. unfold otp_value. rewrite E. reflexivity. Qed.

Lemma discovery_dict_empty (df : Frame DiscoveryColumn) :
  frame_empty df = true -> discovery_dict df = ok [].
Proof. intros E. unfold discovery_dict. rewrite E. reflexivity. Qed.

(** [discovery_dict] on a non-empty frame: every column present, or a
    [KeyError]. *)
Lemma discovery_dict_nonempty (df : Frame DiscoveryColumn) :
  frame_empty df = false ->
  discovery_dict df =
    if forallb (fun col => mem col (columns df)) DISCOVERY_COLUMNS
    then ok (map (fun col => (col, disc_value df col)) DISCOVERY_COLUMNS)
    else raise KeyError.
Proof.
  intros E. unfold discovery_dict, disc_value, iloc. rewrite E.
  unfold frame_empty in E. destruct (columns df) as [| c cs]; [discriminate |].
  destruct (rows df) as [| r rs]; [discriminate |].
  cbn [fold_right DISCOVERY_COLUMNS nth_error forallb map].
  repeat (destruct (mem _ (c :: cs)); cbn [bind andb]); reflexivity.
Qed.

(** C9: reading the breakdown frames fails as pandas does: a non-empty
    discovery frame missing one of the five columns raises [KeyError]
    (whatever the OTP frame), and with the discovery columns present, a
    null first-row [Total_Incorrect_OTP_Entered] in a non-empty OTP frame
    (Drill's [SUM] over no rows, [None] in pandas) raises [TypeError]
    ([int(None)]). *)
Theorem build_report_table_errors st otp disc fi :
  (frame_empty disc = false ->
   forallb (fun col => mem col (columns disc)) DISCOVERY_COLUMNS = false ->
   build_report_table st otp disc fi = raise KeyError) /\
  (forallb (fun col => mem col (columns disc)) DISCOVERY_COLUMNS = true ->
   frame_empty otp = false ->
   mem Total_Incorrect_OTP_Entered (columns otp) = true ->
   (exists r rs, rows otp = r :: rs /\ r Total_Incorrect_OTP_Entered = None) ->
   build_report_table st otp disc fi = raise TypeError).
Proof.
  split.
  - intros E M. unfold build_report_table. rewrite discovery_dict_nonempty, M by exact E.
    reflexivity.
  - intros M E Mc [r [rs [Hr Hn]]].
    assert (Hd : exists d, discovery_dict disc = ok d).
    { destruct (frame_empty disc) eqn:Ed.
      - rewrite discovery_dict_empty by exact Ed. eauto.
      - rewrite discovery_dict_nonempty, M by exact Ed. eauto. }
    destruct Hd as [d Hd]. unfold build_report_table. rewrite Hd. cbn [bind].
    unfold otp_value, iloc. rewrite E, Mc, Hr. cbn. rewrite Hn. reflexivity.
Qed.

(** C10: empty OTP, discovery and fetch-status frames (what [run_sql] returns
    when a query fails) do not fail the build: the OTP and discovery
    figures are 0, the residual is the whole authentication dropoff, and
    both FI counts are 0. *)
Theorem build_report_table_empty_breakdowns st otp disc :
  frame_empty otp = true -> frame_empty disc = true ->
  exists t, build_report_table st otp disc [] = ok t /\
    int_at t 9 5 = Some 0 /\ int_at t 10 5 = Some 0 /\
    int_at t 11 5 = Some (st OTP_Based_Sign_in_Sign_up + st View_Consent_Details) /\
    int_at t 12 5 = Some 0 /\ int_at t 16 5 = Some 0 /\
    int_at t 22 2 = Some 0 /\ int_at t 23 5 = Some (- st Data_Fetch_Success).
Proof.
  intros Eo Ed. unfold build_report_table.
  rewrite discovery_dict_empty, !otp_value_empty by assumption.
  eexists. split; [reflexivity |]. read_cells. repeat split; f_equal; lia.
Qed.

(** ** The demo report *)

(** The demo branch of [run], run_reports.py lines 197-199: the mock frames,
    [aggregate_stages] and [build_report_table]. *)
Definition run_demo_table : except (list (list Cell)) :=
  let '(stages, otp, discovery, fi_status) := get_mock_funnel_data in
  let* totals := aggregate_stages stages in
  build_report_table totals otp discovery fi_status.

(** The inputs of the demo report, for the witnesses below. *)
Definition demo_totals : StageTotals :=
  match aggregate_stages (fst (fst (fst get_mock_funnel_data))) with
  | inr st => st
  | inl _ => fun _ => 0
  end.
Definition demo_otp : Frame OtpColumn := snd (fst (fst get_mock_funnel_data)).
Definition demo_disc : Frame DiscoveryColumn := snd (fst get_mock_funnel_data).
Definition demo_fi : list FiRow := snd get_mock_funnel_data.
Definition demo_report : list (list Cell) :=
  match build_report_table demo_totals demo_otp demo_disc demo_fi with
  | inr t => t
  | inl _ => []
  end.

Lemma demo_build : build_report_table demo_totals demo_otp demo_disc demo_fi = ok demo_report.
Proof. vm_compute. reflexivity. Qed.

(** Apply a theorem about a successful build to the demo report. *)
Ltac demo_witness thm :=
  split; [exact demo_build | exact (thm _ _ _ _ _ demo_build)].

Lemma build_report_table_shape_witness :
  build_report_table demo_totals demo_otp demo_disc demo_fi = ok demo_report /\
  List.length demo_report = 24%nat /\ Forall (fun row => List.length row = 7%nat) demo_report.
Proof. demo_witness build_report_table_shape. Defined.

Definition zero_report : list (list Cell) :=
  match build_report_table (fun _ => 0) empty_frame empty_frame [] with
  | inr t => t
  | inl _ => []
  end.

Lemma build_report_table_layout_witness :
  build_report_table demo_totals demo_otp demo_disc demo_fi = ok demo_report /\
  build_report_table (fun _ => 0) empty_frame empty_frame [] = ok zero_report /\
  map (map layout) demo_report = map (map layout) zero_report.
Proof.
  assert (H : build_report_table (fun _ => 0) empty_frame empty_frame [] = ok zero_report)
    by (vm_compute; reflexivity).
  split; [exact demo_build | split; [exact H |]].
  exact (build_report_table_layout _ _ _ _ _ _ _ _ _ _ demo_build H).
Defined.

Lemma build_report_table_cohort_witness :
  build_report_table demo_totals demo_otp demo_disc demo_fi = ok demo_report /\
  int_at demo_report 6 2 = Some (cohort demo_totals) /\ int_at demo_report 6 5 = Some 0.
Proof. demo_witness build_report_table_cohort. Defined.

Lemma build_report_table_pct_witness :
  build_report_table demo_totals demo_otp demo_disc demo_fi = ok demo_report /\
  (Forall (pct_row (cohort demo_totals)) (skipn 6 demo_report) /\
   cell demo_report 1 1 = cell demo_report 18 3 /\ cell demo_report 2 1 = cell demo_report 23 3).
Proof. demo_witness build_report_table_pct. Defined.

Lemma build_report_table_auth_witness :
  build_report_table demo_totals demo_otp demo_disc demo_fi = ok demo_report /\
  (int_at demo_report 8 5 = Some (demo_totals OTP_Based_Sign_in_Sign_up
                                  + demo_totals View_Consent_Details) /\
   exists wrong miss,
     otp_value demo_otp Total_Incorrect_OTP_Entered = ok wrong /\
     otp_value demo_otp Total_OTP_Not_Entered = ok miss /\
     int_at demo_report 9 5 = Some wrong /\ int_at demo_report 10 5 = Some miss /\
     int_at demo_report 11 5 = Some (demo_totals OTP_Based_Sign_in_Sign_up
                                     + demo_totals View_Consent_Details - (wrong + miss))).
Proof. demo_witness build_report_table_auth. Defined.

Lemma build_report_table_discovery_witness :
  build_report_table demo_totals demo_otp demo_disc demo_fi = ok demo_report /\
  (int_at demo_report 12 5 = Some (sumZ (map (disc_value demo_disc) DISCOVERY_COLUMNS)) /\
   int_at demo_report 13 5 = Some (disc_value demo_disc Account_not_Found) /\
   int_at demo_report 14 5 = Some (disc_value demo_disc NO_STATUS) /\
   int_at demo_report 15 5 = Some (disc_value demo_disc Failure) /\
   int_at demo_report 16 5 = Some (disc_value demo_disc Account_Discovered
                                   + disc_value demo_disc FIP_Not_Selected) /\
   disc_value demo_disc Account_not_Found + disc_value demo_disc NO_STATUS
   + disc_value demo_disc Failure
   + (disc_value demo_disc Account_Discovered + disc_value demo_disc FIP_Not_Selected)
   = sumZ (map (disc_value demo_disc) DISCOVERY_COLUMNS)).
Proof. demo_witness build_report_table_discovery. Defined.

Lemma build_report_table_running_witness :
  build_report_table demo_totals demo_otp demo_disc demo_fi = ok demo_report /\
  exists drops,
    column demo_report 5 stage_rows = map Some drops /\
    column demo_report 2 stage_rows = map Some (running_success (cohort demo_totals) drops).
Proof. demo_witness build_report_table_running. Defined.

Lemma build_report_table_monotone_witness :
  (forall c, 0 <= demo_totals c) /\ (forall col, 0 <= disc_value demo_disc col) /\
  build_report_table demo_totals demo_otp demo_disc demo_fi = ok demo_report /\
  exists l, column demo_report 2 stage_rows = map Some l /\ Sorted.Sorted Z.ge l.
Proof.
  assert (H1 : forall c, 0 <= demo_totals c) by (intros []; vm_compute; congruence).
  assert (H2 : forall col, 0 <= disc_value demo_disc col) by (intros []; vm_compute; congruence).
  split; [exact H1 | split; [exact H2 | split; [exact demo_build |]]].
  exact (build_report_table_monotone _ _ _ _ _ H1 H2 demo_build).
Defined.

Lemma build_report_table_linking_balance_witness :
  build_report_table demo_totals demo_otp demo_disc demo_fi = ok demo_report /\
  exists link appr rej,
    int_at demo_report 17 2 = Some link /\ int_at demo_report 18 2 = Some appr /\
    int_at demo_report 18 5 = Some rej /\
    link = appr + rej + (demo_totals Discovery
                         - sumZ (map (disc_value demo_disc) DISCOVERY_COLUMNS)).
Proof. demo_witness build_report_table_linking_balance. Defined.

Lemma build_report_table_fi_witness :
  build_report_table demo_totals demo_otp demo_disc demo_fi = ok demo_report /\
  (int_at demo_report 22 2 = Some (status_count demo_fi "Success" + status_count demo_fi "Failed") /\
   int_at demo_report 22 5 = Some (demo_totals Data_Fetch_Not_Attempted) /\
   int_at demo_report 23 2 = Some (demo_totals Data_Fetch_Success) /\
   int_at demo_report 23 5 = Some (status_count demo_fi "Success" + status_count demo_fi "Failed"
                                   - demo_totals Data_Fetch_Success)).
Proof. demo_witness build_report_table_fi. Defined.

Lemma build_report_table_review_witness :
  build_report_table demo_totals demo_otp demo_disc demo_fi = ok demo_report /\
  (int_at demo_report 18 2 = Some (demo_totals Approved_Consent_Requests) /\
   int_at demo_report 18 5 = Some (demo_totals Rejected_Consent_Requests) /\
   cell demo_report 19 5 = cell demo_report 18 5 /\
   cell demo_report 20 5 = Some blank /\ cell demo_report 20 6 = Some blank /\
   int_at demo_report 21 2 = Some (demo_totals FIP_Accepted_Consent_Artefacts) /\
   int_at demo_report 21 5 = Some (demo_totals FIP_Rejected_Consent_Artefacts)).
Proof. demo_witness build_report_table_review. Defined.

(** A discovery frame without its [NO_STATUS] column, and an OTP frame whose
    incorrect-OTP cell is null. *)
Definition disc_missing_column : Frame DiscoveryColumn :=
  mkFrame [Account_Discovered; Account_not_Found; FIP_Not_Selected; Failure]
          [fun _ => Some 1].
Definition otp_null_cell : Frame OtpColumn :=
  mkFrame [Total_Correct_OTP_Entered; Total_Incorrect_OTP_Entered; Total_OTP_Not_Entered]
          [fun c => match c with Total_Incorrect_OTP_Entered => None | _ => Some 3 end].

Lemma build_report_table_errors_witness :
  (frame_empty disc_missing_column = false /\
   forallb (fun col => mem col (columns disc_missing_column)) DISCOVERY_COLUMNS = false /\
   build_report_table demo_totals demo_otp disc_missing_column demo_fi = raise KeyError) /\
  (forallb (fun col => mem col (columns demo_disc)) DISCOVERY_COLUMNS = true /\
   frame_empty otp_null_cell = false /\
   mem Total_Incorrect_OTP_Entered (columns otp_null_cell) = true /\
   build_report_table demo_totals otp_null_cell demo_disc demo_fi = raise TypeError).
Proof.
  destruct (build_report_table_errors demo_totals demo_otp disc_missing_column demo_fi)
    as [Hk _].
  destruct (build_report_table_errors demo_totals otp_null_cell demo_disc demo_fi)
    as [_ Hv].
  split; (split; [reflexivity | split; [reflexivity |]]).
  - apply Hk; reflexivity.
  - split; [reflexivity |]. apply Hv; [reflexivity | reflexivity | reflexivity |].
    do 2 eexists. split; reflexivity.
Defined.

Lemma build_report_table_empty_breakdowns_witness :
  frame_empty (@empty_frame OtpColumn) = true /\
  frame_empty (@empty_frame DiscoveryColumn) = true /\
  exists t, build_report_table demo_totals empty_frame empty_frame [] = ok t /\
    int_at t 9 5 = Some 0 /\ int_at t 10 5 = Some 0 /\
    int_at t 11 5 = Some (demo_totals OTP_Based_Sign_in_Sign_up
                          + demo_totals View_Consent_Details) /\
    int_at t 12 5 = Some 0 /\ int_at t 16 5 = Some 0 /\
    int_at t 22 2 = Some 0 /\ int_at t 23 5 = Some (- demo_totals Data_Fetch_Success).
Proof.
  split; [reflexivity | split; [reflexivity |]].
  apply build_report_table_empty_breakdowns; reflexivity.
Defined.
