(* ===== verification/Calendar.v ===== *)
(** * Calendar: the proleptic Gregorian dates of Python's [datetime]

    [_date_range] and [_month_prefixes] (report_engine.py lines 65-86) walk
    over [datetime] values: they compare them, add [timedelta(days=1)] or
    [timedelta(days=32)] and call [replace(day=1)].  A date is a record of
    three integers; [valid_date] is the invariant that the [datetime]
    constructor enforces ([MINYEAR <= year <= MAXYEAR], a real month, a day
    of that month).  [toordinal] is Python's ordinal ([date.toordinal]:
    1 January of year 1 is day 1); adding days goes through it, and the
    result past 31 December 9999 raises [OverflowError].

    The successor [next_day] is proved to add one to the ordinal, and the
    ordinal to be strictly increasing for the tuple order that Python's
    comparison uses, on valid dates. *)

From Stdlib Require Import ZArith Bool List Lia.
From S2P Require Import Prelude.
Import ListNotations.
Open Scope Z_scope.

Record Date : Type := mkDate {
  year : Z;
  month : Z;
  day : Z
}.

Definition MINYEAR : Z := 1.
Definition MAXYEAR : Z := 9999.

(** [_is_leap(year)]. *)
Definition is_leap (y : Z) : bool :=
  (y mod 4 =? 0) && (negb (y mod 100 =? 0) || (y mod 400 =? 0)).

(** [_days_in_month(year, month)] for [1 <= month <= 12]. *)
Definition days_in_month (y m : Z) : Z :=
  if m =? 2 then (if is_leap y then 29 else 28)
  else if (m =? 4) || (m =? 6) || (m =? 9) || (m =? 11) then 30
  else 31.

(** [_DAYS_BEFORE_MONTH[month] + (month > 2 and _is_leap(year))]. *)
Definition days_before_month (y m : Z) : Z :=
  let base :=
    match m with
    | 1 => 0 | 2 => 31 | 3 => 59 | 4 => 90 | 5 => 120 | 6 => 151
    | 7 => 181 | 8 => 212 | 9 => 243 | 10 => 273 | 11 => 304 | 12 => 334
    | _ => 0
    end in
  if (m >? 2) && is_leap y then base + 1 else base.

(** [_days_before_year(year)]: the days of the years before [year]. *)
Definition days_before_year (y : Z) : Z :=
  let y' := y - 1 in y' * 365 + y' / 4 - y' / 100 + y' / 400.

(** [date.toordinal()]. *)
Definition toordinal (d : Date) : Z :=
  days_before_year (year d) + days_before_month (year d) (month d) + day d.

(** The checks of the [datetime] constructor. *)
Definition valid_date (d : Date) : bool :=
  (MINYEAR <=? year d) && (year d <=? MAXYEAR) &&
  (1 <=? month d) && (month d <=? 12) &&
  (1 <=? day d) && (day d <=? days_in_month (year d) (month d)).

(** The next calendar day. *)
Definition next_day (d : Date) : Date :=
  if day d <? days_in_month (year d) (month d) then mkDate (year d) (month d) (day d + 1)
  else if month d <? 12 then mkDate (year d) (month d + 1) 1
  else mkDate (year d + 1) 1 1.

Fixpoint iter_next_day (k : nat) (d : Date) : Date :=
  match k with
  | O => d
  | S k' => iter_next_day k' (next_day d)
  end.

(** [d + timedelta(days=k)] for [k >= 0]: [OverflowError] when the result
    is past [datetime.max]. *)
Definition add_days (d : Date) (k : nat) : except Date :=
  let r := iter_next_day k d in
  if year r <=? MAXYEAR then ok r else raise OverflowError.

(** [d.replace(day=1)]. *)
Definition replace_day1 (d : Date) : Date := mkDate (year d) (month d) 1.

(** [a <= b] on [datetime] values: the order of the tuples
    [(year, month, day)] (the times are all midnight). *)
Definition date_leb (a b : Date) : bool :=
  (year a <? year b) ||
  ((year a =? year b) &&
   ((month a <? month b) || ((month a =? month b) && (day a <=? day b)))).

(** The last representable date, [datetime.max.date()]. *)
Definition date_max : Date := mkDate 9999 12 31.

(** ** Lemmas on the calendar *)

Lemma month_cases (m : Z) :
  1 <= m <= 12 ->
  m = 1 \/ m = 2 \/ m = 3 \/ m = 4 \/ m = 5 \/ m = 6 \/
  m = 7 \/ m = 8 \/ m = 9 \/ m = 10 \/ m = 11 \/ m = 12.
Proof. lia. Qed.

(** Split a disjunction of equations into one goal per equation. *)
Ltac split_eqs H :=
  match type of H with
  | _ \/ _ => let H' := fresh in destruct H as [H' | H]; [subst | split_eqs H]
  | _ => subst
  end.

(** Split a month hypothesis [1 <= m <= 12] into twelve goals. *)
Ltac case_month m :=
  let H := fresh in
  assert (H : 1 <= m <= 12) by lia;
  apply month_cases in H; split_eqs H.

Lemma div_step (c y : Z) : 0 < c -> y / c - (y - 1) / c = if y mod c =? 0 then 1 else 0.
Proof.
  intros Hc.
  pose proof (Z.div_mod y c ltac:(lia)). pose proof (Z.div_mod (y - 1) c ltac:(lia)).
  pose proof (Z.mod_pos_bound y c Hc). pose proof (Z.mod_pos_bound (y - 1) c Hc).
  destruct (Z.eqb_spec (y mod c) 0); nia.
Qed.

Lemma mod_divides (y a b : Z) : 0 < a -> 0 < b -> y mod (a * b) = 0 -> y mod a = 0.
Proof.
  intros Ha Hb H. apply Z.mod_divide in H; [| lia]. apply Z.mod_divide; [lia |].
  eapply Z.divide_trans; [| exact H]. exists b. lia.
Qed.

Lemma days_before_year_succ (y : Z) :
  days_before_year (y + 1) = days_before_year y + (if is_leap y then 366 else 365).
Proof.
  unfold days_before_year, is_leap.
  replace (y + 1 - 1) with y by lia.
  pose proof (div_step 4 y ltac:(lia)). pose proof (div_step 100 y ltac:(lia)).
  pose proof (div_step 400 y ltac:(lia)).
  pose proof (mod_divides y 100 4 ltac:(lia) ltac:(lia)).
  pose proof (mod_divides y 4 25 ltac:(lia) ltac:(lia)).
  destruct (Z.eqb_spec (y mod 4) 0), (Z.eqb_spec (y mod 100) 0), (Z.eqb_spec (y mod 400) 0);
    cbn in *; lia.
Qed.

Lemma days_before_year_mono (y1 y2 : Z) :
  y1 <= y2 -> days_before_year y1 + 365 * (y2 - y1) <= days_before_year y2.
Proof.
  intros H. replace y2 with (y1 + Z.of_nat (Z.to_nat (y2 - y1))) by lia.
  generalize (Z.to_nat (y2 - y1)) as k. induction k as [| k IH]; [rewrite Z.add_0_r; lia |].
  rewrite Nat2Z.inj_succ, <- Z.add_1_r, Z.add_assoc, days_before_year_succ.
  destruct (is_leap _); lia.
Qed.

Lemma days_in_month_range (y m : Z) : 28 <= days_in_month y m <= 31.
Proof.
  unfold days_in_month. destruct (m =? 2); [destruct (is_leap y); lia |].
  destruct (_ || _); lia.
Qed.

Lemma days_before_month_succ (y m : Z) :
  1 <= m <= 11 -> days_before_month y (m + 1) = days_before_month y m + days_in_month y m.
Proof.
  intros Hm. case_month m; [| | | | | | | | | | | lia];
    unfold days_before_month, days_in_month; cbn; destruct (is_leap y); reflexivity.
Qed.

Lemma days_before_month_end (y : Z) :
  days_before_month y 12 + days_in_month y 12 = if is_leap y then 366 else 365.
Proof. unfold days_before_month, days_in_month. cbn. destruct (is_leap y); reflexivity. Qed.

Lemma days_before_month_1 (y : Z) : days_before_month y 1 = 0.
Proof. reflexivity. Qed.

(** A month ends before the next one begins. *)
Lemma days_before_month_lt (y m1 m2 : Z) :
  1 <= m1 -> m1 < m2 -> m2 <= 12 ->
  days_before_month y m1 + days_in_month y m1 <= days_before_month y m2.
Proof.
  intros H1 H12 H2. case_month m1; case_month m2; try lia;
    unfold days_before_month, days_in_month; cbn; destruct (is_leap y); lia.
Qed.

Lemma days_before_month_bound (y m : Z) :
  1 <= m <= 12 ->
  days_before_month y m + days_in_month y m <= if is_leap y then 366 else 365.
Proof.
  intros Hm. rewrite <- days_before_month_end.
  destruct (Z.eq_dec m 12) as [-> | Hne]; [lia |].
  pose proof (days_before_month_lt y m 12 ltac:(lia) ltac:(lia) ltac:(lia)).
  pose proof (days_in_month_range y 12). lia.
Qed.

Lemma days_before_month_nonneg (y m : Z) : 0 <= days_before_month y m.
Proof.
  unfold days_before_month.
  destruct m as [| p | p]; [cbn; lia | | cbn; lia].
  destruct ((Z.pos p >? 2) && is_leap y);
    repeat (destruct p as [p | p |]; try (cbn; lia)).
Qed.

Definition year_length (y : Z) : Z := if is_leap y then 366 else 365.

(** A valid date lies within its year's ordinals. *)
Lemma toordinal_in_year (d : Date) :
  valid_date d = true ->
  days_before_year (year d) < toordinal d <=
  days_before_year (year d) + year_length (year d).
Proof.
  unfold valid_date, toordinal, year_length. destruct d as [y m dd]. cbn.
  intros H. repeat rewrite andb_true_iff in H. rewrite !Z.leb_le in H.
  pose proof (days_before_month_nonneg y m).
  pose proof (days_before_month_bound y m ltac:(lia)). lia.
Qed.

(** Unpack [valid_date] into its six bounds. *)
Lemma valid_date_iff (d : Date) :
  valid_date d = true <->
  MINYEAR <= year d <= MAXYEAR /\ 1 <= month d <= 12 /\
  1 <= day d <= days_in_month (year d) (month d).
Proof.
  unfold valid_date. rewrite !andb_true_iff, !Z.leb_le. tauto.
Qed.

Ltac valid_hyp H := apply valid_date_iff in H; destruct H as [? [? ?]].

(** [toordinal] of the next day is one more. *)
Lemma toordinal_next_day (d : Date) :
  valid_date d = true -> toordinal (next_day d) = toordinal d + 1.
Proof.
  intros H. valid_hyp H. destruct d as [y m dd]; cbn in *.
  unfold next_day, toordinal; cbn.
  destruct (Z.ltb_spec dd (days_in_month y m)); cbn; [lia |].
  destruct (Z.ltb_spec m 12); cbn.
  - rewrite days_before_month_succ by lia. lia.
  - assert (m = 12) by lia. subst m.
    rewrite days_before_year_succ. pose proof (days_before_month_end y) as E.
    unfold days_in_month in E. cbn in *. destruct (is_leap y); lia.
Qed.

Lemma next_day_valid (d : Date) :
  valid_date d = true -> year (next_day d) <= MAXYEAR -> valid_date (next_day d) = true.
Proof.
  intros H Hy. pose proof H as Hv. valid_hyp H. apply valid_date_iff.
  destruct d as [y m dd]; unfold next_day in *; cbn in *.
  pose proof (days_in_month_range y m). pose proof (days_in_month_range (y + 1) 1).
  pose proof (days_in_month_range y (m + 1)).
  destruct (Z.ltb_spec dd (days_in_month y m)); cbn in *; [lia |].
  destruct (Z.ltb_spec m 12); cbn in *; lia.
Qed.

Lemma next_day_year (d : Date) : year d <= year (next_day d) <= year d + 1.
Proof.
  unfold next_day. destruct (_ <? _); [cbn; lia |]. destruct (_ <? _); cbn; lia.
Qed.

(** The successor leaves the representable range only from [date_max]. *)
Lemma next_day_overflow (d : Date) :
  valid_date d = true -> (MAXYEAR < year (next_day d) <-> d = date_max).
Proof.
  intros H. valid_hyp H. destruct d as [y m dd]; unfold next_day, date_max, MAXYEAR in *; cbn in *.
  destruct (Z.ltb_spec dd (days_in_month y m)); cbn.
  - split; [lia | intros E; injection E as -> -> ->; cbn in *; lia].
  - destruct (Z.ltb_spec m 12); cbn.
    + split; [lia | intros E; injection E as -> -> ->; lia].
    + assert (m = 12) by lia. subst m. assert (dd = 31) by (cbn in *; lia). subst dd.
      split; [intros Hy; f_equal; lia | intros E; injection E as ->; lia].
Qed.

(** The ordinal is strictly increasing in the tuple order. *)
Lemma toordinal_lt (a b : Date) :
  valid_date a = true -> valid_date b = true -> date_leb b a = false ->
  toordinal a < toordinal b.
Proof.
  intros Ha Hb Hba. pose proof (toordinal_in_year a Ha) as Ia. pose proof (toordinal_in_year b Hb) as Ib.
  valid_hyp Ha. valid_hyp Hb. destruct a as [ya ma da], b as [yb mb db].
  unfold date_leb, toordinal, year_length in *; cbn in *.
  destruct (Z.ltb_spec yb ya); cbn in Hba; [discriminate |].
  destruct (Z.eqb_spec yb ya); cbn in Hba.
  - subst yb. destruct (Z.ltb_spec mb ma); cbn in Hba; [discriminate |].
    destruct (Z.eqb_spec mb ma); cbn in Hba.
    + subst mb. apply Z.leb_gt in Hba. lia.
    + pose proof (days_before_month_lt ya ma mb ltac:(lia) ltac:(lia) ltac:(lia)). lia.
  - pose proof (days_before_year_mono (ya + 1) yb ltac:(lia)).
    rewrite days_before_year_succ in *. lia.
Qed.

(** On valid dates, Python's comparison is the comparison of ordinals. *)
Lemma date_leb_toordinal (a b : Date) :
  valid_date a = true -> valid_date b = true ->
  date_leb a b = (toordinal a <=? toordinal b).
Proof.
  intros Ha Hb. destruct (date_leb a b) eqn:E; symmetry.
  - apply Z.leb_le. destruct (date_leb b a) eqn:E'.
    + assert (a = b) as ->; [| lia].
      destruct a as [ya ma da], b as [yb mb db]; unfold date_leb in *; cbn in *.
      repeat (rewrite ?orb_true_iff, ?andb_true_iff, ?Z.ltb_lt, ?Z.eqb_eq, ?Z.leb_le in E, E').
      f_equal; lia.
    + pose proof (toordinal_lt a b Ha Hb E'). lia.
  - apply Z.leb_gt. exact (toordinal_lt b a Hb Ha E).
Qed.

Lemma toordinal_inj (a b : Date) :
  valid_date a = true -> valid_date b = true -> toordinal a = toordinal b -> a = b.
Proof.
  intros Ha Hb E. destruct (date_leb a b) eqn:E1; [| pose proof (toordinal_lt b a Hb Ha E1); lia].
  destruct (date_leb b a) eqn:E2; [| pose proof (toordinal_lt a b Ha Hb E2); lia].
  destruct a as [ya ma da], b as [yb mb db]; unfold date_leb in *; cbn in *.
  repeat (rewrite ?orb_true_iff, ?andb_true_iff, ?Z.ltb_lt, ?Z.eqb_eq, ?Z.leb_le in E1, E2).
  f_equal; lia.
Qed.

Lemma iter_next_day_S (k : nat) (d : Date) :
  iter_next_day (S k) d = next_day (iter_next_day k d).
Proof. revert d. induction k as [| k IH]; intros d; [reflexivity |]. cbn in *. apply IH. Qed.

Lemma iter_next_day_year (k : nat) (d : Date) : year d <= year (iter_next_day k d).
Proof.
  revert d. induction k as [| k IH]; intros d; cbn; [lia |].
  pose proof (next_day_year d). specialize (IH (next_day d)). lia.
Qed.

(** Walking [k] days from a valid date stays valid while the year is
    representable, and adds [k] to the ordinal. *)
Lemma iter_next_day_spec (k : nat) (d : Date) :
  valid_date d = true -> year (iter_next_day k d) <= MAXYEAR ->
  valid_date (iter_next_day k d) = true /\
  toordinal (iter_next_day k d) = toordinal d + Z.of_nat k.
Proof.
  revert d. induction k as [| k IH]; intros d Hd Hy; cbn in *; [split; [exact Hd | lia] |].
  pose proof (iter_next_day_year k (next_day d)).
  assert (Hn : valid_date (next_day d) = true) by (apply next_day_valid; [exact Hd | lia]).
  destruct (IH (next_day d) Hn Hy) as [Hv Ho]. split; [exact Hv |].
  rewrite Ho, toordinal_next_day by exact Hd. lia.
Qed.

(** No valid date comes after [date_max]. *)
Lemma toordinal_le_max (c : Date) :
  valid_date c = true -> toordinal c <= toordinal date_max.
Proof.
  intros Hc. destruct (date_leb c date_max) eqn:E.
  - rewrite date_leb_toordinal in E by (exact Hc || reflexivity). lia.
  - exfalso. pose proof (days_in_month_range (year c) (month c)).
    apply valid_date_iff in Hc. unfold date_leb, date_max, MAXYEAR in *; cbn in *.
    repeat (rewrite ?orb_false_iff, ?andb_false_iff, ?Z.ltb_ge, ?Z.eqb_neq, ?Z.leb_gt in E).
    lia.
Qed.

(** The walk leaves the representable years only past the ordinal of
    [date_max]. *)
Lemma iter_next_day_overflow (k : nat) (d : Date) :
  valid_date d = true -> MAXYEAR < year (iter_next_day k d) ->
  toordinal date_max < toordinal d + Z.of_nat k.
Proof.
  intros Hd. induction k as [| k IH]; intros Hy.
  - cbn in Hy. apply valid_date_iff in Hd. lia.
  - rewrite iter_next_day_S in Hy.
    destruct (Z.le_gt_cases (year (iter_next_day k d)) MAXYEAR) as [Hk | Hk]; [| specialize (IH Hk); lia].
    destruct (iter_next_day_spec k d Hd Hk) as [Hv Ho].
    apply (next_day_overflow _ Hv) in Hy. rewrite <- Hy. lia.
Qed.

(** The date [k] days after [d] is the valid date of ordinal
    [toordinal d + k], when there is one. *)
Lemma iter_next_day_eq (k : nat) (d c : Date) :
  valid_date d = true -> valid_date c = true ->
  toordinal c = toordinal d + Z.of_nat k -> iter_next_day k d = c.
Proof.
  intros Hd Hc Ho.
  destruct (Z.le_gt_cases (year (iter_next_day k d)) MAXYEAR) as [Hy | Hy].
  - destruct (iter_next_day_spec k d Hd Hy) as [Hv Hk].
    apply toordinal_inj; [exact Hv | exact Hc | lia].
  - pose proof (iter_next_day_overflow k d Hd Hy). pose proof (toordinal_le_max c Hc). lia.
Qed.

(** [add_days] succeeds exactly when the ordinal stays within range. *)
Lemma add_days_ok (d : Date) (k : nat) :
  valid_date d = true -> toordinal d + Z.of_nat k <= toordinal date_max ->
  exists c, add_days d k = ok c /\ valid_date c = true /\
            toordinal c = toordinal d + Z.of_nat k.
Proof.
  intros Hd Hk. unfold add_days.
  destruct (Z.le_gt_cases (year (iter_next_day k d)) MAXYEAR) as [Hy | Hy].
  - destruct (iter_next_day_spec k d Hd Hy) as [Hv Ho].
    apply Z.leb_le in Hy. rewrite Hy. eauto.
  - pose proof (iter_next_day_overflow k d Hd Hy). lia.
Qed.

Lemma add_days_overflow (d : Date) (k : nat) :
  valid_date d = true -> toordinal date_max < toordinal d + Z.of_nat k ->
  add_days d k = raise OverflowError.
Proof.
  intros Hd Hk. unfold add_days.
  destruct (Z.le_gt_cases (year (iter_next_day k d)) MAXYEAR) as [Hy | Hy].
  - destruct (iter_next_day_spec k d Hd Hy) as [Hv Ho].
    pose proof (toordinal_le_max _ Hv). lia.
  - apply Z.leb_gt in Hy. rewrite Hy. reflexivity.
Qed.
