(* ===== verification/DateFormat.v ===== *)
(** * DateFormat: [strftime] and [strptime] with the format [%d_%m_%Y]

    The date helpers of report_engine.py parse their tokens with
    [datetime.strptime(s.strip(), "%d_%m_%Y")] (lines 67-68, 79-80, 105-106)
    and print dates with [strftime("%d_%m_%Y")] (line 72) and
    [strftime('%m_%Y')] (line 84).

    CPython's [_strptime] compiles the format to the regular expression
    [(3[01]|[12]\d|0[1-9]|[1-9]| [1-9])_(1[0-2]|0[1-9]|[1-9])_(\d\d\d\d)],
    matches it at the start of the string, raises [ValueError] when it does
    not match or leaves characters unconverted, and builds the date with
    the [datetime] constructor, which raises [ValueError] for a day outside
    the month or year 0.  The regular expression is modelled as a
    backtracking matcher that lists the matches of each alternative in the
    order the engine tries them, so the first element of the list is the
    match [re] returns.  Strings are byte strings; [%Y] is printed with four
    digits.

    [str.strip()] removes the ASCII characters for which [str.isspace()]
    holds. *)

From Stdlib Require Import ZArith String Ascii List Bool Lia.
From S2P Require Import Prelude Calendar.
Import ListNotations.
Open Scope Z_scope.

(** ** Printing *)

Definition digit (n : Z) : ascii := ascii_of_nat (48 + Z.to_nat n).

(** A number on two digits, with a leading zero. *)
Definition pad2 (n : Z) : string :=
  String (digit (n / 10)) (String (digit (n mod 10)) EmptyString).

(** A number on four digits. *)
Definition pad4 (n : Z) : string :=
  String (digit (n / 1000))
    (String (digit (n / 100 mod 10))
      (String (digit (n / 10 mod 10)) (String (digit (n mod 10)) EmptyString))).

(** [d.strftime("%d_%m_%Y")], with [%Y] on four digits as CPython prints
    it on platforms whose C library zero-pads the year (glibc prints a
    year below 1000 without padding; the model assumes the padding). *)
Definition strftime_dmy (d : Date) : string :=
  (pad2 (day d) ++ "_" ++ pad2 (month d) ++ "_" ++ pad4 (year d))%string.

(** [d.strftime('%m_%Y')]. *)
Definition strftime_my (d : Date) : string :=
  (pad2 (month d) ++ "_" ++ pad4 (year d))%string.

(** ** [str.strip()] *)

Definition is_py_space (c : ascii) : bool :=
  let n := nat_of_ascii c in
  Nat.eqb n 32 || (Nat.leb 9 n && Nat.leb n 13) || (Nat.leb 28 n && Nat.leb n 31).

Fixpoint lstrip (s : string) : string :=
  match s with
  | EmptyString => EmptyString
  | String c s' => if is_py_space c then lstrip s' else s
  end.

Fixpoint rev_string (s : string) : string :=
  match s with
  | EmptyString => EmptyString
  | String c s' => (rev_string s' ++ String c EmptyString)%string
  end.

Definition strip (s : string) : string := rev_string (lstrip (rev_string (lstrip s))).

(** ** Parsing *)

(** The value of a digit between [lo] and [hi]. *)
Definition digit_in (lo hi : Z) (c : ascii) : option Z :=
  let v := Z.of_nat (nat_of_ascii c) - 48 in
  if (lo <=? v) && (v <=? hi) then Some v else None.

(** The matches of one alternative. *)
Definition one {A : Type} (o : option A) (rest : string) : list (A * string) :=
  match o with
  | Some v => [(v, rest)]
  | None => []
  end.

(** [%d]: [3[01]|[12]\d|0[1-9]|[1-9]| [1-9]], in this order. *)
Definition re_d (s : string) : list (Z * string) :=
  (match s with
   | String "3"%char (String c r) => one (option_map (fun v => 30 + v) (digit_in 0 1 c)) r
   | _ => []
   end) ++
  (match s with
   | String c1 (String c2 r) =>
       one (match digit_in 1 2 c1, digit_in 0 9 c2 with
            | Some a, Some b => Some (10 * a + b)
            | _, _ => None
            end) r
   | _ => []
   end) ++
  (match s with
   | String "0"%char (String c r) => one (digit_in 1 9 c) r
   | _ => []
   end) ++
  (match s with
   | String c r => one (digit_in 1 9 c) r
   | _ => []
   end) ++
  (match s with
   | String " "%char (String c r) => one (digit_in 1 9 c) r
   | _ => []
   end).

(** [%m]: [1[0-2]|0[1-9]|[1-9]], in this order. *)
Definition re_m (s : string) : list (Z * string) :=
  (match s with
   | String "1"%char (String c r) => one (option_map (fun v => 10 + v) (digit_in 0 2 c)) r
   | _ => []
   end) ++
  (match s with
   | String "0"%char (String c r) => one (digit_in 1 9 c) r
   | _ => []
   end) ++
  (match s with
   | String c r => one (digit_in 1 9 c) r
   | _ => []
   end).

(** [%Y]: [\d\d\d\d]. *)
Definition re_Y (s : string) : list (Z * string) :=
  match s with
  | String a (String b (String c (String d r))) =>
      one (match digit_in 0 9 a, digit_in 0 9 b, digit_in 0 9 c, digit_in 0 9 d with
           | Some a, Some b, Some c, Some d => Some (1000 * a + 100 * b + 10 * c + d)
           | _, _, _, _ => None
           end) r
  | _ => []
  end.

(** A literal separator character ([_] or [-]). *)
Definition re_sep (sep : ascii) (s : string) : list string :=
  match s with
  | String c r => if Ascii.eqb c sep then [r] else []
  | _ => []
  end.

(** All matches of the format [%d<sep>%m<sep>%Y], in the engine's order:
    (day, month, year, unconverted rest). *)
Definition re_dmy (sep : ascii) (s : string) : list (Z * Z * Z * string) :=
  flat_map (fun '(d, r1) =>
    flat_map (fun r2 =>
      flat_map (fun '(m, r3) =>
        flat_map (fun r4 =>
          map (fun '(y, r5) => (d, m, y, r5)) (re_Y r4))
        (re_sep sep r3))
      (re_m r2))
    (re_sep sep r1))
  (re_d s).

(** [datetime.strptime(s, "%d<sep>%m<sep>%Y")]. *)
Definition strptime_fmt (sep : ascii) (s : string) : except Date :=
  match re_dmy sep s with
  | [] => raise ValueError
  | (d, m, y, rest) :: _ =>
      match rest with
      | EmptyString =>
          let dt := mkDate y m d in
          if valid_date dt then ok dt else raise ValueError
      | _ => raise ValueError
      end
  end.

(** [datetime.strptime(s, "%d_%m_%Y")]. *)
Definition strptime_dmy (s : string) : except Date := strptime_fmt "_"%char s.

(** ** Lemmas *)

Lemma string_app_nil (s : string) : (s ++ EmptyString)%string = s.
Proof. induction s as [| c s IH]; cbn; [reflexivity | rewrite IH; reflexivity]. Qed.

Lemma digit_in_digit (lo hi k : Z) :
  0 <= k <= 9 -> lo <= k <= hi -> digit_in lo hi (digit k) = Some k.
Proof.
  intros Hk Hr. unfold digit_in, digit.
  rewrite nat_ascii_embedding by lia.
  replace (Z.of_nat (48 + Z.to_nat k) - 48) with k by lia.
  destruct Hr as [H1 H2]. apply Z.leb_le in H1, H2. rewrite H1, H2. reflexivity.
Qed.

(** The [n]-th candidates [lo], ..., [lo + k - 1]. *)
Lemma Z_range_In (n lo : Z) (k : nat) :
  lo <= n < lo + Z.of_nat k -> In n (map (fun i => lo + Z.of_nat i) (seq 0 k)).
Proof.
  intros H. apply in_map_iff. exists (Z.to_nat (n - lo)). split; [lia |].
  apply in_seq. lia.
Qed.

(** Split [lo <= n < lo + k] into [k] goals, one per value. *)
Ltac enumerate n lo k :=
  let H := fresh in
  assert (H : In n (map (fun i => lo + Z.of_nat i) (seq 0 k))) by (apply Z_range_In; lia);
  cbn in H; repeat (destruct H as [<- | H]); [.. | contradiction].

(** [%d] reads back a printed day as its first match. *)
Lemma re_d_pad2 (n : Z) (r : string) :
  1 <= n <= 31 -> exists tl, re_d (pad2 n ++ r) = (n, r) :: tl.
Proof. intros Hn. enumerate n 1 31%nat; eexists; reflexivity. Qed.

(** [%m] reads back a printed month as its first match. *)
Lemma re_m_pad2 (n : Z) (r : string) :
  1 <= n <= 12 -> exists tl, re_m (pad2 n ++ r) = (n, r) :: tl.
Proof. intros Hn. enumerate n 1 12%nat; eexists; reflexivity. Qed.

(** The four digits of a year below 10000. *)
Lemma four_digits (y : Z) :
  0 <= y <= 9999 ->
  0 <= y / 1000 <= 9 /\ 0 <= y / 100 mod 10 <= 9 /\ 0 <= y / 10 mod 10 <= 9 /\
  0 <= y mod 10 <= 9 /\
  1000 * (y / 1000) + 100 * (y / 100 mod 10) + 10 * (y / 10 mod 10) + y mod 10 = y.
Proof.
  intros Hy.
  pose proof (Z.div_mod y 10 ltac:(lia)) as E1.
  pose proof (Z.div_mod (y / 10) 10 ltac:(lia)) as E2.
  pose proof (Z.div_mod (y / 100) 10 ltac:(lia)) as E3.
  rewrite Z.div_div in E2 by lia. rewrite Z.div_div in E3 by lia.
  change (10 * 10) with 100 in E2. change (100 * 10) with 1000 in E3.
  pose proof (Z.mod_pos_bound y 10 ltac:(lia)).
  pose proof (Z.mod_pos_bound (y / 10) 10 ltac:(lia)).
  pose proof (Z.mod_pos_bound (y / 100) 10 ltac:(lia)).
  assert (0 <= y / 1000 < 10) by (split; [apply Z.div_pos | apply Z.div_lt_upper_bound]; lia).
  lia.
Qed.

(** [%Y] reads back a year printed on four digits. *)
Lemma re_Y_pad4 (y : Z) (r : string) :
  0 <= y <= 9999 -> re_Y (pad4 y ++ r) = [(y, r)].
Proof.
  intros Hy. destruct (four_digits y Hy) as [H1 [H2 [H3 [H4 E]]]].
  unfold pad4. cbn [append]. unfold re_Y.
  rewrite !digit_in_digit by lia. cbv beta iota delta [one]. rewrite E. reflexivity.
Qed.

Lemma flat_map_head {A B : Type} (f : A -> list B) (x : A) (l : list A) (y : B) (ys : list B) :
  f x = y :: ys -> flat_map f (x :: l) = y :: (ys ++ flat_map f l).
Proof. intros H. cbn. rewrite H. reflexivity. Qed.

Lemma strptime_printed_dmy (d : Date) :
  valid_date d = true -> strptime_dmy (strftime_dmy d) = ok d.
Proof.
  intros Hv. pose proof Hv as H. valid_hyp H.
  destruct d as [y m dd]; cbn [year month day] in *.
  pose proof (days_in_month_range y m).
  unfold strptime_dmy, strptime_fmt, strftime_dmy, re_dmy. cbn [year month day].
  destruct (re_d_pad2 dd ("_" ++ pad2 m ++ "_" ++ pad4 y)%string ltac:(lia)) as [tl1 E1].
  destruct (re_m_pad2 m (String "_"%char (pad4 y)) ltac:(lia)) as [tl2 E2].
  rewrite E1. cbn -[pad2 pad4 re_m re_Y]. rewrite E2. cbn -[pad2 pad4 re_Y].
  rewrite <- (string_app_nil (pad4 y)), re_Y_pad4 by (unfold MINYEAR, MAXYEAR in *; lia).
  cbn. rewrite Hv. reflexivity.
Qed.

Lemma is_py_space_digit (k : Z) : 0 <= k <= 9 -> is_py_space (digit k) = false.
Proof.
  intros Hk. unfold is_py_space, digit. rewrite nat_ascii_embedding by lia.
  destruct (Nat.eqb_spec (48 + Z.to_nat k) 32), (Nat.leb_spec 9 (48 + Z.to_nat k)),
    (Nat.leb_spec (48 + Z.to_nat k) 13), (Nat.leb_spec 28 (48 + Z.to_nat k)),
    (Nat.leb_spec (48 + Z.to_nat k) 31); cbn; lia || reflexivity.
Qed.

Lemma digit_bound (n : Z) : 0 <= n -> 0 <= n mod 10 <= 9.
Proof. intros. pose proof (Z.mod_pos_bound n 10). lia. Qed.

(** A printed date has no surrounding white space. *)
Lemma strip_strftime_dmy (d : Date) :
  valid_date d = true -> strip (strftime_dmy d) = strftime_dmy d.
Proof.
  intros Hv. pose proof Hv as H. valid_hyp H. pose proof (days_in_month_range (year d) (month d)).
  assert (Hd : 0 <= day d / 10 <= 9) by (split; [apply Z.div_pos | apply Z.div_le_upper_bound]; lia).
  assert (Hy : 0 <= year d mod 10 <= 9) by (apply digit_bound; unfold MINYEAR in *; lia).
  unfold strip, strftime_dmy, pad2, pad4. cbn -[is_py_space digit].
  rewrite (is_py_space_digit (day d / 10) Hd). cbn -[is_py_space digit].
  rewrite (is_py_space_digit (year d mod 10) Hy). reflexivity.
Qed.

(** C15: printing a valid date with [%d_%m_%Y] and parsing it back with
    [strptime] gives the date again, and so does parsing the stripped
    token as [_date_range] does: the regular expression's first match
    reads the two-digit day and month and the four-digit year. *)
Theorem strptime_strftime (d : Date) :
  valid_date d = true ->
  strptime_dmy (strftime_dmy d) = ok d /\ strptime_dmy (strip (strftime_dmy d)) = ok d.
Proof.
  intros Hv. rewrite strip_strftime_dmy by exact Hv.
  split; apply strptime_printed_dmy, Hv.
Qed.

Lemma strptime_strftime_witness :
  valid_date (mkDate 2024 2 29) = true /\
  strptime_dmy (strftime_dmy (mkDate 2024 2 29)) = ok (mkDate 2024 2 29).
Proof.
  split; [reflexivity |]. apply strptime_strftime. reflexivity.
Defined.
