(* ===== verification/DateRange.v ===== *)
(** * DateRange: [_date_range] and [_month_prefixes]

    [_date_range(start_str, end_str)] (report_engine.py lines 65-74) parses
    both tokens and walks from the start to the end one day at a time,
    printing each day; the fetchers of the OTP, discovery and fetch-status
    counts query one file per printed day.  [_month_prefixes] (lines 77-86)
    walks from the first day of the start's month by [+ timedelta(days=32)]
    and [replace(day=1)], printing [*mm_yyyy] for each month; the stage
    fetcher queries one file per month.

    Both [while cur <= end] loops are [Fixpoint]s on a fuel argument that
    [_date_range] and [_month_prefixes] set to one more than the number of
    iterations the loop makes on valid dates; the theorems below show that
    this fuel is never exhausted (the loop stops on its own condition or
    raises first).

    Both loops print the current date and then advance it, so a range that
    ends on the last representable date raises [OverflowError] from the
    final [+ timedelta]. *)

From Stdlib Require Import ZArith String List Bool Lia.
From S2P Require Import Prelude Calendar DateFormat.
Import ListNotations.
Open Scope Z_scope.

(** ** [_date_range] *)

(** The [while cur <= end] loop of lines 69-73. *)
Fixpoint date_range_loop (fuel : nat) (cur stop : Date) (out : list string)
  : except (list string) :=
  match fuel with
  | O => ok out
  | S fuel' =>
      if date_leb cur stop then
        let out := out ++ [strftime_dmy cur] in
        let* cur := add_days cur 1 in
        date_range_loop fuel' cur stop out
      else ok out
  end.

(** One iteration per day of the range, and one for the final test. *)
Definition date_range_fuel (start stop : Date) : nat :=
  S (Z.to_nat (toordinal stop - toordinal start + 1)).

(** [_date_range(start_str, end_str)], lines 65-74. *)
Definition _date_range (start_str end_str : string) : except (list string) :=
  let* start := strptime_dmy (strip start_str) in
  let* stop := strptime_dmy (strip end_str) in
  date_range_loop (date_range_fuel start stop) start stop [].

(** The [n] consecutive days from [d]. *)
Fixpoint days_from (d : Date) (n : nat) : list Date :=
  match n with
  | O => []
  | S n' => d :: days_from (next_day d) n'
  end.

(** The integers [a], [a + 1], ..., [a + n - 1]. *)
Definition zseq (a : Z) (n : nat) : list Z := map (fun i => a + Z.of_nat i) (seq 0 n).

(** ** [_month_prefixes] *)

(** The [while cur <= end] loop of lines 83-85. *)
Fixpoint month_loop (fuel : nat) (cur stop : Date) (out : list string)
  : except (list string) :=
  match fuel with
  | O => ok out
  | S fuel' =>
      if date_leb cur stop then
        let out := out ++ [("*" ++ strftime_my cur)%string] in
        let* nxt := add_days cur 32 in
        month_loop fuel' (replace_day1 nxt) stop out
      else ok out
  end.

(** The months since year 0, a month-granular ordinal. *)
Definition month_index (d : Date) : Z := year d * 12 + (month d - 1).

Definition month_fuel (start stop : Date) : nat :=
  S (Z.to_nat (month_index stop - month_index start + 1)).

(** [_month_prefixes(start_str, end_str)], lines 77-86. *)
Definition _month_prefixes (start_str end_str : string) : except (list string) :=
  let* start := strptime_dmy (strip start_str) in
  let* stop := strptime_dmy (strip end_str) in
  month_loop (month_fuel start stop) (replace_day1 start) stop [].

(** The first day of the month after [d]'s: the reference the loop's
    [(cur + timedelta(days=32)).replace(day=1)] step is proved to compute
    (a specification helper, not code of the module). *)
Definition first_of_next_month (d : Date) : Date :=
  if month d <? 12 then mkDate (year d) (month d + 1) 1 else mkDate (year d + 1) 1 1.

Fixpoint months_from (d : Date) (n : nat) : list Date :=
  match n with
  | O => []
  | S n' => d :: months_from (first_of_next_month d) n'
  end.

(** ** Lemmas on the day loop *)

Lemma add_days_1 (d : Date) :
  add_days d 1 = if year (next_day d) <=? MAXYEAR then ok (next_day d) else raise OverflowError.
Proof. reflexivity. Qed.

(** On a valid date, [date_max] is the only date whose successor overflows. *)
Lemma add_days_1_ok (d : Date) :
  valid_date d = true -> d <> date_max -> add_days d 1 = ok (next_day d).
Proof.
  intros Hd Hne. rewrite add_days_1.
  destruct (Z.leb_spec (year (next_day d)) MAXYEAR) as [_ | H]; [reflexivity |].
  exfalso. apply Hne. apply (next_day_overflow d Hd). exact H.
Qed.

Lemma date_max_valid : valid_date date_max = true.
Proof. reflexivity. Qed.

(** A valid date at or after [date_max] is [date_max]. *)
Lemma ge_date_max (d : Date) :
  valid_date d = true -> toordinal date_max <= toordinal d -> d = date_max.
Proof.
  intros Hd H. apply toordinal_inj; [exact Hd | reflexivity |].
  pose proof (toordinal_le_max d Hd). lia.
Qed.

#[export] Hint Resolve date_max_valid next_day_valid : funnel.

(** The loop with enough fuel prints the days from [cur] to [stop]. *)
Lemma date_range_loop_ok (fuel : nat) (cur stop : Date) (out : list string) :
  valid_date cur = true -> valid_date stop = true -> stop <> date_max ->
  (Z.to_nat (toordinal stop - toordinal cur + 1) < fuel)%nat ->
  date_range_loop fuel cur stop out =
    ok (out ++ map strftime_dmy (days_from cur (Z.to_nat (toordinal stop - toordinal cur + 1)))).
Proof.
  revert cur out. induction fuel as [| fuel IH]; intros cur out Hc Hs Hne Hf; [lia |].
  cbn [date_range_loop]. rewrite date_leb_toordinal by assumption.
  destruct (Z.leb_spec (toordinal cur) (toordinal stop)) as [Hle | Hgt].
  - assert (Hcm : cur <> date_max).
    { intros ->. apply Hne. apply ge_date_max; assumption. }
    rewrite add_days_1_ok by assumption. cbv zeta. rewrite bind_ok.
    assert (Hn : valid_date (next_day cur) = true).
    { apply next_day_valid; [exact Hc |].
      destruct (Z.le_gt_cases (year (next_day cur)) MAXYEAR) as [H | H]; [exact H |].
      exfalso. apply Hcm. apply (next_day_overflow cur Hc). exact H. }
    pose proof (toordinal_next_day cur Hc) as Eo.
    rewrite IH by (assumption || lia).
    replace (Z.to_nat (toordinal stop - toordinal cur + 1))
      with (S (Z.to_nat (toordinal stop - toordinal (next_day cur) + 1))) by lia.
    cbn [days_from map]. rewrite <- app_assoc. reflexivity.
  - replace (Z.to_nat (toordinal stop - toordinal cur + 1)) with 0%nat by lia.
    cbn. rewrite app_nil_r. reflexivity.
Qed.

(** The loop raises when the range reaches [date_max]. *)
Lemma date_range_loop_overflow (fuel : nat) (cur : Date) (out : list string) :
  valid_date cur = true ->
  (Z.to_nat (toordinal date_max - toordinal cur + 1) < fuel)%nat ->
  date_range_loop fuel cur date_max out = raise OverflowError.
Proof.
  revert cur out. induction fuel as [| fuel IH]; intros cur out Hc Hf; [lia |].
  cbn [date_range_loop]. rewrite date_leb_toordinal by (assumption || reflexivity).
  pose proof (toordinal_le_max cur Hc) as Hle. apply Z.leb_le in Hle. rewrite Hle.
  destruct (Z.le_gt_cases (year (next_day cur)) MAXYEAR) as [Hy | Hy].
  - rewrite add_days_1. apply Z.leb_le in Hy as Hy'. rewrite Hy'. cbv zeta. rewrite bind_ok.
    pose proof (toordinal_next_day cur Hc).
    assert (Hcm : cur <> date_max) by (intros ->; cbn in Hy; unfold MAXYEAR in Hy; lia).
    apply IH; [apply next_day_valid; assumption |].
    apply Z.leb_le in Hle. pose proof (toordinal_le_max _ (next_day_valid cur Hc Hy)). lia.
  - rewrite add_days_1. apply Z.leb_gt in Hy. rewrite Hy. reflexivity.
Qed.

(** Parsing printed valid dates in [_date_range] and [_month_prefixes]. *)
Lemma parse_printed (d : Date) :
  valid_date d = true -> strptime_dmy (strip (strftime_dmy d)) = ok d.
Proof. intros H. rewrite strip_strftime_dmy by exact H. apply strptime_printed_dmy, H. Qed.

(** ** Theorems on [_date_range] *)

(** C13: [_date_range] terminates on every pair of valid dates whose end is
    not [date_max] and returns the printed days from the start to the end,
    one per day ([toordinal end - toordinal start + 1] of them; none when
    the start is after the end). *)
Theorem _date_range_spec (s e : Date) :
  valid_date s = true -> valid_date e = true -> e <> date_max ->
  _date_range (strftime_dmy s) (strftime_dmy e) =
    ok (map strftime_dmy (days_from s (Z.to_nat (toordinal e - toordinal s + 1)))).
Proof.
  intros Hs He Hne. unfold _date_range.
  rewrite (parse_printed s Hs), bind_ok, (parse_printed e He), bind_ok.
  apply date_range_loop_ok; try assumption. unfold date_range_fuel. lia.
Qed.

Lemma _date_range_spec_witness :
  valid_date (mkDate 2024 2 28) = true /\ valid_date (mkDate 2024 3 1) = true /\
  mkDate 2024 3 1 <> date_max /\
  _date_range (strftime_dmy (mkDate 2024 2 28)) (strftime_dmy (mkDate 2024 3 1)) =
    ok (map strftime_dmy (days_from (mkDate 2024 2 28)
          (Z.to_nat (toordinal (mkDate 2024 3 1) - toordinal (mkDate 2024 2 28) + 1)))).
Proof.
  assert (H1 : valid_date (mkDate 2024 2 28) = true) by reflexivity.
  assert (H2 : valid_date (mkDate 2024 3 1) = true) by reflexivity.
  assert (H3 : mkDate 2024 3 1 <> date_max) by discriminate.
  split; [exact H1 | split; [exact H2 | split; [exact H3 |]]].
  exact (_date_range_spec _ _ H1 H2 H3).
Defined.

Lemma zseq_cons (a : Z) (n : nat) : zseq a (S n) = a :: zseq (a + 1) n.
Proof.
  unfold zseq. cbn. f_equal; [lia |].
  rewrite <- seq_shift, map_map. apply map_ext. intros. lia.
Qed.

Lemma days_from_props (n : nat) (d : Date) :
  valid_date d = true -> toordinal d + Z.of_nat n <= toordinal date_max + 1 ->
  Forall (fun x => valid_date x = true) (days_from d n) /\
  map toordinal (days_from d n) = zseq (toordinal d) n.
Proof.
  revert d. induction n as [| n IH]; intros d Hd Hn.
  - split; [constructor | reflexivity].
  - destruct n as [| n].
    { cbn [days_from map]. split; [apply Forall_cons; [exact Hd | apply Forall_nil] |].
      unfold zseq. cbn. rewrite Z.add_0_r. reflexivity. }
    assert (Hne : d <> date_max) by (intros ->; lia).
    assert (Hy : year (next_day d) <= MAXYEAR).
    { destruct (Z.le_gt_cases (year (next_day d)) MAXYEAR) as [H | H]; [exact H |].
      exfalso. apply Hne. apply (next_day_overflow d Hd). exact H. }
    pose proof (next_day_valid d Hd Hy) as Hv. pose proof (toordinal_next_day d Hd).
    destruct (IH (next_day d) Hv ltac:(lia)) as [Hf Hm].
    change (days_from d (S (S n))) with (d :: days_from (next_day d) (S n)).
    split; [constructor; assumption |].
    rewrite zseq_cons. cbn [map]. rewrite Hm. f_equal. f_equal. lia.
Qed.

Lemma last_days_from (n : nat) (d x : Date) :
  last (days_from d (S n)) x = iter_next_day n d.
Proof.
  revert d. induction n as [| n IH]; intros d; [reflexivity |].
  change (days_from d (S (S n))) with (d :: days_from (next_day d) (S n)).
  change (iter_next_day (S n) d) with (iter_next_day n (next_day d)).
  rewrite <- IH. reflexivity.
Qed.

(** the days of a range are valid, ascending, without gap or
    duplicate: their ordinals are consecutive from the start's, and the
    last one is the end. *)
Theorem days_from_spec (s e : Date) :
  valid_date s = true -> valid_date e = true -> toordinal s <= toordinal e ->
  Forall (fun d => valid_date d = true) (days_from s (Z.to_nat (toordinal e - toordinal s + 1))) /\
  map toordinal (days_from s (Z.to_nat (toordinal e - toordinal s + 1)))
    = zseq (toordinal s) (Z.to_nat (toordinal e - toordinal s + 1)) /\
  last (days_from s (Z.to_nat (toordinal e - toordinal s + 1))) s = e.
Proof.
  intros Hs He Hle. pose proof (toordinal_le_max e He).
  destruct (days_from_props (Z.to_nat (toordinal e - toordinal s + 1)) s Hs ltac:(lia)) as [Hf Hm].
  split; [exact Hf | split; [exact Hm |]].
  replace (Z.to_nat (toordinal e - toordinal s + 1))
    with (S (Z.to_nat (toordinal e - toordinal s))) by lia.
  rewrite last_days_from. apply iter_next_day_eq; [exact Hs | exact He | lia].
Qed.

Lemma days_from_spec_witness :
  valid_date (mkDate 2023 12 30) = true /\ valid_date (mkDate 2024 1 2) = true /\
  toordinal (mkDate 2023 12 30) <= toordinal (mkDate 2024 1 2) /\
  Forall (fun d => valid_date d = true)
    (days_from (mkDate 2023 12 30)
       (Z.to_nat (toordinal (mkDate 2024 1 2) - toordinal (mkDate 2023 12 30) + 1))) /\
  map toordinal (days_from (mkDate 2023 12 30)
       (Z.to_nat (toordinal (mkDate 2024 1 2) - toordinal (mkDate 2023 12 30) + 1)))
    = zseq (toordinal (mkDate 2023 12 30))
        (Z.to_nat (toordinal (mkDate 2024 1 2) - toordinal (mkDate 2023 12 30) + 1)) /\
  last (days_from (mkDate 2023 12 30)
       (Z.to_nat (toordinal (mkDate 2024 1 2) - toordinal (mkDate 2023 12 30) + 1)))
       (mkDate 2023 12 30) = mkDate 2024 1 2.
Proof.
  assert (H1 : valid_date (mkDate 2023 12 30) = true) by reflexivity.
  assert (H2 : valid_date (mkDate 2024 1 2) = true) by reflexivity.
  assert (H3 : toordinal (mkDate 2023 12 30) <= toordinal (mkDate 2024 1 2)) by (vm_compute; discriminate).
  split; [exact H1 | split; [exact H2 | split; [exact H3 |]]].
  exact (days_from_spec _ _ H1 H2 H3).
Defined.

(** C14: a range that ends on 31 December 9999 raises [OverflowError]
    instead of returning its days, even the one-day range
    [31_12_9999 -> 31_12_9999]: the loop advances [cur] past the last
    date after printing it. *)
Theorem _date_range_overflow (s : Date) :
  valid_date s = true ->
  _date_range (strftime_dmy s) (strftime_dmy date_max) = raise OverflowError.
Proof.
  intros Hs. unfold _date_range.
  rewrite (parse_printed s Hs), bind_ok, (parse_printed date_max eq_refl), bind_ok.
  apply date_range_loop_overflow; [exact Hs |]. unfold date_range_fuel. lia.
Qed.

Lemma _date_range_overflow_witness :
  valid_date date_max = true /\
  _date_range (strftime_dmy date_max) (strftime_dmy date_max) = raise OverflowError.
Proof. split; [reflexivity | exact (_date_range_overflow date_max eq_refl)]. Defined.

Lemma date_range_one_day (d : Date) :
  valid_date d = true -> d <> date_max ->
  _date_range (strftime_dmy d) (strftime_dmy d) = ok [strftime_dmy d].
Proof.
  intros Hd Hne. unfold _date_range.
  rewrite (parse_printed d Hd), bind_ok, bind_ok.
  rewrite date_range_loop_ok by (assumption || (unfold date_range_fuel; lia)).
  replace (Z.to_nat (toordinal d - toordinal d + 1)) with 1%nat by lia. reflexivity.
Qed.

(** a one-day range yields exactly that day, as the single-day
    form would (below [date_max]). *)
Theorem _date_range_single_day (d : Date) :
  valid_date d = true -> d <> date_max ->
  _date_range (strftime_dmy d) (strftime_dmy d) = ok [strftime_dmy d].
Proof. exact (date_range_one_day d). Qed.

Lemma _date_range_single_day_witness :
  valid_date (mkDate 2024 3 5) = true /\ mkDate 2024 3 5 <> date_max /\
  _date_range (strftime_dmy (mkDate 2024 3 5)) (strftime_dmy (mkDate 2024 3 5))
    = ok [strftime_dmy (mkDate 2024 3 5)].
Proof.
  assert (H1 : valid_date (mkDate 2024 3 5) = true) by reflexivity.
  assert (H2 : mkDate 2024 3 5 <> date_max) by discriminate.
  split; [exact H1 | split; [exact H2 | exact (_date_range_single_day _ H1 H2)]].
Defined.

(** ** Lemmas on the month loop *)

Definition first_of_month (d : Date) : Prop := valid_date d = true /\ day d = 1.

(** The date 32 days after the first of a month, as a record. *)
Definition day_32_after (d : Date) : Date :=
  let n := first_of_next_month d in mkDate (year n) (month n) (33 - days_in_month (year d) (month d)).

Lemma day_32_after_spec (d : Date) :
  first_of_month d -> month_index d < month_index date_max ->
  valid_date (day_32_after d) = true /\ toordinal (day_32_after d) = toordinal d + 32.
Proof.
  intros [Hv H1] Hm. pose proof Hv as H. valid_hyp H.
  destruct d as [y m dd]; cbn [year month day] in *. subst dd.
  unfold day_32_after, first_of_next_month, month_index, date_max in *; cbn [year month day] in *.
  pose proof (days_in_month_range y m).
  destruct (Z.ltb_spec m 12); cbn [year month day].
  - pose proof (days_in_month_range y (m + 1)). split.
    + apply valid_date_iff. cbn [year month day]. lia.
    + unfold toordinal. cbn [year month day]. rewrite days_before_month_succ by lia. lia.
  - assert (m = 12) by lia. subst m. unfold MAXYEAR, MINYEAR in *.
    pose proof (days_in_month_range (y + 1) 1). split.
    + apply valid_date_iff. cbn [year month day]. unfold MAXYEAR, MINYEAR. lia.
    + unfold toordinal. cbn [year month day]. rewrite days_before_year_succ.
      pose proof (days_before_month_end y) as E. unfold days_in_month in *. cbn in *.
      destruct (is_leap y); lia.
Qed.

(** The stepping of [_month_prefixes]: [(cur + timedelta(days=32)).replace(day=1)]
    is the first day of the next month, from the first of any month before
    December 9999. *)
Lemma add_days_32_first (d : Date) :
  first_of_month d -> month_index d < month_index date_max ->
  exists c, add_days d 32 = ok c /\ replace_day1 c = first_of_next_month d.
Proof.
  intros Hf Hm. destruct (day_32_after_spec d Hf Hm) as [Hv Ho].
  destruct Hf as [Hd _].
  destruct (add_days_ok d 32 Hd) as [c [Ec [Hc Hco]]].
  { pose proof (toordinal_le_max _ Hv). lia. }
  exists c. split; [exact Ec |].
  assert (c = day_32_after d) as -> by (apply toordinal_inj; [exact Hc | exact Hv | lia]).
  unfold day_32_after, replace_day1, first_of_next_month.
  destruct (month d <? 12); reflexivity.
Qed.

Lemma first_of_next_month_props (d : Date) :
  first_of_month d -> month_index d < month_index date_max ->
  first_of_month (first_of_next_month d) /\
  month_index (first_of_next_month d) = month_index d + 1.
Proof.
  intros [Hv H1] Hm. pose proof Hv as H. valid_hyp H.
  unfold first_of_next_month, first_of_month, month_index, date_max in *.
  destruct (Z.ltb_spec (month d) 12); cbn [year month day] in *;
    (split; [split; [apply valid_date_iff; cbn [year month day];
                     pose proof (days_in_month_range (year d) (month d + 1));
                     pose proof (days_in_month_range (year d + 1) 1);
                     unfold MINYEAR, MAXYEAR in *; lia | reflexivity] | lia]).
Qed.

Lemma replace_day1_first (d : Date) : valid_date d = true -> first_of_month (replace_day1 d).
Proof.
  intros Hv. pose proof Hv as H. valid_hyp H. pose proof (days_in_month_range (year d) (month d)).
  split; [apply valid_date_iff; cbn [year month day replace_day1]; lia | reflexivity].
Qed.

(** From the first of a month, Python's comparison with [stop] compares
    the months. *)
Lemma date_leb_first (cur stop : Date) :
  first_of_month cur -> valid_date stop = true ->
  date_leb cur stop = (month_index cur <=? month_index stop).
Proof.
  intros [Hv H1] Hs. pose proof Hv as H. valid_hyp H. valid_hyp Hs.
  unfold date_leb, month_index.
  destruct (Z.leb_spec (year cur * 12 + (month cur - 1)) (year stop * 12 + (month stop - 1)));
    destruct (Z.ltb_spec (year cur) (year stop)), (Z.eqb_spec (year cur) (year stop)),
      (Z.ltb_spec (month cur) (month stop)), (Z.eqb_spec (month cur) (month stop)),
      (Z.leb_spec (day cur) (day stop)); cbn; lia || reflexivity.
Qed.

Definition month_prefix (d : Date) : string := ("*" ++ strftime_my d)%string.

Lemma month_loop_ok (fuel : nat) (cur stop : Date) (out : list string) :
  first_of_month cur -> valid_date stop = true ->
  month_index stop < month_index date_max ->
  (Z.to_nat (month_index stop - month_index cur + 1) < fuel)%nat ->
  month_loop fuel cur stop out =
    ok (out ++ map month_prefix (months_from cur (Z.to_nat (month_index stop - month_index cur + 1)))).
Proof.
  revert cur out. induction fuel as [| fuel IH]; intros cur out Hc Hs Hm Hf; [lia |].
  cbn [month_loop]. rewrite date_leb_first by assumption.
  destruct (Z.leb_spec (month_index cur) (month_index stop)) as [Hle | Hgt].
  - destruct (add_days_32_first cur Hc ltac:(lia)) as [c [Ec Er]].
    destruct (first_of_next_month_props cur Hc ltac:(lia)) as [Hn Hi].
    cbv zeta. rewrite Ec, bind_ok, Er, IH by (assumption || lia).
    replace (Z.to_nat (month_index stop - month_index cur + 1))
      with (S (Z.to_nat (month_index stop - month_index (first_of_next_month cur) + 1))) by lia.
    cbn [months_from map]. rewrite <- app_assoc. reflexivity.
  - replace (Z.to_nat (month_index stop - month_index cur + 1)) with 0%nat by lia.
    cbn. rewrite app_nil_r. reflexivity.
Qed.

Lemma month_loop_overflow (fuel : nat) (cur stop : Date) (out : list string) :
  first_of_month cur -> valid_date stop = true ->
  month_index stop = month_index date_max -> month_index cur <= month_index stop ->
  (Z.to_nat (month_index stop - month_index cur + 1) < fuel)%nat ->
  month_loop fuel cur stop out = raise OverflowError.
Proof.
  revert cur out. induction fuel as [| fuel IH]; intros cur out Hc Hs Hm Hle Hf; [lia |].
  cbn [month_loop]. rewrite date_leb_first by assumption.
  apply Z.leb_le in Hle as Hle'. rewrite Hle'. cbv zeta.
  destruct (Z.lt_ge_cases (month_index cur) (month_index date_max)) as [Hlt | Hge].
  - destruct (add_days_32_first cur Hc Hlt) as [c [Ec Er]].
    destruct (first_of_next_month_props cur Hc Hlt) as [Hn Hi].
    rewrite Ec, bind_ok, Er. apply IH; (assumption || lia).
  - destruct Hc as [Hv H1]. pose proof Hv as H. valid_hyp H.
    assert (cur = mkDate 9999 12 1) as ->.
    { destruct cur as [y m dd]; unfold month_index, date_max, MAXYEAR in *; cbn in *.
      f_equal; lia. }
    rewrite add_days_overflow by (exact Hv || (vm_compute; reflexivity)). reflexivity.
Qed.

(** ** Theorems on [_month_prefixes] *)

(** [(cur + timedelta(days=32)).replace(day=1)] steps from the first
    day of a month to the first day of the next month, for every month
    before December 9999. *)
Theorem month_step_next_month (d : Date) :
  first_of_month d -> month_index d < month_index date_max ->
  exists c, add_days d 32 = ok c /\ replace_day1 c = first_of_next_month d /\
            month_index (replace_day1 c) = month_index d + 1.
Proof.
  intros Hf Hm. destruct (add_days_32_first d Hf Hm) as [c [Ec Er]].
  exists c. split; [exact Ec | split; [exact Er |]].
  rewrite Er. apply (first_of_next_month_props d Hf Hm).
Qed.

Lemma month_step_next_month_witness :
  first_of_month (mkDate 2024 1 1) /\ month_index (mkDate 2024 1 1) < month_index date_max /\
  exists c, add_days (mkDate 2024 1 1) 32 = ok c /\
            replace_day1 c = first_of_next_month (mkDate 2024 1 1) /\
            month_index (replace_day1 c) = month_index (mkDate 2024 1 1) + 1.
Proof.
  assert (H1 : first_of_month (mkDate 2024 1 1)) by (split; reflexivity).
  assert (H2 : month_index (mkDate 2024 1 1) < month_index date_max) by (vm_compute; reflexivity).
  split; [exact H1 | split; [exact H2 | exact (month_step_next_month _ H1 H2)]].
Defined.

(** C16: [_month_prefixes] terminates on valid dates whose end is before
    December 9999 and returns [*mm_yyyy] for each month from the start's
    to the end's. *)
Theorem _month_prefixes_spec (s e : Date) :
  valid_date s = true -> valid_date e = true -> month_index e < month_index date_max ->
  _month_prefixes (strftime_dmy s) (strftime_dmy e) =
    ok (map month_prefix
          (months_from (replace_day1 s) (Z.to_nat (month_index e - month_index s + 1)))).
Proof.
  intros Hs He Hm. unfold _month_prefixes.
  rewrite (parse_printed s Hs), bind_ok, (parse_printed e He), bind_ok.
  apply month_loop_ok; [apply replace_day1_first, Hs | exact He | exact Hm |].
  unfold month_fuel, month_index, replace_day1. cbn [year month]. lia.
Qed.

Lemma _month_prefixes_spec_witness :
  valid_date (mkDate 2023 11 15) = true /\ valid_date (mkDate 2024 2 2) = true /\
  month_index (mkDate 2024 2 2) < month_index date_max /\
  _month_prefixes (strftime_dmy (mkDate 2023 11 15)) (strftime_dmy (mkDate 2024 2 2)) =
    ok (map month_prefix (months_from (replace_day1 (mkDate 2023 11 15))
          (Z.to_nat (month_index (mkDate 2024 2 2) - month_index (mkDate 2023 11 15) + 1)))).
Proof.
  assert (H1 : valid_date (mkDate 2023 11 15) = true) by reflexivity.
  assert (H2 : valid_date (mkDate 2024 2 2) = true) by reflexivity.
  assert (H3 : month_index (mkDate 2024 2 2) < month_index date_max) by (vm_compute; reflexivity).
  split; [exact H1 | split; [exact H2 | split; [exact H3 |]]].
  exact (_month_prefixes_spec _ _ H1 H2 H3).
Defined.

Lemma months_from_props (n : nat) (d : Date) :
  first_of_month d -> month_index d + Z.of_nat n <= month_index date_max + 1 ->
  Forall first_of_month (months_from d n) /\
  map month_index (months_from d n) = zseq (month_index d) n.
Proof.
  revert d. induction n as [| n IH]; intros d Hd Hn.
  - split; [constructor | reflexivity].
  - destruct n as [| n].
    { cbn [months_from map]. split; [apply Forall_cons; [exact Hd | apply Forall_nil] |].
      unfold zseq. cbn. rewrite Z.add_0_r. reflexivity. }
    destruct (first_of_next_month_props d Hd ltac:(lia)) as [Hf Hi].
    destruct (IH _ Hf ltac:(lia)) as [HF HM].
    change (months_from d (S (S n))) with (d :: months_from (first_of_next_month d) (S n)).
    split; [constructor; assumption |].
    rewrite zseq_cons. cbn [map]. rewrite HM, Hi. reflexivity.
Qed.

(** the months listed for a range are first days of consecutive
    months, from the start's month to the end's month. *)
Theorem months_from_spec (s e : Date) :
  valid_date s = true -> valid_date e = true -> month_index s <= month_index e ->
  Forall first_of_month (months_from (replace_day1 s) (Z.to_nat (month_index e - month_index s + 1))) /\
  map month_index (months_from (replace_day1 s) (Z.to_nat (month_index e - month_index s + 1)))
    = zseq (month_index s) (Z.to_nat (month_index e - month_index s + 1)).
Proof.
  intros Hs He Hle. pose proof He as H. valid_hyp H.
  apply (months_from_props _ (replace_day1 s)); [apply replace_day1_first, Hs |].
  unfold month_index, replace_day1, date_max, MAXYEAR in *. cbn [year month] in *. lia.
Qed.

Lemma months_from_spec_witness :
  valid_date (mkDate 2023 11 15) = true /\ valid_date (mkDate 2024 2 2) = true /\
  month_index (mkDate 2023 11 15) <= month_index (mkDate 2024 2 2) /\
  Forall first_of_month (months_from (replace_day1 (mkDate 2023 11 15))
    (Z.to_nat (month_index (mkDate 2024 2 2) - month_index (mkDate 2023 11 15) + 1))) /\
  map month_index (months_from (replace_day1 (mkDate 2023 11 15))
    (Z.to_nat (month_index (mkDate 2024 2 2) - month_index (mkDate 2023 11 15) + 1)))
    = zseq (month_index (mkDate 2023 11 15))
        (Z.to_nat (month_index (mkDate 2024 2 2) - month_index (mkDate 2023 11 15) + 1)).
Proof.
  assert (H1 : valid_date (mkDate 2023 11 15) = true) by reflexivity.
  assert (H2 : valid_date (mkDate 2024 2 2) = true) by reflexivity.
  assert (H3 : month_index (mkDate 2023 11 15) <= month_index (mkDate 2024 2 2))
    by (vm_compute; discriminate).
  split; [exact H1 | split; [exact H2 | split; [exact H3 |]]].
  exact (months_from_spec _ _ H1 H2 H3).
Defined.

(** C17: a range ending in December 9999 makes [_month_prefixes] raise
    [OverflowError]: after printing [*12_9999] the loop adds 32 days to
    1 December 9999. *)
Theorem _month_prefixes_overflow (s e : Date) :
  valid_date s = true -> valid_date e = true ->
  month_index e = month_index date_max -> month_index s <= month_index e ->
  _month_prefixes (strftime_dmy s) (strftime_dmy e) = raise OverflowError.
Proof.
  intros Hs He Hm Hle. unfold _month_prefixes.
  rewrite (parse_printed s Hs), bind_ok, (parse_printed e He), bind_ok.
  apply month_loop_overflow; [apply replace_day1_first, Hs | exact He | exact Hm | |];
    unfold month_fuel, month_index, replace_day1 in *; cbn [year month] in *; lia.
Qed.

Lemma _month_prefixes_overflow_witness :
  valid_date (mkDate 9999 11 15) = true /\ valid_date (mkDate 9999 12 2) = true /\
  month_index (mkDate 9999 12 2) = month_index date_max /\
  month_index (mkDate 9999 11 15) <= month_index (mkDate 9999 12 2) /\
  _month_prefixes (strftime_dmy (mkDate 9999 11 15)) (strftime_dmy (mkDate 9999 12 2))
    = raise OverflowError.
Proof.
  assert (H1 : valid_date (mkDate 9999 11 15) = true) by reflexivity.
  assert (H2 : valid_date (mkDate 9999 12 2) = true) by reflexivity.
  assert (H3 : month_index (mkDate 9999 12 2) = month_index date_max) by reflexivity.
  assert (H4 : month_index (mkDate 9999 11 15) <= month_index (mkDate 9999 12 2))
    by (vm_compute; discriminate).
  split; [exact H1 | split; [exact H2 | split; [exact H3 | split; [exact H4 |]]]].
  exact (_month_prefixes_overflow _ _ H1 H2 H3 H4).
Defined.
