(* ===== verification/PyInt.v ===== *)
(** * PyInt: Python's [int()] on a string and [str()] on an integer

    [load_config] (report_engine.py lines 30 and 37) parses the two port
    settings with [int(os.environ.get(...))].  On a [str], CPython's
    [int()] strips surrounding whitespace, reads an optional sign and
    decimal digits with single underscores between them, and raises
    [ValueError] on anything else.  [py_int_of_string] is that parser and
    [IntLiteral] the grammar it implements (proved equivalent, the
    reference [Config.load_config_ports] is stated against); [py_str] is
    [str()], which prints the port into the Drill URL.  Only ASCII is modelled:
    [int()] also accepts the other Unicode decimal digits and spaces. *)

From Stdlib Require Import ZArith String Ascii List Bool Lia.
From S2P Require Import Prelude DateFormat.
Import ListNotations.
Open Scope Z_scope.

(** ** Python's [int(s)] on a string *)

Definition is_digit (c : ascii) : bool :=
  Nat.leb 48 (nat_of_ascii c) && Nat.leb (nat_of_ascii c) 57.

Definition digit_value (c : ascii) : Z := Z.of_nat (nat_of_ascii c) - 48.

(** Digits with single underscores between them; [after_digit] tells
    whether the previous character was a digit. *)
Fixpoint parse_digits (s : string) (acc : Z) (after_digit : bool) : option Z :=
  match s with
  | EmptyString => if after_digit then Some acc else None
  | String c s' =>
      if is_digit c then parse_digits s' (acc * 10 + digit_value c) true
      else if Ascii.eqb c "_" && after_digit then parse_digits s' acc false
      else None
  end.

(** [int(s)] for a [str] argument, base 10. *)
Definition py_int_of_string (s : string) : except Z :=
  let t := strip s in
  let r := match t with
           | String c t' =>
               if Ascii.eqb c "-" then option_map Z.opp (parse_digits t' 0 false)
               else if Ascii.eqb c "+" then parse_digits t' 0 false
               else parse_digits t 0 false
           | EmptyString => None
           end in
  match r with
  | Some z => ok z
  | None => raise ValueError
  end.

(** [str(n)], the reference printer: decimal digits, most significant
    first, a [-] before a negative number.  [fuel] digits at most. *)
Fixpoint dec_aux (fuel : nat) (n : Z) (acc : string) : string :=
  match fuel with
  | O => acc
  | S f =>
      let acc' := String (digit (n mod 10)) acc in
      if n <? 10 then acc' else dec_aux f (n / 10) acc'
  end.

Definition dec (n : Z) : string := dec_aux (S (Z.to_nat (Z.log2 n))) n EmptyString.

Definition py_str (n : Z) : string :=
  if n <? 0 then String "-" (dec (- n)) else dec n.

(** ** The grammar [int()] accepts

    The reference definition of what [int(s)] reads, as a grammar rather
    than a scan: whitespace, an optional sign, digit groups joined by
    single underscores, whitespace; the value is the one of the digits
    read in base 10. *)

Inductive Spaces : string -> Prop :=
| sp_nil : Spaces EmptyString
| sp_cons c s : is_py_space c = true -> Spaces s -> Spaces (String c s).

(** [DigitPart s ds]: [s] is the digits [ds], at least one, with at most
    one underscore between two of them. *)
Inductive DigitPart : string -> list ascii -> Prop :=
| dp_one c : is_digit c = true -> DigitPart (String c EmptyString) [c]
| dp_next c s ds : is_digit c = true -> DigitPart s ds -> DigitPart (String c s) (c :: ds)
| dp_under c s ds : is_digit c = true -> DigitPart s ds ->
    DigitPart (String c (String "_" s)) (c :: ds).

(** The digits [ds] read after the value [acc]. *)
Definition digits_value (acc : Z) (ds : list ascii) : Z :=
  fold_left (fun a c => a * 10 + digit_value c) ds acc.

Inductive Signed : string -> Z -> Prop :=
| sg_none s ds : DigitPart s ds -> Signed s (digits_value 0 ds)
| sg_plus s ds : DigitPart s ds -> Signed (String "+" s) (digits_value 0 ds)
| sg_minus s ds : DigitPart s ds -> Signed (String "-" s) (- digits_value 0 ds).

Inductive IntLiteral : string -> Z -> Prop :=
| int_lit pre body post n : Spaces pre -> Signed body n -> Spaces post ->
    IntLiteral (pre ++ body ++ post)%string n.

(** ** Lemmas on [int()] and [str()] *)








Lemma string_app_assoc (a b c : string) : ((a ++ b) ++ c)%string = (a ++ b ++ c)%string.
Proof.
  induction a as [|x a IH]; [reflexivity|].
  change (String x ((a ++ b) ++ c) = String x (a ++ b ++ c))%string. rewrite IH. reflexivity.
Qed.

Lemma rev_string_app (a b : string) :
  rev_string (a ++ b) = (rev_string b ++ rev_string a)%string.
Proof.
  induction a as [|c a IH].
  - change (rev_string b = rev_string b ++ EmptyString)%string. rewrite string_app_nil. reflexivity.
  - change (rev_string (a ++ b) ++ String c EmptyString
            = rev_string b ++ rev_string a ++ String c EmptyString)%string.
    rewrite IH, string_app_assoc. reflexivity.
Qed.

Lemma rev_string_involutive (s : string) : rev_string (rev_string s) = s.
Proof.
  induction s as [|c s IH]; [reflexivity|]. cbn [rev_string].
  rewrite rev_string_app, IH. reflexivity.
Qed.

(** ** [strip] against the grammar's whitespace *)

Lemma Spaces_app (a b : string) : Spaces a -> Spaces b -> Spaces (a ++ b)%string.
Proof. induction 1; cbn; [auto | constructor; auto]. Qed.

Lemma Spaces_rev (a : string) : Spaces a -> Spaces (rev_string a).
Proof.
  induction 1 as [|c s Hc _ IH]; [constructor|].
  cbn [rev_string]. apply Spaces_app; [exact IH | repeat constructor; exact Hc].
Qed.

Lemma lstrip_split (s : string) : exists pre, Spaces pre /\ s = (pre ++ lstrip s)%string.
Proof.
  induction s as [|c s (pre & Hp & E)]; [exists EmptyString; split; [constructor | reflexivity]|].
  cbn [lstrip]. destruct (is_py_space c) eqn:Hc.
  - exists (String c pre). split; [constructor; assumption | cbn; congruence].
  - exists EmptyString. split; [constructor | reflexivity].
Qed.

Lemma lstrip_spaces (pre t : string) : Spaces pre -> lstrip (pre ++ t) = lstrip t.
Proof. induction 1 as [|c s Hc _ IH]; [reflexivity|]. cbn. rewrite Hc. exact IH. Qed.

(** Every string is its stripped part between two runs of whitespace. *)
Lemma strip_split (s : string) :
  exists pre post, Spaces pre /\ Spaces post /\ s = (pre ++ strip s ++ post)%string.
Proof.
  destruct (lstrip_split s) as (p1 & H1 & E1).
  destruct (lstrip_split (rev_string (lstrip s))) as (p2 & H2 & E2).
  exists p1, (rev_string p2). split; [exact H1 | split; [apply Spaces_rev, H2|]].
  transitivity (p1 ++ lstrip s)%string; [exact E1|]. f_equal. unfold strip.
  rewrite <- rev_string_app, <- E2, rev_string_involutive. reflexivity.
Qed.

(** [strip] removes exactly the whitespace around a string whose two ends
    are not whitespace. *)
Lemma strip_pad (pre post : string) (c d : ascii) (w u : string) :
  Spaces pre -> Spaces post -> String c w = (u ++ String d EmptyString)%string ->
  is_py_space c = false -> is_py_space d = false ->
  strip (pre ++ String c w ++ post) = String c w.
Proof.
  intros Hpre Hpost Heq Hc Hd. unfold strip. rewrite lstrip_spaces by exact Hpre.
  replace (lstrip (String c w ++ post)) with (String c w ++ post)%string
    by (cbn [lstrip append]; rewrite Hc; reflexivity).
  rewrite Heq, !rev_string_app, lstrip_spaces by (apply Spaces_rev, Hpost).
  replace (lstrip (rev_string (String d EmptyString) ++ rev_string u))
    with (String d (rev_string u)) by (cbn [lstrip rev_string append]; rewrite Hd; reflexivity).
  change (rev_string (String d (rev_string u)))
    with (rev_string (rev_string u) ++ String d EmptyString)%string.
  rewrite rev_string_involutive. reflexivity.
Qed.





Lemma py_int_of_string_error (s : string) (e : PyExc) :
  py_int_of_string s = raise e -> e = ValueError.
Proof.
  unfold py_int_of_string.
  match goal with |- context [match ?r with Some _ => _ | None => _ end] => destruct r end;
    intros H; inversion H; reflexivity.
Qed.

(** ** The parser against the grammar *)

Lemma DigitPart_cons_inv (c : ascii) (s : string) (ds : list ascii) :
  DigitPart (String c s) ds ->
  is_digit c = true /\ exists ds', ds = c :: ds' /\
    ((s = EmptyString /\ ds' = []) \/ DigitPart s ds' \/
     exists s', s = String "_" s' /\ DigitPart s' ds').
Proof. inversion 1; subst; split; eauto 7. Qed.

Lemma DigitPart_head (s : string) (ds : list ascii) :
  DigitPart s ds -> exists c w, s = String c w /\ is_digit c = true.
Proof. destruct 1; eauto. Qed.

Lemma DigitPart_last (s : string) (ds : list ascii) :
  DigitPart s ds -> exists u d, s = (u ++ String d EmptyString)%string /\ is_digit d = true.
Proof.
  induction 1 as [c Hc|c s ds Hc _ (u & d & -> & Hd)|c s ds Hc _ (u & d & -> & Hd)].
  - exists EmptyString, c. auto.
  - exists (String c u), d. auto.
  - exists (String c (String "_" u)), d. auto.
Qed.

(** What [parse_digits] accepts after a digit: the end, more digits, or
    an underscore followed by digits. *)
Definition after_digit_spec (s : string) (acc n : Z) : Prop :=
  (s = EmptyString /\ n = acc) \/ (exists ds, DigitPart s ds /\ n = digits_value acc ds) \/
  (exists s' ds, s = String "_" s' /\ DigitPart s' ds /\ n = digits_value acc ds).

Lemma after_digit_cons (c : ascii) (s : string) (acc n : Z) :
  is_digit c = true ->
  (after_digit_spec s (acc * 10 + digit_value c) n <->
   exists ds, DigitPart (String c s) ds /\ n = digits_value acc ds).
Proof.
  intros Hc. split.
  - intros [[-> ->]|[(ds & H & ->)|(s' & ds & -> & H & ->)]].
    + exists [c]. split; [constructor; exact Hc | reflexivity].
    + exists (c :: ds). split; [constructor; assumption | reflexivity].
    + exists (c :: ds). split; [constructor; assumption | reflexivity].
  - intros (ds & H & ->). apply DigitPart_cons_inv in H as (_ & ds' & -> & H).
    unfold after_digit_spec. destruct H as [[-> ->]|[H|(s' & -> & H)]]; eauto 7.
Qed.

Lemma parse_digits_spec (s : string) :
  (forall acc n, parse_digits s acc false = Some n <->
                 exists ds, DigitPart s ds /\ n = digits_value acc ds) /\
  (forall acc n, parse_digits s acc true = Some n <-> after_digit_spec s acc n).
Proof.
  induction s as [|c s [IHf IHt]].
  - split; intros acc n; cbn [parse_digits].
    + split; [discriminate | intros (ds & H & _); inversion H].
    + unfold after_digit_spec. split.
      * injection 1 as ->. auto.
      * intros [[_ ->]|[(ds & H & _)|(s' & ds & E & _)]]; [reflexivity | inversion H | discriminate].
  - assert (Hf : forall acc n, parse_digits (String c s) acc false = Some n <->
                 exists ds, DigitPart (String c s) ds /\ n = digits_value acc ds).
    { intros acc n. cbn [parse_digits]. destruct (is_digit c) eqn:Hc.
      - rewrite IHt. apply after_digit_cons, Hc.
      - rewrite andb_false_r. split; [discriminate|].
        intros (ds & H & _). apply DigitPart_cons_inv in H as [H _]. congruence. }
    split; [exact Hf|]. intros acc n. unfold after_digit_spec.
    destruct (is_digit c) eqn:Hc.
    + assert (E : parse_digits (String c s) acc true = parse_digits (String c s) acc false)
        by (cbn [parse_digits]; rewrite Hc; reflexivity).
      rewrite E, Hf. split; [auto|]. intros [[E1 _]|[H|(s' & ds & E1 & _)]]; [discriminate | exact H|].
      injection E1 as -> _. discriminate.
    + cbn [parse_digits]. rewrite Hc, andb_true_r.
      destruct (Ascii.eqb_spec c "_") as [->|Hu].
      * rewrite IHf. split; [intros (ds & H & ->); right; right; eauto|].
        intros [[E _]|[(ds & H & _)|(s' & ds & E & H & ->)]]; [discriminate | |].
        -- apply DigitPart_cons_inv in H as [H _]. discriminate.
        -- injection E as ->. eauto.
      * split; [discriminate|].
        intros [[E _]|[(ds & H & _)|(s' & ds & E & _)]]; [discriminate | | congruence].
        apply DigitPart_cons_inv in H as [H _]. congruence.
Qed.

Lemma digit_not_space (c : ascii) : is_digit c = true -> is_py_space c = false.
Proof.
  unfold is_digit, is_py_space. intros H. apply andb_true_iff in H as [H1 H2].
  apply Nat.leb_le in H1, H2.
  destruct (Nat.eqb_spec (nat_of_ascii c) 32), (Nat.leb_spec 9 (nat_of_ascii c)),
    (Nat.leb_spec (nat_of_ascii c) 13), (Nat.leb_spec 28 (nat_of_ascii c)),
    (Nat.leb_spec (nat_of_ascii c) 31); cbn; lia || reflexivity.
Qed.

(** A signed literal starts and ends with a character that is not
    whitespace. *)
Lemma Signed_ends (body : string) (n : Z) :
  Signed body n -> exists c w u d, body = String c w /\ String c w = (u ++ String d EmptyString)%string /\
    is_py_space c = false /\ is_py_space d = false.
Proof.
  intros Hs. assert (Hl : exists s ds, DigitPart s ds /\ (body = s \/ exists c, body = String c s /\ is_py_space c = false))
    by (destruct Hs; eauto 8).
  destruct Hl as (s & ds & Hds & Hb). destruct (DigitPart_last _ _ Hds) as (u & d & -> & Hd).
  destruct Hb as [->|(c & -> & Hc)].
  - destruct (DigitPart_head _ _ Hds) as (c & w & E & Hc). rewrite E.
    exists c, w, u, d. repeat split; [congruence | apply digit_not_space; assumption..].
  - exists c, (u ++ String d EmptyString)%string, (String c u), d.
    repeat split; [assumption | apply digit_not_space, Hd].
Qed.

Lemma parse_signed (t : string) (n : Z) :
  match t with
  | String c t' =>
      if Ascii.eqb c "-" then option_map Z.opp (parse_digits t' 0 false)
      else if Ascii.eqb c "+" then parse_digits t' 0 false
      else parse_digits t 0 false
  | EmptyString => None
  end = Some n <-> Signed t n.
Proof.
  pose proof (fun s => proj1 (parse_digits_spec s) 0) as P.
  split.
  - destruct t as [|c t']; [discriminate|].
    destruct (Ascii.eqb_spec c "-") as [->|Hm]; [|destruct (Ascii.eqb_spec c "+") as [->|Hp]].
    + destruct (parse_digits t' 0 false) as [z|] eqn:E; [|discriminate].
      injection 1 as <-. apply P in E as (ds & H & ->). apply sg_minus, H.
    + intros E. apply P in E as (ds & H & ->). apply sg_plus, H.
    + intros E. apply P in E as (ds & H & ->). apply sg_none, H.
  - destruct 1 as [s ds H|s ds H|s ds H].
    + destruct (DigitPart_head _ _ H) as (c & w & -> & Hc).
      destruct (Ascii.eqb_spec c "-") as [->|_]; [discriminate|].
      destruct (Ascii.eqb_spec c "+") as [->|_]; [discriminate|]. apply P. eauto.
    + cbn. apply P. eauto.
    + cbn. replace (parse_digits s 0 false) with (Some (digits_value 0 ds))
        by (symmetry; apply P; eauto). reflexivity.
Qed.

(** [int()] on a string is exactly the grammar: [py_int_of_string s]
    returns [n] if and only if [s] is whitespace, an optional sign, digits
    with single underscores between them and whitespace again, of value
    [n]; on every other string it raises [ValueError]. *)
Theorem py_int_of_string_spec (s : string) (n : Z) :
  py_int_of_string s = ok n <-> IntLiteral s n.
Proof.
  unfold py_int_of_string. split.
  - destruct (strip_split s) as (pre & post & Hpre & Hpost & Es).
    intros H. rewrite Es. constructor; [exact Hpre | | exact Hpost]. apply parse_signed.
    revert H. destruct (match strip s with String _ _ => _ | EmptyString => None end);
      intros H; inversion H; reflexivity.
  - destruct 1 as [pre body post n Hpre Hs Hpost].
    destruct (Signed_ends _ _ Hs) as (c & w & u & d & -> & Heq & Hc & Hd).
    rewrite (strip_pad pre post c d w u Hpre Hpost Heq Hc Hd).
    apply parse_signed in Hs. rewrite Hs. reflexivity.
Qed.

