(* ===== verification/Config.v ===== *)
(** * Config: [load_config] and [load_recipients]

    [load_config()] (report_engine.py lines 22-41) reads nine settings
    from [os.environ], with defaults, and parses the two ports with
    Python's [int()] on a string ([PyInt.py_int_of_string]), which raises
    [ValueError] on a malformed value.  The environment is an association list (the
    mapping [os.environ] after [load_dotenv()], whose reading of the
    [.env] file is I/O).

    [load_recipients(path)] (run_reports.py lines 49-56) reads
    [recipients.json]; the value [json.load] returns is the inductive
    [JValue] (objects as association lists of distinct keys in file
    order), and the three [.get] calls are modelled with the
    [AttributeError] they raise on a value that is not an object. *)

From Stdlib Require Import ZArith String Ascii List Bool Lia.
From S2P Require Import Prelude DateFormat PyInt.
Import ListNotations.
Open Scope Z_scope.

(** ** [load_config] *)

(** [smtp_config]: the [smtp] dict of [load_config]. *)
Record SmtpConfig : Type := mkSmtpConfig {
  smtp_from : string;
  smtp_host : string;
  smtp_port : Z;
  smtp_user : string;
  smtp_password : string
}.

Record Config : Type := mkConfig {
  drill_host : string;
  drill_port : Z;
  drill_base_path : string;
  output_dir : string;
  smtp : SmtpConfig
}.

(** [os.environ.get(k, default)]. *)
Definition env_get (environ : list (string * string)) (k default : string) : string :=
  assoc_get environ k default.

(** Lines 29-41, the dict literal evaluated in order. *)
Definition load_config (environ : list (string * string)) : except Config :=
  let host := env_get environ "DRILL_HOST" "localhost" in
  let* port := py_int_of_string (env_get environ "DRILL_PORT" "8047") in
  let base := env_get environ "DRILL_DATA_BASE" "/data/user-funnel" in
  let out := env_get environ "OUTPUT_DIR" "./output" in
  let from := env_get environ "SMTP_FROM" EmptyString in
  let shost := env_get environ "SMTP_HOST" "smtp.example.com" in
  let* sport := py_int_of_string (env_get environ "SMTP_PORT" "587") in
  let user := env_get environ "SMTP_USER" EmptyString in
  let password := env_get environ "SMTP_PASSWORD" EmptyString in
  ok (mkConfig host port base out (mkSmtpConfig from shost sport user password)).

(** The keys [load_config] reads, lines 30-39. *)
Definition CONFIG_KEYS : list string :=
  ["DRILL_HOST"; "DRILL_PORT"; "DRILL_DATA_BASE"; "OUTPUT_DIR"; "SMTP_FROM"; "SMTP_HOST";
   "SMTP_PORT"; "SMTP_USER"; "SMTP_PASSWORD"]%string.

(** The configuration of an environment that sets none of them. *)
Definition default_config : Config :=
  mkConfig "localhost" 8047 "/data/user-funnel" "./output"
    (mkSmtpConfig EmptyString "smtp.example.com" 587 EmptyString EmptyString).

(** ** [load_recipients] *)

(** What [json.load] returns. *)
#[local] Set Warnings "-register-all".
Inductive JValue : Type :=
| JNull
| JBool (b : bool)
| JNum (z : Z)
| JStr (s : string)
| JArr (xs : list JValue)
| JObj (kvs : list (string * JValue)).

(** [obj.get(k, default)]: [AttributeError] on a value that is not a dict. *)
Definition json_get (obj : JValue) (k : string) (default : JValue) : except JValue :=
  match obj with
  | JObj kvs => ok (assoc_get kvs k default)
  | _ => raise AttributeError
  end.

(** Python's truth value of a JSON value ([x or default]). *)
Definition py_truthy (v : JValue) : bool :=
  match v with
  | JNull => false
  | JBool b => b
  | JNum z => negb (Z.eqb z 0)
  | JStr s => negb (String.eqb s EmptyString)
  | JArr xs => match xs with [] => false | _ => true end
  | JObj kvs => match kvs with [] => false | _ => true end
  end.

(** The strings [sep.join(v)] iterates over: a list of strings, the
    characters of a string, the keys of a dict; [TypeError] otherwise. *)
Fixpoint chars_of (s : string) : list string :=
  match s with
  | EmptyString => []
  | String c s' => String c EmptyString :: chars_of s'
  end.

Definition json_strings (v : JValue) : except (list string) :=
  match v with
  | JArr xs =>
      fold_right (fun x acc => match x with
                               | JStr s => let* rest := acc in ok (s :: rest)
                               | _ => raise TypeError
                               end) (ok []) xs
  | JStr s => ok (chars_of s)
  | JObj kvs => ok (map fst kvs)
  | _ => raise TypeError
  end.

(** What [load_recipients] returns. *)
Record Recipients : Type := mkRecipients {
  to_map : JValue;
  cc_map : JValue;
  default_cc : JValue
}.

(** Lines 51-56, from the parsed file. *)
Definition load_recipients (data : JValue) : except Recipients :=
  let* to_map := json_get data "to" (JObj []) in
  let* cc_map := json_get data "cc" (JObj []) in
  let* default_cc := json_get cc_map "default" (JArr [JStr "cc@your-company.com"]) in
  ok (mkRecipients to_map cc_map default_cc).

Lemma assoc_get_absent {V : Type} (d : list (string * V)) (k : string) (default : V) :
  Forall (fun kv => fst kv <> k) d -> assoc_get d k default = default.
Proof.
  induction 1 as [|[k' v] d Hk _ IH]; [reflexivity|]. cbn [assoc_get].
  destruct (String.eqb_spec k k'); [cbn in Hk; congruence | exact IH].
Qed.

(** without any of the nine variables set, [load_config] returns the
    defaults of the source, both ports parsed from their default strings. *)
Theorem load_config_defaults (environ : list (string * string)) :
  Forall (fun kv => ~ In (fst kv) CONFIG_KEYS) environ ->
  load_config environ = ok default_config.
Proof.
  intros Hall. unfold load_config, env_get.
  rewrite !assoc_get_absent
    by (eapply Forall_impl; [|exact Hall]; intros kv Hk E; apply Hk; rewrite E; cbn; tauto).
  reflexivity.
Qed.

Lemma load_config_defaults_witness :
  load_config [("HOME"%string, "/root"%string); ("PATH"%string, "/usr/bin"%string)] = ok default_config.
Proof. apply load_config_defaults. repeat constructor; cbn; intuition discriminate. Defined.

(** C31: [load_config] succeeds exactly when both port settings, as the
    environment gives them or as their defaults ["8047"] and ["587"], are
    integers [int()] reads, and its two ports are then their values: a
    malformed port is never replaced by its default, and no other setting
    can make [load_config] fail. *)
Theorem load_config_ports (environ : list (string * string)) (p q : Z) :
  (exists cfg, load_config environ = ok cfg /\ drill_port cfg = p /\ smtp_port (smtp cfg) = q)
  <-> IntLiteral (env_get environ "DRILL_PORT" "8047") p /\
      IntLiteral (env_get environ "SMTP_PORT" "587") q.
Proof.
  rewrite <- !py_int_of_string_spec. unfold load_config.
  destruct (py_int_of_string (env_get environ "DRILL_PORT" "8047")) as [e|p'];
    [|destruct (py_int_of_string (env_get environ "SMTP_PORT" "587")) as [e|q']].
  - split; [intros (cfg & H & _); inversion H | intros [H _]; inversion H].
  - split; [intros (cfg & H & _); inversion H | intros [_ H]; inversion H].
  - split.
    + intros (cfg & H & <- & <-). injection H as <-. split; reflexivity.
    + intros [H1 H2]. injection H1 as ->. injection H2 as ->. eexists. split; [reflexivity|].
      split; reflexivity.
Qed.

Lemma load_config_ports_witness :
  IntLiteral (env_get [("DRILL_PORT"%string, " 8_047 "%string)] "DRILL_PORT" "8047") 8047 /\
  IntLiteral (env_get [("DRILL_PORT"%string, " 8_047 "%string)] "SMTP_PORT" "587") 587 /\
  exists cfg, load_config [("DRILL_PORT"%string, " 8_047 "%string)] = ok cfg /\
    drill_port cfg = 8047 /\ smtp_port (smtp cfg) = 587.
Proof.
  assert (H1 : IntLiteral (env_get [("DRILL_PORT"%string, " 8_047 "%string)] "DRILL_PORT" "8047") 8047)
    by (apply py_int_of_string_spec; reflexivity).
  assert (H2 : IntLiteral (env_get [("DRILL_PORT"%string, " 8_047 "%string)] "SMTP_PORT" "587") 587)
    by (apply py_int_of_string_spec; reflexivity).
  split; [exact H1|]. split; [exact H2|].
  apply (load_config_ports _ 8047 587). split; assumption.
Defined.
