(* ===== verification/Drill.v ===== *)
(** * Drill: [run_sql] and the SQL the fetchers send

    [run_sql(sql, host, port)] (report_engine.py lines 48-62) posts the
    query to Drill's REST endpoint and turns the answer into a DataFrame.
    The transport is the function [post] from the URL and the JSON payload
    to an [HttpResult]: a [RequestException] raised by [requests.post]
    (refused connection, timeout, bad URL), or a response with its status
    code and its body as [r.json()] parses it, [None] when it is not JSON.
    With requests 2.27 or later the [JSONDecodeError] of [r.json()] is a
    [RequestException] and is caught like the others.  The DataFrame is
    kept as the value [pd.DataFrame] is built from ([RowsFrame]), or the
    empty frame of the two fallbacks ([EmptyFrame]).

    The SQL texts are the f-strings of the four fetchers, the day-range
    and the single-period forms, with their indentation: Drill reads both
    forms alike, but they are different strings. *)

From Stdlib Require Import ZArith String Ascii List Bool Lia.
From S2P Require Import Prelude PyInt Config.
Import ListNotations.
Local Open Scope string_scope.

(** ** The request *)

(** Line 50: [f"http://{host}:{port}/query.json"]. *)
Definition drill_url (host : string) (port : Z) : string :=
  "http://" ++ host ++ ":" ++ py_str port ++ "/query.json".

(** Line 55: the JSON payload of the POST. *)
Definition drill_request (sql : string) : JValue :=
  JObj [("queryType", JStr "SQL"); ("query", JStr sql);
        ("options", JObj [("drill.exec.http.rest.errors.verbose", JStr "true")])].

Inductive HttpResult : Type :=
| RequestFailed                                  (** [requests.post] raised *)
| Response (status : Z) (body : option JValue).   (** [r.status_code], [r.json()] *)

(** [r.raise_for_status()] raises [HTTPError] for a 4xx or 5xx status. *)
Definition http_error (status : Z) : bool := (400 <=? status)%Z && (status <? 600)%Z.

(** [needle in s] for two strings. *)
Fixpoint str_contains (needle s : string) : bool :=
  starts_with needle s ||
  match s with
  | EmptyString => false
  | String _ s' => str_contains needle s'
  end.

(** [key in out] for the value [r.json()] returned: a key of a dict, an
    element of a list, a substring of a string; [TypeError] for a number,
    a boolean or [None]. *)
Definition py_contains (key : string) (out : JValue) : except bool :=
  match out with
  | JObj kvs => ok (existsb (fun kv => String.eqb (fst kv) key) kvs)
  | JArr xs => ok (existsb (fun x => match x with JStr s => String.eqb s key | _ => false end) xs)
  | JStr s => ok (str_contains key s)
  | _ => raise TypeError
  end.

(** [out[key]] with a string key: [TypeError] unless [out] is a dict. *)
Definition py_getitem (out : JValue) (key : string) : except JValue :=
  match out with
  | JObj kvs =>
      match find (fun kv => String.eqb (fst kv) key) kvs with
      | Some kv => ok (snd kv)
      | None => raise KeyError
      end
  | _ => raise TypeError
  end.

(** What [run_sql] returns: [pd.DataFrame()] or [pd.DataFrame(rows)]. *)
Inductive DrillFrame : Type :=
| EmptyFrame
| RowsFrame (rows : JValue).

(** Lines 48-62. *)
Definition run_sql (post : string -> JValue -> HttpResult) (sql host : string) (port : Z)
  : except DrillFrame :=
  let url := drill_url host port in
  match post url (drill_request sql) with
  | RequestFailed => ok EmptyFrame
  | Response status body =>
      if http_error status then ok EmptyFrame else
      match body with
      | None => ok EmptyFrame
      | Some out =>
          let* has_rows := py_contains "rows" out in
          if has_rows then let* rows := py_getitem out "rows" in ok (RowsFrame rows)
          else ok EmptyFrame
      end
  end.

(** ** The queries *)

(** [n] spaces. *)
Fixpoint spaces (n : nat) : string :=
  match n with
  | O => EmptyString
  | S n' => String " " (spaces n')
  end.

(** A triple-quoted f-string of the fetchers: a line break, then each line
    indented by [ind] and followed by a line break, then [ind] again. *)
Definition sql_block (ind : nat) (lines : list string) : string :=
  newline ++ String.concat EmptyString (map (fun l => spaces ind ++ l ++ newline) lines) ++ spaces ind.

(** Lines 99, 109 and 111: the stage query of a month prefix or a period. *)
Definition stage_sql (base_path p entity_id : string) : string :=
  "SELECT * FROM dfs.`" ++ base_path ++ "/" ++ p ++ "/uf-stages-user-funnel-" ++ p
  ++ ".csv` WHERE Entity_ID = '" ++ entity_id ++ "'".

Definition otp_lines (base_path d entity_id : string) : list string :=
  ["SELECT SUM(CAST(Correct_OTP_Entered AS DOUBLE)) AS Total_Correct_OTP_Entered,";
   "       SUM(CAST(Incorrect_OTP_Entered AS DOUBLE)) AS Total_Incorrect_OTP_Entered,";
   "       SUM(CAST(OTP_Not_Entered AS DOUBLE)) AS Total_OTP_Not_Entered";
   "FROM dfs.`" ++ base_path ++ "/" ++ d ++ "/otp-summary-user-funnel-" ++ d
   ++ ".csv` WHERE entity_id = '" ++ entity_id ++ "'"].

(** Lines 122-127, the query of one day of a range. *)
Definition otp_sql_range (base_path d entity_id : string) : string :=
  sql_block 12 (otp_lines base_path d entity_id).

(** Lines 132-137, the query of a day or month. *)
Definition otp_sql (base_path date_spec entity_id : string) : string :=
  sql_block 4 (otp_lines base_path date_spec entity_id).

Definition discovery_lines (base_path d entity_id : string) : list string :=
  ["SELECT SUM(CAST(NULLIF(Account_Discovered,'') AS DOUBLE)) AS Account_Discovered,";
   "       SUM(CAST(NULLIF(Account_not_Found,'') AS DOUBLE)) AS Account_not_Found,";
   "       SUM(CAST(NULLIF(FIP_Not_Selected,'') AS DOUBLE)) AS FIP_Not_Selected,";
   "       SUM(CAST(NULLIF(Failure,'') AS DOUBLE)) AS Failure,";
   "       SUM(CAST(NULLIF(NO_STATUS,'') AS DOUBLE)) AS NO_STATUS";
   "FROM dfs.`" ++ base_path ++ "/" ++ d ++ "/discovery-summary-user-funnel-" ++ d
   ++ ".csv` WHERE entity_id = '" ++ entity_id ++ "'"].

(** Lines 148-155. *)
Definition discovery_sql_range (base_path d entity_id : string) : string :=
  sql_block 12 (discovery_lines base_path d entity_id).

(** Lines 160-167. *)
Definition discovery_sql (base_path date_spec entity_id : string) : string :=
  sql_block 4 (discovery_lines base_path date_spec entity_id).

Definition fi_lines (base_path d entity_id : string) : list string :=
  ["SELECT fetch_status, COUNT(fetch_status) AS Count";
   "FROM dfs.`" ++ base_path ++ "/" ++ d ++ "/user-funnel-" ++ d ++ ".csv`";
   "WHERE entity_id = '" ++ entity_id
   ++ "' AND fetch_status IN ('Not Attempted','Failed','Success')";
   "  AND fetch_status IS NOT NULL AND fetch_status <> ''";
   "GROUP BY fetch_status"].

(** Lines 178-184. *)
Definition fi_sql_range (base_path d entity_id : string) : string :=
  sql_block 12 (fi_lines base_path d entity_id).

(** Lines 192-198. *)
Definition fi_sql (base_path date_spec entity_id : string) : string :=
  sql_block 4 (fi_lines base_path date_spec entity_id).

(** ** What [run_sql] returns *)

Definition is_object (v : JValue) : Prop := exists kvs, v = JObj kvs.

Lemma py_contains_error (out : JValue) (e : PyExc) :
  py_contains "rows" out = raise e -> e = TypeError /\ ~ is_object out.
Proof.
  destruct out; cbn; intros H; inversion H; subst; split; try reflexivity;
    intros (kvs & E); discriminate.
Qed.

Lemma py_getitem_contains (out : JValue) (e : PyExc) :
  py_contains "rows" out = ok true -> py_getitem out "rows" = raise e ->
  e = TypeError /\ ~ is_object out.
Proof.
  destruct out as [| | | |xs|kvs]; cbn; intros Hc Hg; inversion Hg; subst;
    try (split; [reflexivity | intros (kvs' & E); discriminate]).
  injection Hc as Hc. apply existsb_exists in Hc as (kv & Hin & Hk).
  destruct (find _ kvs) eqn:Hf; [discriminate|].
  rewrite (find_none _ _ Hf kv Hin) in Hk. discriminate.
Qed.

(** C24: [run_sql] keeps the transport contract: a request that raises,
    a 4xx or 5xx status, or a body that is not JSON gives the empty frame;
    and up to [pd.DataFrame(rows)], whose construction from Drill's rows is
    pandas', [run_sql] raises nothing but [TypeError], and that only when
    Drill answers with a status that is not an error and a JSON value that
    is not an object. *)
Theorem run_sql_transport (post : string -> JValue -> HttpResult) (sql host : string) (port : Z) :
  let answer := post (drill_url host port) (drill_request sql) in
  ((answer = RequestFailed \/ (exists st b, answer = Response st b /\ http_error st = true) \/
    (exists st, answer = Response st None)) -> run_sql post sql host port = ok EmptyFrame) /\
  (forall e, run_sql post sql host port = raise e ->
     e = TypeError /\ exists st out, answer = Response st (Some out) /\ http_error st = false /\
                                     ~ is_object out).
Proof.
  intros answer. unfold run_sql. fold answer. split.
  - intros [->|[(st & b & -> & Hst)|(st & ->)]]; [reflexivity | rewrite Hst; reflexivity |].
    destruct (http_error st); reflexivity.
  - intros e. destruct answer as [|st [out|]]; [discriminate| |destruct (http_error st); discriminate].
    destruct (http_error st) eqn:Hst; [discriminate|].
    destruct (py_contains "rows" out) as [e'|[|]] eqn:Hc; cbn.
    + intros H. inversion H; subst. apply py_contains_error in Hc as [-> Ho]. eauto 6.
    + destruct (py_getitem out "rows") as [e'|rows] eqn:Hg; cbn; intros H; inversion H; subst.
      apply (py_getitem_contains out) in Hg as [-> Ho]; [eauto 6 | exact Hc].
    + discriminate.
Qed.

(** An answer [run_sql] raises on: a JSON string that contains ["rows"]. *)
Lemma run_sql_transport_witness :
  let post := fun (_ : string) (_ : JValue) => Response 200 (Some (JStr "no rows")) in
  run_sql post "SELECT 1" "localhost" 8047 = raise TypeError /\
  TypeError = TypeError /\
  exists st out, post (drill_url "localhost" 8047) (drill_request "SELECT 1") = Response st (Some out) /\
    http_error st = false /\ ~ is_object out.
Proof.
  intros post. assert (H : run_sql post "SELECT 1" "localhost" 8047 = raise TypeError) by reflexivity.
  split; [exact H|]. exact (proj2 (run_sql_transport post "SELECT 1" "localhost" 8047) _ H).
Defined.

(** The entity id is spliced into the query unescaped: an id with a quote
    rewrites the [WHERE] clause. *)
Lemma stage_sql_injection :
  stage_sql "/data/user-funnel" "01_03_2025" "x' OR '1'='1"
  = "SELECT * FROM dfs.`/data/user-funnel/01_03_2025/uf-stages-user-funnel-01_03_2025.csv` WHERE Entity_ID = 'x' OR '1'='1'".
Proof. reflexivity. Qed.
