(* ===== verification/Fetch.v ===== *)
(** * Fetch: the four Drill fetchers and their range paths

    [fetch_stage_metrics], [fetch_otp_totals], [fetch_discovery_totals] and
    [fetch_fi_status_counts] (report_engine.py lines 89-199) dispatch on the
    date specification: a specification containing [->] is a range, split
    on [->] and stripped; anything else is one period token (a day
    [dd_mm_yyyy] or a month [*mm_yyyy]) queried as it is.

    The queries themselves ([run_sql] on an SQL string) are the interface
    [DrillSource]: one function per query kind from the entity and the
    period token to the frame Drill returns (an empty frame on a failed
    request).  The range paths are modelled from the pandas calls:
    - stages: one query per month of [_month_prefixes], [pd.concat], the
      [Date] column parsed with [pd.to_datetime(format="%d-%m-%Y")] and the
      rows between the two dates kept;
    - OTP and discovery: one query per day of [_date_range], [pd.concat]
      and [.sum(numeric_only=True)] into a single row (nulls skipped);
    - fetch statuses: one query per day, [pd.concat], then
      [groupby("fetch_status")["Count"].sum()], modelled as a stdpp [gmap]
      from status to total, listed in key order. *)

From stdpp Require Import base gmap strings sorting.
From Stdlib Require Import ZArith String Ascii List Bool Lia Permutation.
From S2P Require Import Prelude Frames Funnel Calendar DateFormat DateRange Drill.
Import ListNotations Table.
Open Scope Z_scope.

(** ** Strings of the date specification *)

(** ["->" in s]. *)
Fixpoint contains_arrow (s : string) : bool :=
  match s with
  | EmptyString => false
  | String c s' => starts_with "->" s || contains_arrow s'
  end.

(** [s.split("->")]: the pieces between the non-overlapping occurrences of
    [->], from the left. *)
Fixpoint split_arrow_aux (s : string) (cur : string) : list string :=
  match s with
  | EmptyString => [cur]
  | String c s' =>
      match s' with
      | String c' s'' =>
          if Ascii.eqb "-" c && Ascii.eqb ">" c' then cur :: split_arrow_aux s'' EmptyString
          else split_arrow_aux s' (cur ++ String c EmptyString)%string
      | EmptyString => split_arrow_aux s' (cur ++ String c EmptyString)%string
      end
  end.

Definition split_arrow (s : string) : list string := split_arrow_aux s EmptyString.

(** [parts = [p.strip() for p in date_spec.split("->")]]; the code reads
    [parts[0]] and [parts[1]]. *)
Definition range_parts (date_spec : string) : string * string :=
  let parts := map strip (split_arrow date_spec) in
  (nth 0 parts EmptyString, nth 1 parts EmptyString).

(** ** Stage frames *)

(** A row of the stage CSV: its [Date] cell ([None] when the column is
    missing) and its stage columns. *)
Record StageRecord : Type := mkStageRecord {
  rec_date : option string;
  rec_values : StageColumn -> option Z
}.

(** The stage DataFrame: its stage columns, whether it has a [Date] column,
    and its rows. *)
Record StageFrame : Type := mkStageFrame {
  sf_columns : list StageColumn;
  sf_has_date : bool;
  sf_rows : list StageRecord
}.

Definition empty_stage_frame : StageFrame := mkStageFrame [] false [].

(** [stage_df.empty]: no rows, or no columns.  A frame whose only
    columns are neither stage columns nor [Date] is not represented: the
    stage CSV has both. *)
Definition stage_frame_empty (sf : StageFrame) : bool :=
  match sf_rows sf with
  | [] => true
  | _ => match sf_columns sf with [] => negb (sf_has_date sf) | _ => false end
  end.

(** The stage columns as a [Frame], as [aggregate_stages] reads them. *)
Definition stage_values (sf : StageFrame) : Frame StageColumn :=
  mkFrame (sf_columns sf) (map rec_values (sf_rows sf)).

(** Union of column lists, in the order of first appearance. *)
Definition union_columns {C : Type} `{EqDec C} (a b : list C) : list C :=
  a ++ filter (fun c => negb (mem c a)) b.

(** A row of a frame inside [pd.concat]: NaN in the columns the frame lacks. *)
Definition mask_row {C : Type} `{EqDec C} (cols : list C) (r : C -> option Z) : C -> option Z :=
  fun c => if mem c cols then r c else None.

(** [pd.concat(frames)] of stage frames. *)
Definition concat_stage_frames (frames : list StageFrame) : StageFrame :=
  mkStageFrame
    (fold_left (fun acc f => union_columns acc (sf_columns f)) frames [])
    (existsb sf_has_date frames)
    (flat_map (fun f =>
       map (fun r => mkStageRecord (if sf_has_date f then rec_date r else None)
                                   (mask_row (sf_columns f) (rec_values r)))
           (sf_rows f)) frames).

(** Line 104: [pd.to_datetime(combined["Date"], format="%d-%m-%Y")]:
    [KeyError] without the column, [ValueError] for a cell that does not
    parse, NaT ([None]) for a missing or empty cell. *)
Definition parse_stage_dates (combined : StageFrame)
  : except (list (option Date * StageRecord)) :=
  if negb (sf_has_date combined) then raise KeyError else
  fold_right (fun r acc =>
      let* d := match rec_date r with
                | Some EmptyString => ok None
                | Some s => let* d := strptime_fmt "-"%char s in ok (Some d)
                | None => ok None
                end in
      let* rest := acc in ok ((d, r) :: rest)) (ok []) (sf_rows combined).

(** Lines 105-107: the rows with [start <= Date <= end] (NaT compares false). *)
Definition keep_in_range (cols : list StageColumn) (start stop : Date)
  (dated : list (option Date * StageRecord)) : StageFrame :=
  mkStageFrame cols true
    (map snd (filter (fun '(d, _) =>
         match d with
         | Some d => date_leb start d && date_leb d stop
         | None => false
         end) dated)).

(** ** OTP and discovery sums *)

(** [pd.concat(frames)] of numeric frames. *)
Definition concat_frames {C : Type} `{EqDec C} (frames : list (Frame C)) : Frame C :=
  mkFrame (fold_left (fun acc f => union_columns acc (columns f)) frames [])
          (flat_map (fun f => map (mask_row (columns f)) (rows f)) frames).

(** Whether column [c] of [df] holds a number: pandas builds the column
    of a Drill row whose value is null as an object column of [None]; in
    [pd.concat] such all-null pieces do not decide the column's type
    (pandas 2.x), so the concatenated column is numeric exactly when some
    cell is not null. *)
Definition numeric_column {C : Type} (df : Frame C) (c : C) : bool :=
  existsb (fun r => is_some (r c)) (rows df).

(** [df.sum(numeric_only=True).to_frame().T]: one row of column sums, the
    nulls skipped; [numeric_only] drops the columns that hold no number,
    and no columns at all remain when [df] has none. *)
Definition sum_frame {C : Type} (df : Frame C) : Frame C :=
  mkFrame (filter (numeric_column df) (columns df))
          [fun c => Some (sumZ (map (fun r => notna_int (r c)) (rows df)))].

(** A day's frame reports column [c]: it has the column and a number in it. *)
Definition reports {C : Type} `{EqDec C} (f : Frame C) (c : C) : bool :=
  mem c (columns f) && numeric_column f c.

(** ** The fetch-status [groupby] *)

(** The totals of [groupby("fetch_status")["Count"].sum()], by status. *)
Definition group_counts (rows : list FiRow) : gmap string Z :=
  foldl (fun m r => <[fetch_status r := default 0 (m !! fetch_status r) + Count r]> m) ∅ rows.

Definition key_le (a b : string * Z) : Prop := String.le a.1 b.1.
#[export] Instance key_le_dec : RelDecision key_le.
Proof. intros a b. unfold key_le. apply _. Defined.

(** [.reset_index()] of the grouped series: one row per status, in the
    sorted order of the statuses. *)
Definition groupby_sum (rows : list FiRow) : list FiRow :=
  map (fun kv => mkFiRow kv.1 kv.2) (merge_sort key_le (map_to_list (group_counts rows))).

(** ** The data source *)

(** [run_sql(sql, host, port)] on each fetcher's query, read as the
    frame [pd.DataFrame] builds from Drill's rows.  [Drill.run_sql] gives
    the empty frame for every failed request and the rows of every JSON
    object Drill answers, without raising; the typed frames are what
    pandas makes of those rows. *)
Class DrillSource : Type := {
  run_sql_stages : string -> string -> Z -> StageFrame;
  run_sql_otp : string -> string -> Z -> Frame OtpColumn;
  run_sql_discovery : string -> string -> Z -> Frame DiscoveryColumn;
  run_sql_fi_status : string -> string -> Z -> list FiRow
}.

Section Fetchers.
Context `{DrillSource}.
Variables (base_path host : string) (port : Z).

(** [fetch_stage_metrics], lines 89-112: one query per month prefix of a
    range, the one query of the period otherwise (lines 108-111 build the
    same text on both branches). *)
Definition fetch_stage_metrics (entity_id date_spec : string) : except StageFrame :=
  if contains_arrow date_spec then
    let '(p0, p1) := range_parts date_spec in
    let* prefixes := _month_prefixes p0 p1 in
    let frames := map (fun p => run_sql_stages (stage_sql base_path p entity_id) host port)
                      prefixes in
    match frames with
    | [] => ok empty_stage_frame
    | _ =>
        let combined := concat_stage_frames frames in
        let* dated := parse_stage_dates combined in
        let* start := strptime_dmy p0 in
        let* stop := strptime_dmy p1 in
        ok (keep_in_range (sf_columns combined) start stop dated)
    end
  else ok (run_sql_stages (stage_sql base_path date_spec entity_id) host port).

(** The common shape of [fetch_otp_totals] (lines 115-138) and
    [fetch_discovery_totals] (lines 141-168): the query of each day of a
    range ([range_sql]) or of the period ([day_sql]). *)
Definition fetch_summed {C : Type} `{EqDec C} (query : string -> string -> Z -> Frame C)
  (range_sql day_sql : string -> string -> string -> string)
  (entity_id date_spec : string) : except (Frame C) :=
  if contains_arrow date_spec then
    let '(p0, p1) := range_parts date_spec in
    let* dates := _date_range p0 p1 in
    let frames := map (fun d => query (range_sql base_path d entity_id) host port) dates in
    match frames with
    | [] => ok empty_frame
    | _ => ok (sum_frame (concat_frames frames))
    end
  else ok (query (day_sql base_path date_spec entity_id) host port).

Definition fetch_otp_totals (entity_id date_spec : string) : except (Frame OtpColumn) :=
  fetch_summed run_sql_otp otp_sql_range otp_sql entity_id date_spec.

Definition fetch_discovery_totals (entity_id date_spec : string)
  : except (Frame DiscoveryColumn) :=
  fetch_summed run_sql_discovery discovery_sql_range discovery_sql entity_id date_spec.

(** [fetch_fi_status_counts], lines 171-199. *)
Definition fetch_fi_status_counts (entity_id date_spec : string) : except (list FiRow) :=
  if contains_arrow date_spec then
    let '(p0, p1) := range_parts date_spec in
    let* dates := _date_range p0 p1 in
    let frames := map (fun d => run_sql_fi_status (fi_sql_range base_path d entity_id) host port)
                      dates in
    match frames with
    | [] => ok []
    | _ =>
        let combined := concat frames in
        match combined with
        | [] => ok combined
        | _ => ok (groupby_sum combined)
        end
    end
  else ok (run_sql_fi_status (fi_sql base_path date_spec entity_id) host port).

End Fetchers.

(** ** Reading the fetched frames *)

(** The column total one day's frame contributes to the concatenation: its
    non-null cells, or nothing when the frame lacks the column. *)
Definition day_total {C : Type} `{EqDec C} (f : Frame C) (c : C) : Z :=
  if mem c (columns f) then sumZ (map (fun r => notna_int (r c)) (rows f)) else 0.

(** The rows of a status-to-total map. *)
Definition rows_of (m : gmap string Z) : list FiRow :=
  map (fun kv => mkFiRow kv.1 kv.2) (map_to_list m).

(** A character of a printed date other than whitespace and [-]. *)
Definition plain_char (c : ascii) : Prop := is_py_space c = false /\ Ascii.eqb "-" c = false.

(** ** A sample Drill source

    One entity's answers for March 2025: two stage rows in the month file,
    OTP sums for the 1st (with a null [Total_Incorrect_OTP_Entered], the
    answer of [SUM] over no rows) and the 2nd, and fetch statuses for both
    days with [Success] on each. *)
Definition sample_otp_row (a b c : option Z) : OtpColumn -> option Z :=
  fun col => match col with
             | Total_Correct_OTP_Entered => a
             | Total_Incorrect_OTP_Entered => b
             | Total_OTP_Not_Entered => c
             end.

Definition OTP_COLUMNS : list OtpColumn :=
  [Total_Correct_OTP_Entered; Total_Incorrect_OTP_Entered; Total_OTP_Not_Entered].

(** The sample answers Drill gives for the entities [E1] and [E2] under
    the default base path, by query text. *)
Definition sample_base : string := "/data/user-funnel".

Definition asks (mk : string -> string -> string -> string) (p sql : string) : bool :=
  existsb (fun e => String.eqb sql (mk sample_base p e)) ["E1"; "E2"].

(** A day asked in either form. *)
Definition asks_day (range_sql day_sql : string -> string -> string -> string) (d sql : string) : bool :=
  asks range_sql d sql || asks day_sql d sql.

Definition sample_source : DrillSource := {|
  run_sql_stages := fun sql _ _ =>
    if asks stage_sql "*03_2025" sql then
      mkStageFrame STAGE_COLUMNS true
        [mkStageRecord (Some "01-03-2025") (fun _ => Some 5);
         mkStageRecord (Some "02-03-2025") (fun _ => Some 3);
         mkStageRecord (Some "15-03-2025") (fun _ => Some 7)]
    else empty_stage_frame;
  run_sql_otp := fun sql _ _ =>
    if asks_day otp_sql_range otp_sql "01_03_2025" sql
    then mkFrame OTP_COLUMNS [sample_otp_row (Some 40) None (Some 2)]
    else if asks_day otp_sql_range otp_sql "02_03_2025" sql
    then mkFrame OTP_COLUMNS [sample_otp_row (Some 30) (Some 4) (Some 1)]
    else empty_frame;
  run_sql_discovery := fun sql _ _ =>
    if asks_day discovery_sql_range discovery_sql "01_03_2025" sql
    then mkFrame DISCOVERY_COLUMNS [fun _ => Some 2]
    else if asks_day discovery_sql_range discovery_sql "02_03_2025" sql
    then mkFrame DISCOVERY_COLUMNS [fun _ => None]
    else empty_frame;
  run_sql_fi_status := fun sql _ _ =>
    if asks_day fi_sql_range fi_sql "01_03_2025" sql
    then [mkFiRow "Success" 9; mkFiRow "Failed" 1]
    else if asks_day fi_sql_range fi_sql "02_03_2025" sql
    then [mkFiRow "Not Attempted" 2; mkFiRow "Success" 4]
    else []
|}.

(** ** The [groupby] keeps every status total *)

Lemma status_count_perm (l l' : list FiRow) (s : string) :
  Permutation l l' -> status_count l s = status_count l' s.
Proof.
  unfold status_count. induction 1 as [|x l l' _ IH|x y l|l l' l'' _ IH1 _ IH2]; cbn [filter].
  - reflexivity.
  - destruct (String.eqb _ _); cbn [map]; rewrite ?sumZ_cons; lia.
  - destruct (String.eqb (fetch_status x) s), (String.eqb (fetch_status y) s);
      cbn [map]; rewrite ?sumZ_cons; lia.
  - lia.
Qed.

#[export] Instance status_count_proper :
  Proper (Permutation ==> eq ==> eq) status_count.
Proof. intros l l' Hl s ? <-. apply status_count_perm, Hl. Qed.

Lemma status_count_app (l l' : list FiRow) (s : string) :
  status_count (l ++ l') s = status_count l s + status_count l' s.
Proof. unfold status_count. rewrite filter_app, map_app. apply sumZ_app. Qed.

Lemma status_count_cons (r : FiRow) (l : list FiRow) (s : string) :
  status_count (r :: l) s
  = (if String.eqb (fetch_status r) s then Count r else 0) + status_count l s.
Proof.
  unfold status_count; cbn [filter]. destruct (String.eqb _ _); cbn [map]; rewrite ?sumZ_cons; lia.
Qed.

Lemma status_count_rows_of (m : gmap string Z) (s : string) :
  status_count (rows_of m) s = default 0 (m !! s).
Proof.
  unfold rows_of. induction m as [|i x m Hi IH] using map_ind.
  - rewrite map_to_list_empty, lookup_empty. reflexivity.
  - rewrite (map_to_list_insert m i x Hi). cbn [map].
    rewrite status_count_cons, IH; cbn [fetch_status Count fst snd].
    destruct (String.eqb_spec i s) as [<-|Hne].
    + rewrite lookup_insert_eq, Hi. cbn. lia.
    + rewrite lookup_insert_ne by exact Hne. lia.
Qed.

Lemma group_counts_foldl (rows : list FiRow) (m : gmap string Z) (s : string) :
  default 0 (foldl (fun m r => <[fetch_status r := default 0 (m !! fetch_status r) + Count r]> m)
                   m rows !! s)
  = default 0 (m !! s) + status_count rows s.
Proof.
  revert m. induction rows as [|r rows IH]; intros m; cbn [foldl].
  - unfold status_count; cbn. lia.
  - rewrite IH, status_count_cons.
    destruct (String.eqb_spec (fetch_status r) s) as [<-|Hne].
    + rewrite lookup_insert_eq. cbn. lia.
    + rewrite lookup_insert_ne by exact Hne. lia.
Qed.

Lemma status_count_groupby_sum (rows : list FiRow) (s : string) :
  status_count (groupby_sum rows) s = status_count rows s.
Proof.
  unfold groupby_sum. rewrite (merge_sort_Permutation key_le).
  fold (rows_of (group_counts rows)). rewrite status_count_rows_of.
  unfold group_counts. rewrite group_counts_foldl, lookup_empty. cbn. lia.
Qed.

Lemma fi_request_count_groupby_sum (rows : list FiRow) :
  fi_request_count (groupby_sum rows) = fi_request_count rows.
Proof. rewrite !fi_request_count_sums, !status_count_groupby_sum. reflexivity. Qed.

(** C18: the report built from the grouped fetch-status rows of a range is
    the report built from the raw rows of its days: [groupby(...).sum()]
    changes no figure of [build_report_table]. *)
Theorem build_report_table_groupby_sum (st : StageTotals) (otp : Frame OtpColumn)
  (disc : Frame DiscoveryColumn) (rows : list FiRow) :
  build_report_table st otp disc (groupby_sum rows) = build_report_table st otp disc rows.
Proof. unfold build_report_table. rewrite fi_request_count_groupby_sum. reflexivity. Qed.

(** ** Concatenation and column sums *)

Lemma mem_union {C : Type} `{EqDec C} (c : C) (a b : list C) :
  mem c (union_columns a b) = mem c a || mem c b.
Proof.
  apply Bool.eq_iff_eq_true. rewrite Bool.orb_true_iff, !mem_In.
  unfold union_columns. rewrite in_app_iff, filter_In.
  split; [intros [?|[? _]]; auto|].
  intros [Ha|Hb]; [auto|]. destruct (mem c a) eqn:E; [left; apply mem_In; exact E|].
  right. split; [exact Hb | reflexivity].
Qed.

Lemma mem_union_fold {C : Type} `{EqDec C} (c : C) (fs : list (Frame C)) (acc : list C) :
  mem c (fold_left (fun acc f => union_columns acc (columns f)) fs acc)
  = mem c acc || existsb (fun f => mem c (columns f)) fs.
Proof.
  revert acc. induction fs as [|f fs IH]; intros acc; cbn [fold_left existsb].
  - rewrite Bool.orb_false_r. reflexivity.
  - rewrite IH, mem_union, Bool.orb_assoc. reflexivity.
Qed.

Lemma concat_column_sum {C : Type} `{EqDec C} (fs : list (Frame C)) (c : C) :
  sumZ (map (fun r => notna_int (r c)) (rows (concat_frames fs)))
  = sumZ (map (fun f => day_total f c) fs).
Proof.
  unfold concat_frames; cbn [rows]. induction fs as [|f fs IH]; [reflexivity|].
  cbn [flat_map map]. rewrite map_app, sumZ_app, IH, sumZ_cons, map_map.
  unfold day_total, mask_row. destruct (mem c (columns f)); [reflexivity|].
  f_equal. induction (rows f); cbn; auto.
Qed.

Lemma mem_filter {C : Type} `{EqDec C} (p : C -> bool) (c : C) (l : list C) :
  mem c (filter p l) = mem c l && p c.
Proof.
  apply Bool.eq_iff_eq_true. rewrite Bool.andb_true_iff, !mem_In, filter_In. reflexivity.
Qed.

Lemma numeric_column_concat {C : Type} `{EqDec C} (fs : list (Frame C)) (c : C) :
  numeric_column (concat_frames fs) c = existsb (fun f => reports f c) fs.
Proof.
  unfold numeric_column, concat_frames, reports; cbn [rows].
  induction fs as [|f fs IH]; [reflexivity|].
  cbn [flat_map existsb]. rewrite existsb_app, IH, existsb_map. f_equal.
  unfold mask_row. destruct (mem c (columns f)); [reflexivity|].
  cbn. induction (rows f); [reflexivity | assumption].
Qed.

(** A column some day of a non-empty concatenation reports is read from
    the single row of [sum_frame] as the sum of the day totals. *)
Lemma iloc_sum_concat {C : Type} `{EqDec C} (fs : list (Frame C)) (c : C) :
  Exists (fun f => reports f c = true) fs ->
  frame_empty (sum_frame (concat_frames fs)) = false /\
  iloc (sum_frame (concat_frames fs)) c 0 = ok (Some (sumZ (map (fun f => day_total f c) fs))).
Proof.
  intros Hex. apply Exists_exists in Hex as (f & Hf & Hc).
  assert (Hm : mem c (columns (sum_frame (concat_frames fs))) = true).
  { unfold reports in Hc. apply Bool.andb_true_iff in Hc as [Hc Hn].
    cbn [sum_frame columns]. rewrite mem_filter, numeric_column_concat.
    cbn [concat_frames columns]. rewrite mem_union_fold.
    apply Bool.andb_true_iff. split.
    - apply Bool.orb_true_iff. right. apply existsb_exists. eauto.
    - apply existsb_exists. exists f. split; [exact Hf|]. unfold reports. rewrite Hc, Hn. reflexivity. }
  split.
  - unfold frame_empty. destruct (columns (sum_frame (concat_frames fs))) eqn:E;
      [discriminate | reflexivity].
  - unfold iloc. rewrite Hm. cbn [sum_frame rows nth_error]. f_equal. f_equal.
    apply concat_column_sum.
Qed.

(** ** Printed dates inside a range specification *)

Lemma digit_plain (k : Z) : 0 <= k <= 9 -> plain_char (digit k).
Proof.
  intros Hk. split; [apply is_py_space_digit; exact Hk|].
  apply Ascii.eqb_neq. intros E. symmetry in E. apply (f_equal nat_of_ascii) in E.
  unfold digit in E. rewrite nat_ascii_embedding in E by lia.
  change (nat_of_ascii "-") with 45%nat in E. lia.
Qed.

Lemma strftime_dmy_shape (d : Date) : valid_date d = true ->
  exists c1 c2 c3 c4 c5 c6 c7 c8,
    Forall plain_char [c1; c2; c3; c4; c5; c6; c7; c8] /\
    strftime_dmy d = String c1 (String c2 (String "_" (String c3 (String c4
                       (String "_" (String c5 (String c6 (String c7 (String c8 EmptyString))))))))).
Proof.
  intros Hv. pose proof Hv as H. valid_hyp H. pose proof (days_in_month_range (year d) (month d)).
  unfold MINYEAR, MAXYEAR in *.
  assert (0 <= day d / 10 < 10) by (split; [apply Z.div_pos | apply Z.div_lt_upper_bound]; lia).
  assert (0 <= month d / 10 < 10) by (split; [apply Z.div_pos | apply Z.div_lt_upper_bound]; lia).
  assert (0 <= year d / 1000 < 10) by (split; [apply Z.div_pos | apply Z.div_lt_upper_bound]; lia).
  assert (0 <= year d / 100) by (apply Z.div_pos; lia).
  assert (0 <= year d / 10) by (apply Z.div_pos; lia).
  do 8 eexists. split; [|reflexivity].
  repeat (apply Forall_cons; [apply digit_plain; first [lia | apply digit_bound; lia] |]).
  apply Forall_nil.
Qed.

(** Evaluates the string functions on a string of symbolic plain characters. *)
Ltac plain_simp :=
  repeat (cbv beta iota fix zeta delta [contains_arrow starts_with append split_arrow_aux
                                        map nth lstrip rev_string andb orb fst snd];
    repeat match goal with
    | H : is_py_space ?c = false |- context [is_py_space ?c] => rewrite H
    | H : Ascii.eqb "-" ?c = false |- context [Ascii.eqb "-" ?c] => rewrite H
    | |- context [Ascii.eqb (Ascii ?a0 ?a1 ?a2 ?a3 ?a4 ?a5 ?a6 ?a7)
                            (Ascii ?b0 ?b1 ?b2 ?b3 ?b4 ?b5 ?b6 ?b7)] =>
        let e := eval vm_compute in (Ascii.eqb (Ascii a0 a1 a2 a3 a4 a5 a6 a7)
                                               (Ascii b0 b1 b2 b3 b4 b5 b6 b7)) in
        change (Ascii.eqb (Ascii a0 a1 a2 a3 a4 a5 a6 a7) (Ascii b0 b1 b2 b3 b4 b5 b6 b7)) with e
    | |- context [is_py_space (Ascii ?a0 ?a1 ?a2 ?a3 ?a4 ?a5 ?a6 ?a7)] =>
        let e := eval vm_compute in (is_py_space (Ascii a0 a1 a2 a3 a4 a5 a6 a7)) in
        change (is_py_space (Ascii a0 a1 a2 a3 a4 a5 a6 a7)) with e
    end).

(** A printed day is a single-period token, and [d -> d] is a range whose
    two parts are that day. *)
Lemma range_parts_single (d : Date) : valid_date d = true ->
  contains_arrow (strftime_dmy d) = false /\
  contains_arrow (strftime_dmy d ++ " -> " ++ strftime_dmy d)%string = true /\
  range_parts (strftime_dmy d ++ " -> " ++ strftime_dmy d)%string = (strftime_dmy d, strftime_dmy d).
Proof.
  intros Hv. destruct (strftime_dmy_shape d Hv) as (c1 & c2 & c3 & c4 & c5 & c6 & c7 & c8 & Hp & ->).
  repeat match goal with
  | H : Forall plain_char (_ :: _) |- _ => apply Forall_cons_iff in H as [[? ?] H]
  end.
  unfold range_parts, split_arrow, strip. plain_simp. split; [|split]; reflexivity.
Qed.

(** ** The fetchers on a range *)

Lemma status_count_concat (ls : list (list FiRow)) (s : string) :
  status_count (concat ls) s = sumZ (map (fun l => status_count l s) ls).
Proof.
  induction ls as [|l ls IH]; [reflexivity|].
  cbn [concat map]. rewrite status_count_app, IH, sumZ_cons. reflexivity.
Qed.

Lemma Exists_map_frames {C : Type} `{EqDec C} (q : string -> Frame C) (dates : list string) (c : C) :
  Exists (fun d => reports (q d) c = true) dates ->
  Exists (fun f => reports f c = true) (map q dates).
Proof.
  rewrite !Exists_exists. intros (d & Hd & Hc). exists (q d). split; [apply in_map|]; assumption.
Qed.

Section Fetching.
Context `{DrillSource}.
Variables (base_path host : string) (port : Z) (entity_id date_spec p0 p1 : string).
Hypothesis Harrow : contains_arrow date_spec = true.
Hypothesis Hparts : range_parts date_spec = (p0, p1).

Lemma fetch_summed_range {C : Type} `{EqDec C} (query : string -> string -> Z -> Frame C)
  (range_sql day_sql : string -> string -> string -> string) (dates : list string) :
  _date_range p0 p1 = ok dates ->
  fetch_summed base_path host port query range_sql day_sql entity_id date_spec
  = ok (match dates with
        | [] => empty_frame
        | _ => sum_frame (concat_frames
                 (map (fun d => query (range_sql base_path d entity_id) host port) dates))
        end).
Proof.
  intros Hd. unfold fetch_summed. rewrite Harrow, Hparts, Hd, bind_ok.
  destruct dates; reflexivity.
Qed.

(** A read of the summed frame of a range whose days have the column. *)
Lemma summed_range_iloc {C : Type} `{EqDec C} (query : string -> string -> Z -> Frame C)
  (range_sql day_sql : string -> string -> string -> string) (dates : list string) (c : C) :
  _date_range p0 p1 = ok dates ->
  Exists (fun d => reports (query (range_sql base_path d entity_id) host port) c = true)
         dates ->
  exists f, fetch_summed base_path host port query range_sql day_sql entity_id date_spec = ok f /\
    frame_empty f = false /\
    iloc f c 0 = ok (Some (sumZ (map (fun d => day_total (query (range_sql base_path d entity_id)
                                                            host port) c) dates))).
Proof.
  intros Hd Hex. rewrite (fetch_summed_range query range_sql day_sql dates Hd).
  destruct dates as [|d ds]; [inversion Hex|].
  destruct (iloc_sum_concat (map (fun d => query (range_sql base_path d entity_id) host port)
                                 (d :: ds)) c) as [He Hi];
    [apply Exists_map_frames, Hex|].
  eexists. split; [reflexivity|]. split; [exact He|]. rewrite Hi, map_map. reflexivity.
Qed.

(** C19: on a range, the fetched fetch-status rows count, for every status,
    the sum over the days of the range of that day's count. *)
Theorem fetch_fi_status_counts_range (dates : list string) :
  _date_range p0 p1 = ok dates ->
  exists fi, fetch_fi_status_counts base_path host port entity_id date_spec = ok fi /\
    forall s, status_count fi s
              = sumZ (map (fun d => status_count
                             (run_sql_fi_status (fi_sql_range base_path d entity_id) host port) s)
                          dates).
Proof.
  intros Hd. unfold fetch_fi_status_counts. rewrite Harrow, Hparts, Hd, bind_ok.
  assert (Hs : forall s,
    status_count (concat (map (fun d => run_sql_fi_status (fi_sql_range base_path d entity_id)
                                          host port) dates)) s
    = sumZ (map (fun d => status_count
                   (run_sql_fi_status (fi_sql_range base_path d entity_id) host port) s) dates))
    by (intros s; rewrite status_count_concat, map_map; reflexivity).
  destruct dates as [|d ds]; [exists []; split; reflexivity|]. cbn [map] in Hs |- *.
  destruct (concat _) as [|r rs] eqn:Hc; eexists; (split; [reflexivity|]); intros s;
    rewrite ?status_count_groupby_sum; apply Hs.
Qed.

(** C20: on a range where some day reports the OTP column (has it, with a
    number), the value the report reads is the sum over the days of that
    day's column, nulls and missing columns counting 0. *)
Theorem fetch_otp_totals_range (dates : list string) (col : OtpColumn) :
  _date_range p0 p1 = ok dates ->
  Exists (fun d => reports (run_sql_otp (otp_sql_range base_path d entity_id) host port) col
                   = true) dates ->
  exists f, fetch_otp_totals base_path host port entity_id date_spec = ok f /\
    otp_value f col = ok (sumZ (map (fun d => day_total
                                      (run_sql_otp (otp_sql_range base_path d entity_id) host port)
                                      col) dates)).
Proof.
  intros Hd Hex.
  destruct (summed_range_iloc run_sql_otp otp_sql_range otp_sql dates col Hd Hex)
    as (f & Hf & He & Hi).
  exists f. split; [exact Hf|]. unfold otp_value. rewrite He, Hi. reflexivity.
Qed.

(** on a range whose days report every discovery column, the
    discovery breakdown the report reads holds, for each column, the sum
    over the days of that day's column. *)
Theorem fetch_discovery_totals_range (dates : list string) :
  _date_range p0 p1 = ok dates ->
  Forall (fun c => Exists (fun d => reports (run_sql_discovery
                     (discovery_sql_range base_path d entity_id) host port) c = true) dates)
         DISCOVERY_COLUMNS ->
  exists f, fetch_discovery_totals base_path host port entity_id date_spec = ok f /\
    discovery_dict f
    = ok (map (fun c => (c, sumZ (map (fun d => day_total (run_sql_discovery
                                   (discovery_sql_range base_path d entity_id) host port) c) dates)))
              DISCOVERY_COLUMNS).
Proof.
  intros Hd Hall. unfold fetch_discovery_totals.
  rewrite (fetch_summed_range run_sql_discovery discovery_sql_range discovery_sql dates Hd).
  inversion Hall as [|c1 cs1 H1 Hall1]; subst.
  inversion Hall1 as [|c2 cs2 H2 Hall2]; subst.
  inversion Hall2 as [|c3 cs3 H3 Hall3]; subst.
  inversion Hall3 as [|c4 cs4 H4 Hall4]; subst.
  inversion Hall4 as [|c5 cs5 H5 _]; subst.
  destruct dates as [|d ds]; [inversion H1|]. eexists. split; [reflexivity|].
  unfold discovery_dict.
  destruct (iloc_sum_concat (map (fun d => run_sql_discovery (discovery_sql_range base_path d entity_id) host port) (d :: ds)) Account_Discovered)
    as [He I1]; [apply Exists_map_frames, H1|].
  destruct (iloc_sum_concat (map (fun d => run_sql_discovery (discovery_sql_range base_path d entity_id) host port) (d :: ds)) Account_not_Found)
    as [_ I2]; [apply Exists_map_frames, H2|].
  destruct (iloc_sum_concat (map (fun d => run_sql_discovery (discovery_sql_range base_path d entity_id) host port) (d :: ds)) FIP_Not_Selected)
    as [_ I3]; [apply Exists_map_frames, H3|].
  destruct (iloc_sum_concat (map (fun d => run_sql_discovery (discovery_sql_range base_path d entity_id) host port) (d :: ds)) Failure)
    as [_ I4]; [apply Exists_map_frames, H4|].
  destruct (iloc_sum_concat (map (fun d => run_sql_discovery (discovery_sql_range base_path d entity_id) host port) (d :: ds)) NO_STATUS)
    as [_ I5]; [apply Exists_map_frames, H5|].
  rewrite He. cbn [fold_right DISCOVERY_COLUMNS].
  rewrite I1, I2, I3, I4, I5, !bind_ok, !map_map. reflexivity.
Qed.

End Fetching.

(** ** One day, in its two forms *)

Section SingleDay.
Context `{DrillSource}.
Variables (base_path host : string) (port : Z) (entity_id : string) (d : Date)
  (col col' : OtpColumn) (r : OtpColumn -> option Z).
Hypothesis Hvalid : valid_date d = true.
Hypothesis Hbelow : d <> date_max.
(** Drill answers the two texts of the day's query, which differ only in
    their indentation, alike: with the frame [day] of one row [r]. *)
Variable day : Frame OtpColumn.
Hypothesis Hday : run_sql_otp (otp_sql base_path (strftime_dmy d) entity_id) host port = day.
Hypothesis Hsame : run_sql_otp (otp_sql_range base_path (strftime_dmy d) entity_id) host port = day.
Hypothesis Hcol : mem col (columns day) = true.
Hypothesis Hrow : rows day = [r].
(** The column is null ([SUM] over no rows) and another column holds a number. *)
Hypothesis Hnull : r col = None.
Hypothesis Hcol' : mem col' (columns day) = true.
Hypothesis Hnum' : r col' <> None.

(** C21: a day whose OTP cell is null (Drill's [SUM] over no rows) fails
    the report's read of that column in both forms of the date spec: as
    [dd_mm_yyyy] the cell reaches [int()] as [None] ([TypeError]); as the
    range [dd_mm_yyyy -> dd_mm_yyyy], [.sum(numeric_only=True)] drops the
    all-[None] column while another column survives, so reading it raises
    [KeyError].  Neither reads the missing count as 0. *)
Theorem otp_single_day_forms :
  (exists f, fetch_otp_totals base_path host port entity_id (strftime_dmy d) = ok f /\
             otp_value f col = raise TypeError) /\
  (exists f, fetch_otp_totals base_path host port entity_id
               (strftime_dmy d ++ " -> " ++ strftime_dmy d)%string = ok f /\
             otp_value f col = raise KeyError).
Proof.
  destruct (range_parts_single d Hvalid) as (Hno & Hyes & Hparts).
  split.
  - eexists. split; [unfold fetch_otp_totals, fetch_summed; rewrite Hno; reflexivity|].
    rewrite Hday. unfold otp_value, frame_empty, iloc. rewrite Hcol, Hrow. cbn [nth_error]. rewrite Hnull.
    destruct (columns day); [discriminate | reflexivity].
  - eexists. split.
    + unfold fetch_otp_totals. rewrite (fetch_summed_range base_path host port entity_id _ _ _ Hyes Hparts run_sql_otp
                 otp_sql_range otp_sql [strftime_dmy d] (date_range_one_day d Hvalid Hbelow)).
      reflexivity.
    + cbn [map]. rewrite Hsame.
      assert (Hn : numeric_column (concat_frames [day]) col = false).
      { rewrite numeric_column_concat. cbn. unfold reports, numeric_column.
        rewrite Hrow. cbn. rewrite Hnull. destruct (mem col (columns day)); reflexivity. }
      assert (Hn' : numeric_column (concat_frames [day]) col' = true).
      { rewrite numeric_column_concat. cbn. unfold reports, numeric_column.
        rewrite Hcol', Hrow. cbn. destruct (r col'); [reflexivity | contradiction]. }
      assert (Hm' : mem col' (columns (sum_frame (concat_frames [day]))) = true).
      { cbn [sum_frame columns]. rewrite mem_filter, Hn'. cbn [concat_frames columns].
        rewrite mem_union_fold. cbn. rewrite Hcol'. reflexivity. }
      assert (He : frame_empty (sum_frame (concat_frames [day])) = false).
      { revert Hm'. unfold frame_empty.
        destruct (columns (sum_frame (concat_frames [day]))); [discriminate | reflexivity]. }
      assert (Hm : mem col (columns (sum_frame (concat_frames [day]))) = false).
      { cbn [sum_frame columns]. rewrite mem_filter, Hn. apply andb_false_r. }
      unfold otp_value. rewrite He. unfold iloc. rewrite Hm. reflexivity.
Qed.

End SingleDay.

(** ** The stage range *)

Lemma parse_stage_dates_ok (c : StageFrame) (dated : list (option Date * StageRecord)) :
  parse_stage_dates c = ok dated ->
  Forall (fun '(od, r) => forall dt, od = Some dt ->
            exists s, rec_date r = Some s /\ strptime_fmt "-"%char s = ok dt) dated.
Proof.
  unfold parse_stage_dates. destruct (sf_has_date c); [|discriminate]. cbn [negb].
  revert dated. induction (sf_rows c) as [|r rs IH]; cbn [fold_right]; intros dated Hd.
  - injection Hd as <-. constructor.
  - apply bind_inr in Hd as (od & Hod & Hk). apply bind_inr in Hk as (rest & Hrest & Hk).
    injection Hk as <-. constructor; [|apply IH, Hrest].
    intros dt ->. destruct (rec_date r) as [[|ch s]|]; [discriminate| |discriminate].
    apply bind_inr in Hod as (dt' & Hp & Hq). injection Hq as ->. eauto.
Qed.

(** Concatenated frames none of which has a [Date] column: [KeyError]. *)
Lemma parse_stage_dates_no_date (frames : list StageFrame) :
  Forall (fun f => sf_has_date f = false) frames ->
  parse_stage_dates (concat_stage_frames frames) = raise KeyError.
Proof.
  intros Hall. unfold parse_stage_dates, concat_stage_frames. cbn [sf_has_date].
  replace (existsb sf_has_date frames) with false; [reflexivity|].
  symmetry. apply Bool.not_true_iff_false. rewrite existsb_exists. intros (f & Hf & Ht).
  rewrite Forall_forall in Hall. rewrite (Hall f Hf) in Ht. discriminate.
Qed.

Section StageRange.
Context `{DrillSource}.
Variables (base_path host : string) (port : Z) (entity_id date_spec p0 p1 : string).
Hypothesis Harrow : contains_arrow date_spec = true.
Hypothesis Hparts : range_parts date_spec = (p0, p1).

(** C22: a stage range whose month files all come back without a [Date]
    column (no rows for the entity, or a failed request) raises [KeyError]
    at [combined["Date"]]: the entity is not skipped as one without data. *)
Theorem fetch_stage_metrics_no_date (ps : list string) :
  _month_prefixes p0 p1 = ok ps -> ps <> [] ->
  Forall (fun p => sf_has_date (run_sql_stages (stage_sql base_path p entity_id) host port) = false)
         ps ->
  fetch_stage_metrics base_path host port entity_id date_spec = raise KeyError.
Proof.
  intros Hm Hne Hall. unfold fetch_stage_metrics. rewrite Harrow, Hparts, Hm, bind_ok.
  destruct ps as [|p ps]; [contradiction|].
  cbn [map]. rewrite parse_stage_dates_no_date; [reflexivity|].
  exact (proj2 (Forall_map (fun p => run_sql_stages (stage_sql base_path p entity_id) host port)
                           _ (p :: ps)) Hall).
Qed.

(** C23: every stage row a range returns carries a [Date] cell that parses
    to a day between the two ends of the range. *)
Theorem fetch_stage_metrics_range_rows (sf : StageFrame) :
  fetch_stage_metrics base_path host port entity_id date_spec = ok sf ->
  forall r, In r (sf_rows sf) ->
  exists s dt start stop, rec_date r = Some s /\ strptime_fmt "-"%char s = ok dt /\
    strptime_dmy p0 = ok start /\ strptime_dmy p1 = ok stop /\
    date_leb start dt = true /\ date_leb dt stop = true.
Proof.
  unfold fetch_stage_metrics. rewrite Harrow, Hparts. intros Hf.
  apply bind_inr in Hf as (ps & _ & Hk).
  destruct (map (fun p => run_sql_stages (stage_sql base_path p entity_id) host port) ps) as [|f fs]; [injection Hk as <-; intros _ []|].
  apply bind_inr in Hk as (dated & Hdated & Hk). apply bind_inr in Hk as (start & Hs & Hk).
  apply bind_inr in Hk as (stop & Ht & Hk). injection Hk as <-.
  intros r Hr. unfold keep_in_range in Hr. cbn [sf_rows] in Hr.
  apply in_map_iff in Hr as ([od r'] & Heq & Hin). cbn [snd] in Heq. subst r'.
  apply filter_In in Hin as [Hin Hkeep]. destruct od as [dt|]; [|discriminate].
  apply andb_prop in Hkeep as [H1 H2].
  pose proof (proj1 (Forall_forall _ _) (parse_stage_dates_ok _ _ Hdated) _ Hin dt eq_refl)
    as (s & Hrs & Hps).
  exists s, dt, start, stop. repeat split; assumption.
Qed.

End StageRange.

(** ** Witnesses on the sample source *)

#[local] Existing Instance sample_source.

Definition sample_range : string := "01_03_2025 -> 02_03_2025".

Lemma sample_range_facts :
  contains_arrow sample_range = true /\
  range_parts sample_range = ("01_03_2025", "02_03_2025") /\
  _date_range "01_03_2025" "02_03_2025" = ok ["01_03_2025"; "02_03_2025"].
Proof. vm_compute. repeat split. Qed.

Lemma fetch_fi_status_counts_range_witness :
  exists fi, fetch_fi_status_counts sample_base "localhost" 8047 "E1" sample_range = ok fi /\
    status_count fi "Success" = 13 /\ status_count fi "Failed" = 1.
Proof.
  destruct sample_range_facts as (H1 & H2 & H3).
  destruct (fetch_fi_status_counts_range sample_base "localhost" 8047 "E1" sample_range _ _ H1 H2 _ H3) as (fi & Hf & Hs).
  exists fi. split; [exact Hf|]. rewrite !Hs. split; reflexivity.
Defined.

Lemma fetch_otp_totals_range_witness :
  exists f, fetch_otp_totals sample_base "localhost" 8047 "E1" sample_range = ok f /\
    otp_value f Total_Incorrect_OTP_Entered = ok 4.
Proof.
  destruct sample_range_facts as (H1 & H2 & H3).
  destruct (fetch_otp_totals_range sample_base "localhost" 8047 "E1" sample_range _ _ H1 H2 _ Total_Incorrect_OTP_Entered H3)
    as (f & Hf & Hv); [apply Exists_cons_tl, Exists_cons_hd; reflexivity|].
  exists f. split; [exact Hf|]. rewrite Hv. reflexivity.
Defined.

Lemma fetch_discovery_totals_range_witness :
  exists f, fetch_discovery_totals sample_base "localhost" 8047 "E1" sample_range = ok f /\
    discovery_dict f = ok [(Account_Discovered, 2); (Account_not_Found, 2);
                           (FIP_Not_Selected, 2); (Failure, 2); (NO_STATUS, 2)].
Proof.
  destruct sample_range_facts as (H1 & H2 & H3).
  destruct (fetch_discovery_totals_range sample_base "localhost" 8047 "E1" sample_range _ _ H1 H2 _ H3) as (f & Hf & Hd);
    [repeat constructor|].
  exists f. split; [exact Hf|]. rewrite Hd. reflexivity.
Defined.

Lemma otp_single_day_forms_witness :
  (exists f, fetch_otp_totals sample_base "localhost" 8047 "E1" "01_03_2025" = ok f /\
             otp_value f Total_Incorrect_OTP_Entered = raise TypeError) /\
  (exists f, fetch_otp_totals sample_base "localhost" 8047 "E1" "01_03_2025 -> 01_03_2025" = ok f /\
             otp_value f Total_Incorrect_OTP_Entered = raise KeyError).
Proof.
  assert (Hv : valid_date (mkDate 2025 3 1) = true) by reflexivity.
  assert (Hb : mkDate 2025 3 1 <> date_max) by discriminate.
  exact (otp_single_day_forms sample_base "localhost" 8047 "E1" (mkDate 2025 3 1)
           Total_Incorrect_OTP_Entered Total_Correct_OTP_Entered
           (sample_otp_row (Some 40) None (Some 2)) Hv Hb
           (mkFrame OTP_COLUMNS [sample_otp_row (Some 40) None (Some 2)])
           eq_refl eq_refl eq_refl eq_refl eq_refl eq_refl ltac:(discriminate)).
Defined.

Lemma fetch_stage_metrics_no_date_witness :
  fetch_stage_metrics sample_base "localhost" 8047 "E1" "01_04_2025 -> 02_04_2025" = raise KeyError.
Proof.
  apply (fetch_stage_metrics_no_date sample_base "localhost" 8047 "E1" "01_04_2025 -> 02_04_2025" "01_04_2025" "02_04_2025" eq_refl eq_refl ["*04_2025"]);
    [reflexivity | discriminate | repeat constructor].
Defined.

Lemma fetch_stage_metrics_range_rows_witness :
  exists sf, fetch_stage_metrics sample_base "localhost" 8047 "E1" "02_03_2025 -> 14_03_2025" = ok sf /\
    List.length (sf_rows sf) = 1%nat /\
    forall r, In r (sf_rows sf) ->
      exists s dt start stop, rec_date r = Some s /\ strptime_fmt "-"%char s = ok dt /\
        strptime_dmy "02_03_2025" = ok start /\ strptime_dmy "14_03_2025" = ok stop /\
        date_leb start dt = true /\ date_leb dt stop = true.
Proof.
  destruct (fetch_stage_metrics sample_base "localhost" 8047 "E1" "02_03_2025 -> 14_03_2025") as [e|sf] eqn:E;
    [vm_compute in E; discriminate|].
  exists sf. split; [reflexivity|]. split; [vm_compute in E; injection E as <-; reflexivity|].
  exact (fetch_stage_metrics_range_rows sample_base "localhost" 8047 "E1" "02_03_2025 -> 14_03_2025" "02_03_2025" "14_03_2025" eq_refl eq_refl sf E).
Defined.
