(* ===== verification/Render.v ===== *)
(** * Render: the sheet operations of [write_funnel_excel]

    [write_funnel_excel(table_df, filepath)] (run_reports.py lines 64-125)
    prepends a blank row to the table, dumps the frame into the sheet and
    then lays formats over it.  The workbook itself is I/O; what the code
    decides is the list of sheet operations ([set_column], [merge_range],
    [write], [write_blank]) with their formats, modelled here as the list
    [SheetOp] that [render_ops] returns, [IndexError] standing for an
    [out.iloc[r, c]] past the frame. *)

From Stdlib Require Import ZArith String Ascii List Bool Lia.
From Stdlib Require Import SpecFloat.
From S2P Require Import Prelude PyFloat Frames Funnel Fetch.
Import ListNotations Table.
Local Open Scope nat_scope.

(** The seven formats of lines 81-87 and [stage_fmt] of line 122. *)
Inductive Fmt : Type :=
| gray | green | dark | light | border | note_g | note_w | stage_fmt.

Inductive SheetOp : Type :=
| DumpFrame (out : list (list Cell))                      (** [out.to_excel(...)] *)
| SetColumn (c : nat) (width : Z)
| MergeRange (r1 c1 r2 c2 : nat) (v : Cell) (f : Fmt)
| Write (r c : nat) (v : Cell) (f : Fmt)
| WriteBlank (r c : nat) (f : Fmt).

(** [pd.isna(val)]: only a float NaN is missing among the table's cells. *)
Definition cell_isna (v : Cell) : bool :=
  match v with
  | CNum (PyFloat (S754_nan)) => true
  | _ => false
  end.

(** Lines 66-67: [pd.concat([blank, table_df], ignore_index=True)], the
    blank row as wide as the frame ([table_df.shape[1]], its longest row). *)
Definition with_blank_row (table : list (list Cell)) : list (list Cell) :=
  repeat blank (fold_left Nat.max (map (@List.length Cell) table) 0) :: table.

(** [out.iloc[r, c]]. *)
Definition out_iloc (out : list (list Cell)) (r c : nat) : except Cell :=
  match nth_error out r with
  | Some row => match nth_error row c with Some v => ok v | None => raise IndexError end
  | None => raise IndexError
  end.

Definition success_rows : list nat := [7; 8; 9; 13; 18; 19; 22; 23; 24].
Definition drop_main : list nat := [7; 8; 9; 13; 18; 19; 22; 23; 24].
Definition drop_sub : list nat := [10; 11; 12; 14; 15; 16; 17; 20; 21].

Definition nat_in (x : nat) (xs : list nat) : bool := existsb (Nat.eqb x) xs.

(** Lines 100-108: the format of body cell [(r, c)], each [if] overriding
    the previous choice. *)
Definition body_fmt (r c : nat) : Fmt :=
  let fmt := border in
  let fmt := if Nat.eqb r 6 || Nat.eqb c 0 then gray else fmt in
  let fmt := if nat_in c [1; 2; 3] && nat_in r success_rows then green else fmt in
  let fmt := if Nat.eqb c 4
             then (if nat_in r drop_main then dark else if nat_in r drop_sub then light else border)
             else fmt in
  let fmt := if nat_in c [5; 6] && nat_in r drop_main then dark else fmt in
  fmt.

(** Lines 109-113 (and 119-120): a cell written, or blank when missing. *)
Definition write_cell (out : list (list Cell)) (r c : nat) (f : Fmt) : except SheetOp :=
  let* v := out_iloc out r c in
  ok (if cell_isna v then WriteBlank r c f else Write r c v f).

(** [for r in range(a, a + n): for c in range(b, b + m): step r c]. *)
Fixpoint for_rows (rs : list nat) (cs : list nat) (step : nat -> nat -> except SheetOp)
  : except (list SheetOp) :=
  match rs with
  | [] => ok []
  | r :: rs' =>
      let* row := fold_right (fun c acc => let* op := step r c in let* ops := acc in ok (op :: ops))
                             (ok []) cs in
      let* rest := for_rows rs' cs step in
      ok (row ++ rest)
  end.

Definition merge (out : list (list Cell)) (r1 c1 r2 c2 : nat) (f : Fmt) : except SheetOp :=
  let* v := out_iloc out r1 c1 in ok (MergeRange r1 c1 r2 c2 v f).

(** Lines 64-125: the operations of [write_funnel_excel] on [table_df]. *)
Definition render_ops (table : list (list Cell)) : except (list SheetOp) :=
  let out := with_blank_row table in
  let widths := [SetColumn 0 45%Z; SetColumn 1 45%Z; SetColumn 2 14%Z; SetColumn 3 15%Z;
                 SetColumn 4 55%Z; SetColumn 5 14%Z; SetColumn 6 16%Z] in
  let* m1 := merge out 1 3 1 4 note_g in
  let* m2 := merge out 2 3 2 4 note_w in
  let* m3 := merge out 5 2 5 3 gray in
  let* m4 := merge out 5 5 5 6 gray in
  let* body := for_rows (seq 6 19) (seq 0 7) (fun r c => write_cell out r c (body_fmt r c)) in
  let* w10 := out_iloc out 1 0 in
  let* w11 := out_iloc out 1 1 in
  let* notes := for_rows [2; 3] [0; 1] (fun r c => write_cell out r c border) in
  let* s1 := merge out 9 0 12 0 stage_fmt in
  let* s2 := merge out 13 0 17 0 stage_fmt in
  let* s3 := merge out 19 0 21 0 stage_fmt in
  ok ([DumpFrame out] ++ widths ++ [m1; m2; m3; m4] ++ body
      ++ [Write 1 0 w10 gray; Write 1 1 w11 gray] ++ notes ++ [s1; s2; s3]).

#[export] Instance Fmt_eq_dec : EqDec Fmt.
Proof. intros x y. decide equality. Defined.

(** ** Reading the table's rows *)

Inductive RowKind : Type := StageRow | SubRow | OtherRow.

(** A row of the body: a stage row names its stage in column 0, a
    sub-dropoff row has a blank column 0 and a cause starting with the
    arrow [↳] in column 4. *)
Definition row_kind (row : list Cell) : RowKind :=
  match row with
  | CStr EmptyString :: _ :: _ :: _ :: CStr cause :: _ =>
      if starts_with "↳" cause then SubRow else OtherRow
  | CStr (String _ _) :: _ => StageRow
  | _ => OtherRow
  end.

(** The formats a row of each kind should get in columns 1-6: a stage row
    green for its successful users and dark for its dropoff, a sub-dropoff
    row light for its cause only. *)
Definition kind_fmt (k : RowKind) (c : nat) : Fmt :=
  match k with
  | StageRow => if Nat.leb c 3 then green else dark
  | SubRow => if Nat.eqb c 4 then light else border
  | OtherRow => border
  end.

(** Cell [(r, c)] of the body is a row of a known kind formatted as that
    kind requires. *)
Definition fmt_agrees (table : list (list Cell)) (r c : nat) : bool :=
  match row_kind (nth (r - 1) table []) with
  | OtherRow => false
  | k => if eq_dec (body_fmt r c) (kind_fmt k c) then true else false
  end.

(** ** The renderer on built tables *)

Lemma fmt_agrees_spec (table : list (list Cell)) :
  forallb (fun r => forallb (fun c => fmt_agrees table r c) (seq 1 6)) (seq 7 18) = true ->
  forall r c, 7 <= r <= 24 -> 1 <= c <= 6 ->
    row_kind (nth (r - 1) table []) <> OtherRow /\
    body_fmt r c = kind_fmt (row_kind (nth (r - 1) table [])) c.
Proof.
  intros Hall r c Hr Hc.
  rewrite forallb_forall in Hall. specialize (Hall r ltac:(apply in_seq; lia)).
  rewrite forallb_forall in Hall. specialize (Hall c ltac:(apply in_seq; lia)).
  unfold fmt_agrees in Hall.
  destruct (row_kind (nth (r - 1) table [])); [| |discriminate];
    (destruct (eq_dec _ _) as [E|]; [|discriminate]); split; congruence.
Qed.

(** C29: the renderer's hard-coded row sets agree with the builder's
    layout: on every table [build_report_table] returns, [write_funnel_excel]
    finds every cell it reads, and each body row from 7 to 24 is a stage row,
    formatted green for its successful users and dark for its dropoff, or a
    sub-dropoff row, formatted light in its cause column only. *)
Theorem render_ops_follow_layout st otp disc fi t :
  build_report_table st otp disc fi = ok t ->
  (exists ops, render_ops t = ok ops) /\
  forall r c, 7 <= r <= 24 -> 1 <= c <= 6 ->
    row_kind (nth (r - 1) t []) <> OtherRow /\
    body_fmt r c = kind_fmt (row_kind (nth (r - 1) t [])) c.
Proof.
  intros H. build_inv H. split.
  - eexists. reflexivity.
  - apply fmt_agrees_spec. reflexivity.
Qed.

Lemma render_ops_follow_layout_witness :
  build_report_table demo_totals demo_otp demo_disc demo_fi = ok demo_report /\
  (exists ops, render_ops demo_report = ok ops) /\
  body_fmt 8 5 = kind_fmt (row_kind (nth 7 demo_report [])) 5.
Proof.
  destruct (render_ops_follow_layout _ _ _ _ _ demo_build) as [H1 H2].
  split; [exact demo_build | split; [exact H1 | apply (H2 8 5); lia]].
Defined.
