(* ===== verification/Mail.v ===== *)
(** * Mail: [send_report_mail] of run_reports.py

    [send_report_mail(to_addrs, subject, body_html, attachments, cc_addrs,
    smtp_config)] (run_reports.py lines 132-165) is modelled down to the
    message it builds: the configuration check, the [From], [To], [Cc]
    and [Subject] headers, the plain text derived from the HTML body with
    [str.replace], the two text parts and one part per attachment that is
    a file.  What touches the outside world is the class [MailEnv]:
    [os.path.isfile], reading a file, and the SMTP session
    ([SMTP(host, port)], [starttls], [login], [send_message]) as one action
    that may raise.  The [try]/[except Exception] of the function turns
    every raised exception into [False]. *)

From Stdlib Require Import ZArith String Ascii List Bool Lia.
From S2P Require Import Prelude Fetch Config Drill.
Import ListNotations.
Open Scope Z_scope.

(** ** String operations *)

(** [s.replace(pat, rep)] for a non-empty [pat]: the occurrences of [pat]
    from the left, without overlap; [skip] counts the characters of a
    replaced occurrence still to drop. *)
Fixpoint replace_aux (pat rep s : string) (skip : nat) : string :=
  match s with
  | EmptyString => EmptyString
  | String c s' =>
      match skip with
      | S k => replace_aux pat rep s' k
      | O => if starts_with pat s
             then (rep ++ replace_aux pat rep s' (String.length pat - 1))%string
             else String c (replace_aux pat rep s' O)
      end
  end.

Definition py_replace (pat rep s : string) : string := replace_aux pat rep s O.


(** [sep.join(xs)]. *)
Fixpoint py_join (sep : string) (xs : list string) : string :=
  match xs with
  | [] => EmptyString
  | [x] => x
  | x :: xs' => (x ++ sep ++ py_join sep xs')%string
  end.

(** [os.path.basename(p)]: what follows the last [/]. *)
Fixpoint basename_aux (s cur : string) : string :=
  match s with
  | EmptyString => cur
  | String c s' =>
      if Ascii.eqb c "/" then basename_aux s' EmptyString
      else basename_aux s' (cur ++ String c EmptyString)%string
  end.

Definition basename (p : string) : string := basename_aux p EmptyString.


(** Line 147: the plain-text part. *)
Definition plain_text (body_html : string) : string :=
  py_replace "</b>" EmptyString (py_replace "<b>" EmptyString (py_replace "<br>" newline body_html)).

(** ** Messages and the environment *)

Inductive MimePart : Type :=
| MimeText (subtype text : string)                  (** [MIMEText(text, subtype)] *)
| MimeAttachment (filename payload : string).       (** lines 153-157 *)

(** The [MIMEMultipart("alternative")] message. *)
Record Message : Type := mkMessage {
  msg_from : string;
  msg_to : string;
  msg_cc : option string;
  msg_subject : string;
  msg_parts : list MimePart
}.

Class MailEnv : Type := {
  is_file : string -> bool;
  read_file : string -> except string;
  smtp_session : string -> Z -> string -> string -> Message -> except unit
}.

Section Send.
Context `{MailEnv}.

(** Lines 150-157: one part per attachment that is a file, read whole. *)
Fixpoint attachment_parts (paths : list string) : except (list MimePart) :=
  match paths with
  | [] => ok []
  | p :: ps =>
      if is_file p then
        let* payload := read_file p in
        let* rest := attachment_parts ps in
        ok (MimeAttachment (basename p) payload :: rest)
      else attachment_parts ps
  end.

(** Lines 134-157: the message; [to_addrs] and [cc_addrs] are the JSON
    values of [recipients.json], joined as [str.join] iterates them. *)
Definition build_message (cfg : SmtpConfig) (to_addrs : JValue) (subject body_html : string)
  (attachments : list string) (cc_addrs : JValue) : except Message :=
  let* ccs := if py_truthy cc_addrs then json_strings cc_addrs else ok [] in
  let from := if String.eqb (smtp_from cfg) EmptyString then smtp_user cfg else smtp_from cfg in
  let* tos := json_strings to_addrs in
  let cc := match ccs with [] => None | _ => Some (py_join ", " ccs) end in
  let plain := plain_text body_html in
  let* files := attachment_parts attachments in
  ok (mkMessage from (py_join ", " tos) cc subject
        ([MimeText "plain" plain; MimeText "html" body_html] ++ files)).

(** Lines 132-165. *)
Definition send_report_mail (to_addrs : JValue) (subject body_html : string)
  (attachments : list string) (cc_addrs : JValue) (cfg : SmtpConfig) : bool :=
  if String.eqb (smtp_user cfg) EmptyString || String.eqb (smtp_password cfg) EmptyString
  then false
  else match build_message cfg to_addrs subject body_html attachments cc_addrs with
       | inl _ => false
       | inr msg =>
           match smtp_session (smtp_host cfg) (smtp_port cfg) (smtp_user cfg) (smtp_password cfg) msg with
           | inl _ => false
           | inr _ => true
           end
       end.

End Send.

(** The file name of an attachment part. *)
Definition part_name (p : MimePart) : string :=
  match p with
  | MimeAttachment name _ => name
  | MimeText _ _ => EmptyString
  end.

Local Open Scope string_scope.

(** A sample mail environment: one readable report file. *)
Definition sample_mail_env : MailEnv := {|
  is_file := fun p => String.eqb p "./output/E1-01_03_2025.xlsx";
  read_file := fun _ => ok "xlsx";
  smtp_session := fun _ _ _ _ _ => ok tt
|}.

Definition sample_smtp_config : SmtpConfig :=
  mkSmtpConfig EmptyString "smtp.example.com" 587 "reports@example.com" "secret".

(** ** Theorems *)

Section SendProps.
Context `{MailEnv}.

Lemma attachment_parts_names (ps : list string) (parts : list MimePart) :
  attachment_parts ps = ok parts -> map part_name parts = map basename (filter is_file ps).
Proof.
  revert parts. induction ps as [|p ps IH]; intros parts Hp; cbn [attachment_parts filter] in *.
  - injection Hp as <-. reflexivity.
  - destruct (is_file p).
    + apply bind_inr in Hp as (payload & _ & Hp). apply bind_inr in Hp as (rest & Hrest & Hp).
      injection Hp as <-. cbn [map part_name]. rewrite (IH rest Hrest). reflexivity.
    + exact (IH parts Hp).
Qed.

(** C32: [send_report_mail] returns [True] exactly when the SMTP user and
    password are both set, the message can be built, and the SMTP session
    delivers that message; in every other case it returns [False] without
    raising. *)
Theorem send_report_mail_spec (to_addrs : JValue) (subject body_html : string)
  (attachments : list string) (cc_addrs : JValue) (cfg : SmtpConfig) :
  send_report_mail to_addrs subject body_html attachments cc_addrs cfg = true <->
  smtp_user cfg <> EmptyString /\ smtp_password cfg <> EmptyString /\
  exists msg, build_message cfg to_addrs subject body_html attachments cc_addrs = ok msg /\
    smtp_session (smtp_host cfg) (smtp_port cfg) (smtp_user cfg) (smtp_password cfg) msg = ok tt.
Proof.
  unfold send_report_mail.
  destruct (String.eqb_spec (smtp_user cfg) EmptyString) as [Hu|Hu];
    [cbn; split; [discriminate | intros (H1 & _); contradiction]|].
  destruct (String.eqb_spec (smtp_password cfg) EmptyString) as [Hp|Hp];
    [cbn; split; [discriminate | intros (_ & H2 & _); contradiction]|]. cbn [orb].
  destruct (build_message _ _ _ _ _ _) as [e|msg] eqn:Hb.
  - split; [discriminate | intros (_ & _ & msg & Hm & _); discriminate Hm].
  - destruct (smtp_session _ _ _ _ msg) as [e|[]] eqn:Hs.
    + split; [discriminate|]. intros (_ & _ & msg' & Hm & Hs'). injection Hm as <-.
      rewrite Hs in Hs'. inversion Hs'.
    + split; [intros _ | reflexivity]. split; [exact Hu|]. split; [exact Hp|]. eauto.
Qed.

(** C33: the message [send_report_mail] sends: [To] is [", ".join] of
    the recipients as Python iterates them (a JSON string gives its
    characters), [Cc] is set exactly when the copy list is non-empty, the
    subject is the one given, the plain and HTML parts come first and
    then one attachment per file that exists, under its base name. *)
Theorem build_message_spec (cfg : SmtpConfig) (to_addrs : JValue) (subject body_html : string)
  (attachments : list string) (cc_addrs : JValue) (msg : Message) :
  build_message cfg to_addrs subject body_html attachments cc_addrs = ok msg ->
  (exists tos, json_strings to_addrs = ok tos /\ msg_to msg = py_join ", " tos) /\
  (msg_cc msg = None <-> py_truthy cc_addrs = false \/ json_strings cc_addrs = ok []) /\
  msg_subject msg = subject /\
  firstn 2 (msg_parts msg) = [MimeText "plain" (plain_text body_html); MimeText "html" body_html] /\
  map part_name (skipn 2 (msg_parts msg)) = map basename (filter is_file attachments).
Proof.
  unfold build_message. intros Hb.
  apply bind_inr in Hb as (ccs & Hccs & Hb). apply bind_inr in Hb as (tos & Htos & Hb).
  apply bind_inr in Hb as (files & Hfiles & Hb). injection Hb as <-. cbn [msg_to msg_cc msg_subject msg_parts].
  split; [eauto|]. split; [|split; [reflexivity | split; [reflexivity|]]].
  - destruct (py_truthy cc_addrs); [|injection Hccs as <-; split; [intros _; left; reflexivity | reflexivity]].
    rewrite Hccs. destruct ccs; split; intros Hc; try reflexivity; try discriminate.
    + right. reflexivity.
    + destruct Hc as [Hc|Hc]; discriminate.
  - apply attachment_parts_names, Hfiles.
Qed.

End SendProps.

#[local] Existing Instance sample_mail_env.

Lemma send_report_mail_spec_witness :
  send_report_mail (JArr [JStr "ops@e1.example"]) "E1_user_funnel_01_03_2025" "Dear team"
    ["./output/E1-01_03_2025.xlsx"] (JArr []) sample_smtp_config = true.
Proof.
  apply send_report_mail_spec. split; [discriminate|]. split; [discriminate|].
  eexists. split; reflexivity.
Defined.

Lemma build_message_spec_witness :
  exists msg,
    build_message sample_smtp_config (JStr "ops") "s" "b<br>" ["./output/E1-01_03_2025.xlsx"; "gone.xlsx"]
      JNull = ok msg /\
    msg_to msg = "o, p, s" /\ msg_cc msg = None /\
    map part_name (skipn 2 (msg_parts msg)) = ["E1-01_03_2025.xlsx"].
Proof.
  destruct (build_message sample_smtp_config (JStr "ops") "s" "b<br>"
              ["./output/E1-01_03_2025.xlsx"; "gone.xlsx"] JNull) as [e|msg] eqn:E;
    [vm_compute in E; discriminate|].
  exists msg. split; [reflexivity|].
  destruct (build_message_spec _ _ _ _ _ _ _ E) as ((tos & Ht & Hto) & Hcc & _ & _ & Hn).
  split; [rewrite Hto; vm_compute in Ht; injection Ht as <-; reflexivity|].
  split; [apply Hcc; left; reflexivity | rewrite Hn; reflexivity].
Defined.
