(* ===== verification/Pipeline.v ===== *)
(** * Pipeline: the [run] loop of run_reports.py

    [run(demo, date_spec)] (run_reports.py lines 172-248) is modelled over
    the class [ReportEnv]: the Drill source of [Fetch], the mail
    environment of [Mail], the process environment and the parsed
    [recipients.json] that [load_config] and [load_recipients] of [Config]
    read, the clock that gives yesterday's token, [os.makedirs] and the
    saving of the workbook [Render] lays out, both as fallible actions.
    The loop over [to_map.items()] threads the [any_written] flag and the
    list of per-entity outcomes; the [try]/[except Exception] of each
    iteration is the sum type [except Outcome] of the entity's event. *)

From Stdlib Require Import ZArith String Ascii List Bool Lia.
From S2P Require Import Prelude Frames Funnel Calendar DateFormat DateRange PyInt Fetch Render Config Mail.
Import ListNotations Table.
Open Scope Z_scope.

(** ** Strings of the output path *)

(** [s.endswith("/")]. *)
Fixpoint ends_with_slash (s : string) : bool :=
  match s with
  | EmptyString => false
  | String c EmptyString => Ascii.eqb c "/"
  | String _ s' => ends_with_slash s'
  end.

(** [os.path.join(a, b)] of posixpath. *)
Definition path_join (a b : string) : string :=
  if starts_with "/" b then b
  else if String.eqb a EmptyString || ends_with_slash a then (a ++ b)%string
  else (a ++ "/" ++ b)%string.

(** Line 214: [safe_id = entity_id.replace("@", "-")]. *)
Definition safe_id (entity_id : string) : string := py_replace "@" "-" entity_id.

(** Line 215: the report file of an entity. *)
Definition out_path (out_dir date_spec entity_id : string) : string :=
  path_join out_dir
    (safe_id entity_id ++ "-" ++ py_replace " -> " "-" date_spec ++ ".xlsx")%string.

(** Lines 235-236: subject and body of the mail. *)
Definition mail_subject (entity_id date_spec : string) : string :=
  (entity_id ++ "_user_funnel_" ++ date_spec)%string.

Definition mail_body (entity_id date_spec : string) : string :=
  ("Dear team,<br>Please find the user funnel for " ++ entity_id ++ " " ++ date_spec
   ++ ".<br><br>Thanks & Regards,<br>Your Team")%string.

(** ** The environment *)

Class ReportEnv : Type := {
  env_drill :: DrillSource;
  env_mail :: MailEnv;
  environ : list (string * string);
  recipients_json : except JValue;            (** [open] and [json.load], line 51-52 *)
  yesterday_token : string;                   (** [datetime.now() - timedelta(days=1)] *)
  make_dirs : string -> except unit;          (** [os.makedirs(out_dir, exist_ok=True)] *)
  save_workbook : list SheetOp -> string -> except unit
}.

(** [write_funnel_excel(table, out_path)]: the sheet operations of
    [Render], then the workbook saved on leaving the [with] block (an I/O
    step that may raise). *)
Definition write_funnel_excel `{ReportEnv} (table : list (list Cell)) (path : string) : except unit :=
  let* ops := render_ops table in save_workbook ops path.

(** What one iteration of the loop ends with, when it raises nothing
    before the report is written.  After the write (line 233 sets
    [any_written]) the rest of the [try] either gives the result of
    [send_report_mail] or raises, from [cc_map.get]: [mail_sent] holds
    which. *)
Inductive Outcome : Type :=
| Skipped                                    (** ["No data; skipping."] *)
| Written (path : string) (mail_sent : except bool).

Definition is_written (r : except Outcome) : bool :=
  match r with
  | inr (Written _ _) => true
  | _ => false
  end.

(** The state the loop threads. *)
Record RunState : Type := mkRunState {
  any_written : bool;
  events : list (string * except Outcome)
}.

Definition run_init : RunState := mkRunState false [].

Inductive RunResult : Type :=
| DemoRun (path : string)
| LiveRun (final : RunState).

Section Run.
Context `{ReportEnv}.
Variables (cfg : Config) (date_spec : string) (rcp : Recipients).

(** Lines 216-243: the body of the [try] for one entity. *)
Definition process_entity (entity_id : string) (to_list : JValue) : except Outcome :=
  let base := drill_base_path cfg in
  let host := drill_host cfg in
  let port := drill_port cfg in
  let path := out_path (output_dir cfg) date_spec entity_id in
  let* stages := fetch_stage_metrics base host port entity_id date_spec in
  if stage_frame_empty stages then ok Skipped else
  let* otp := fetch_otp_totals base host port entity_id date_spec in
  let* discovery := fetch_discovery_totals base host port entity_id date_spec in
  let* fi_status := fetch_fi_status_counts base host port entity_id date_spec in
  let* totals := aggregate_stages (stage_values stages) in
  let* table := build_report_table totals otp discovery fi_status in
  let* _ := write_funnel_excel table path in
  let subj := mail_subject entity_id date_spec in
  let body := mail_body entity_id date_spec in
  ok (Written path
        (let* cc_list := json_get (cc_map rcp) entity_id (default_cc rcp) in
         ok (send_report_mail to_list subj body [path] cc_list (smtp cfg)))).

(** One iteration: the outcome is recorded, [any_written] set on a write. *)
Definition run_step (st : RunState) (entry : string * JValue) : RunState :=
  let r := process_entity (fst entry) (snd entry) in
  mkRunState (any_written st || is_written r) (events st ++ [(fst entry, r)]).

(** Lines 211-243: the loop over [to_map.items()]. *)
Definition run_entities (entries : list (string * JValue)) : RunState :=
  fold_left run_step entries run_init.

End Run.

(** Lines 172-248: [run(demo, date_spec)]; [None] stands for the default
    token of yesterday.  Everything before the loop, and the whole demo
    branch, is outside any [try]: its exceptions end the run. *)
Definition run `{ReportEnv} (demo : bool) (date_spec : option string) : except RunResult :=
  let* cfg := load_config environ in
  let* data := recipients_json in
  let* rcp := load_recipients data in
  let date_spec := match date_spec with Some s => s | None => yesterday_token end in
  let* _ := make_dirs (output_dir cfg) in
  if demo then
    let* table := run_demo_table in
    let path := path_join (output_dir cfg) ("demo_funnel_report-" ++ date_spec ++ ".xlsx")%string in
    let* _ := write_funnel_excel table path in
    ok (DemoRun path)
  else match to_map rcp with
       | JObj entries => ok (LiveRun (run_entities cfg date_spec rcp entries))
       | _ => raise AttributeError
       end.

(** Lines 245-247: the closing hint is printed when no report was written. *)
Definition prints_no_reports_hint (st : RunState) : bool := negb (any_written st).

(** A sample environment: the sample Drill source, no file on disk, every
    write succeeding, an SMTP server that accepts every message, and a
    configuration without SMTP credentials. *)
Definition sample_mail : MailEnv := {|
  is_file := fun _ => false;
  read_file := fun _ => raise IOError;
  smtp_session := fun _ _ _ _ _ => ok tt
|}.

Definition sample_recipients_json : JValue :=
  (JObj [("to", JObj [("E1", JArr [JStr "ops@e1.example"]); ("E2", JArr [JStr "ops@e2.example"])]);
         ("cc", JObj [("default", JArr [JStr "cc@example.com"])])])%string.

Definition sample_env : ReportEnv := {|
  env_drill := sample_source;
  env_mail := sample_mail;
  environ := [("OUTPUT_DIR"%string, "./output"%string)];
  recipients_json := ok sample_recipients_json;
  yesterday_token := "08_11_2026";
  make_dirs := fun _ => ok tt;
  save_workbook := fun _ _ => ok tt
|}.

Definition sample_recipients : Recipients :=
  match load_recipients sample_recipients_json with
  | inr r => r
  | inl _ => mkRecipients JNull JNull JNull
  end.

Definition sample_smtp : SmtpConfig :=
  mkSmtpConfig EmptyString "smtp.example.com" 587 EmptyString EmptyString.

(** The sample environment with [SMTP_PORT] set to the empty string, as
    a [.env] line [SMTP_PORT=] leaves it. *)
Definition blank_port_env : ReportEnv := {|
  env_drill := sample_source;
  env_mail := sample_mail;
  environ := [("SMTP_PORT"%string, EmptyString)];
  recipients_json := ok sample_recipients_json;
  yesterday_token := "08_11_2026";
  make_dirs := fun _ => ok tt;
  save_workbook := fun _ _ => ok tt
|}.

(** Drill unreachable: [run_sql] gives [pd.DataFrame()] for every query
    ([Drill.run_sql_transport]), and every frame the fetchers read is
    empty. *)
Definition down_source : DrillSource := {|
  run_sql_stages := fun _ _ _ => empty_stage_frame;
  run_sql_otp := fun _ _ _ => empty_frame;
  run_sql_discovery := fun _ _ _ => empty_frame;
  run_sql_fi_status := fun _ _ _ => []
|}.

Definition down_env : ReportEnv := {|
  env_drill := down_source;
  env_mail := sample_mail;
  environ := [];
  recipients_json := ok sample_recipients_json;
  yesterday_token := "08_11_2026";
  make_dirs := fun _ => ok tt;
  save_workbook := fun _ _ => ok tt
|}.

(** ** The loop *)

Section Loop.
Context `{ReportEnv}.
Variables (cfg : Config) (date_spec : string) (rcp : Recipients).

Lemma run_fold (entries : list (string * JValue)) (st : RunState) :
  fold_left (run_step cfg date_spec rcp) entries st
  = mkRunState
      (any_written st || existsb (fun en => is_written (process_entity cfg date_spec rcp
                                                          (fst en) (snd en))) entries)
      (events st ++ map (fun en => (fst en, process_entity cfg date_spec rcp
                                              (fst en) (snd en))) entries).
Proof.
  revert st. induction entries as [|en entries IH]; intros [aw evs]; cbn [fold_left].
  - cbn. rewrite orb_false_r, app_nil_r. reflexivity.
  - rewrite IH. unfold run_step. cbn [any_written events existsb map].
    rewrite orb_assoc, <- app_assoc. reflexivity.
Qed.

(** C25: the loop processes every entity of [to_map] once, in order, each
    with the outcome of its own [try] block whatever the other entities
    did, and [any_written] is set exactly when some entity's report was
    written. *)
Theorem run_entities_spec (entries : list (string * JValue)) :
  events (run_entities cfg date_spec rcp entries)
  = map (fun en => (fst en, process_entity cfg date_spec rcp (fst en) (snd en))) entries /\
  any_written (run_entities cfg date_spec rcp entries)
  = existsb (fun en => is_written (process_entity cfg date_spec rcp (fst en) (snd en)))
            entries.
Proof. unfold run_entities. rewrite run_fold. split; reflexivity. Qed.


(** Entities that all end the same way, not with a written report. *)
Lemma run_entities_uniform (o : except Outcome) (entries : list (string * JValue)) :
  (forall e t, process_entity cfg date_spec rcp e t = o) -> is_written o = false ->
  events (run_entities cfg date_spec rcp entries) = map (fun en => (fst en, o)) entries /\
  any_written (run_entities cfg date_spec rcp entries) = false.
Proof.
  intros He Hw. unfold run_entities. rewrite run_fold. cbn [any_written events app orb run_init].
  split.
  - apply map_ext. intros en. rewrite He. reflexivity.
  - induction entries as [|en l IH]; [reflexivity|]. cbn [existsb]. rewrite He, Hw, IH. reflexivity.
Qed.

End Loop.

Section ParseError.
Context `{ReportEnv}.
Variables (cfg : Config) (date_spec p0 p1 : string) (rcp : Recipients).
Hypothesis Harrow : contains_arrow date_spec = true.
Hypothesis Hparts : range_parts date_spec = (p0, p1).

(** C26: a range whose dates do not parse makes [_month_prefixes] raise
    [ValueError] inside each entity's [try]: the run is not aborted, every
    entity is logged with that error and no report is written. *)
Theorem run_entities_parse_error (entries : list (string * JValue)) :
  _month_prefixes p0 p1 = raise ValueError ->
  events (run_entities cfg date_spec rcp entries)
  = map (fun en => (fst en, raise ValueError)) entries /\
  any_written (run_entities cfg date_spec rcp entries) = false.
Proof.
  intros Hm. apply run_entities_uniform; [|reflexivity].
  intros e t. unfold process_entity, fetch_stage_metrics. rewrite Harrow, Hparts, Hm. reflexivity.
Qed.

End ParseError.

Section DrillDown.
Context `{ReportEnv}.
Variables (cfg : Config) (date_spec : string) (rcp : Recipients).
(** Every stage query comes back as the empty frame. *)
Hypothesis Hdown : forall sql h p, run_sql_stages sql h p = empty_stage_frame.

Lemma process_entity_drill_down (e : string) (t : JValue) :
  process_entity cfg date_spec rcp e t =
  if contains_arrow date_spec then
    let '(p0, p1) := range_parts date_spec in
    match _month_prefixes p0 p1 with
    | inl err => inl err
    | inr [] => ok Skipped
    | inr _ => raise KeyError
    end
  else ok Skipped.
Proof.
  unfold process_entity, fetch_stage_metrics. destruct (contains_arrow date_spec).
  - destruct (range_parts date_spec) as [p0 p1].
    destruct (_month_prefixes p0 p1) as [err|[|p ps]]; [reflexivity | reflexivity |].
    rewrite bind_ok, (map_ext _ (fun _ => empty_stage_frame) (fun a => Hdown _ _ _)).
    assert (Hf : Forall (fun f => sf_has_date f = false)
                        (map (fun _ : string => empty_stage_frame) (p :: ps))).
    { apply Forall_forall. intros f Hf. apply in_map_iff in Hf as (q & <- & _). reflexivity. }
    cbn [map] in Hf |- *. rewrite (parse_stage_dates_no_date _ Hf). reflexivity.
  - rewrite Hdown. reflexivity.
Qed.

(** C27: with Drill unreachable the run writes no report: an entity asked
    for a day or a month is skipped as one without data, but one asked for
    a range of valid dates fails with [KeyError] at [combined["Date"]],
    where the specification has it skipped too. *)
Theorem run_entities_drill_down (entries : list (string * JValue)) :
  any_written (run_entities cfg date_spec rcp entries) = false /\
  (contains_arrow date_spec = false ->
     events (run_entities cfg date_spec rcp entries) = map (fun en => (fst en, ok Skipped)) entries) /\
  (forall p0 p1 p ps, contains_arrow date_spec = true -> range_parts date_spec = (p0, p1) ->
     _month_prefixes p0 p1 = ok (p :: ps) ->
     events (run_entities cfg date_spec rcp entries) = map (fun en => (fst en, raise KeyError)) entries).
Proof.
  destruct (run_entities_uniform cfg date_spec rcp _ entries process_entity_drill_down)
    as [Hev Hany].
  { destruct (contains_arrow date_spec); [|reflexivity].
    destruct (range_parts date_spec) as [p0 p1].
    destruct (_month_prefixes p0 p1) as [err|[|p ps]]; reflexivity. }
  split; [exact Hany|]. split.
  - intros Ha. rewrite Hev. rewrite Ha. reflexivity.
  - intros p0 p1 p ps Ha Hp Hm. rewrite Hev, Ha, Hp, Hm. reflexivity.
Qed.

End DrillDown.

Lemma run_entities_drill_down_witness :
  let es := [("E1"%string, JArr []); ("E2"%string, JArr [])] in
  contains_arrow "01_03_2025 -> 02_03_2025" = true /\
  _month_prefixes "01_03_2025" "02_03_2025" = ok ["*03_2025"%string] /\
  @events (@run_entities down_env default_config "01_03_2025 -> 02_03_2025" sample_recipients es)
  = [("E1"%string, raise KeyError); ("E2"%string, raise KeyError)].
Proof.
  intros es. split; [reflexivity|]. split; [reflexivity|].
  exact (proj2 (proj2 (@run_entities_drill_down down_env default_config "01_03_2025 -> 02_03_2025"
                         sample_recipients (fun _ _ _ => eq_refl) es))
           "01_03_2025"%string "02_03_2025"%string "*03_2025"%string [] eq_refl eq_refl eq_refl).
Defined.

(** ** Output paths *)

Lemma replace_at_cons (c : ascii) (s : string) :
  replace_aux "@" "-" (String c s) O
  = String (if Ascii.eqb "@" c then "-"%char else c) (replace_aux "@" "-" s O).
Proof. cbn [replace_aux starts_with]. rewrite andb_true_r. destruct (Ascii.eqb "@" c); reflexivity. Qed.

Lemma safe_id_idem (e : string) : safe_id (safe_id e) = safe_id e.
Proof.
  unfold safe_id, py_replace. induction e as [|c e IH]; [reflexivity|].
  rewrite !replace_at_cons, IH. destruct (Ascii.eqb "@" c) eqn:E; [reflexivity|]. rewrite E. reflexivity.
Qed.

(** [safe_id] leaves no [@] in the id. *)
Lemma safe_id_no_at (e : string) (i : nat) : String.get i (safe_id e) <> Some "@"%char.
Proof.
  unfold safe_id, py_replace. revert i. induction e as [|c e IH]; intros i; [discriminate|].
  rewrite replace_at_cons. destruct i as [|i]; [|apply IH]. cbn [String.get].
  destruct (Ascii.eqb_spec "@" c) as [_|Hc]; [discriminate|]. congruence.
Qed.

(** C28: the report file name does not tell apart an entity id with an
    [@] from the different id with that [@] replaced by [-]: both entities
    of [to_map] write the same file, the later one overwriting the
    earlier report. *)
Theorem out_path_safe_id (out_dir date_spec e : string) :
  (exists i, String.get i e = Some "@"%char) ->
  safe_id e <> e /\ out_path out_dir date_spec (safe_id e) = out_path out_dir date_spec e.
Proof.
  intros (i & Hi). split.
  - intros E. apply (safe_id_no_at e i). rewrite E. exact Hi.
  - unfold out_path. rewrite safe_id_idem. reflexivity.
Qed.

Lemma out_path_safe_id_witness :
  String.get 3%nat "ops@bank" = Some "@"%char /\
  safe_id "ops@bank" = "ops-bank"%string /\
  "ops-bank"%string <> "ops@bank"%string /\
  out_path "./output" "01_03_2025" "ops-bank" = out_path "./output" "01_03_2025" "ops@bank".
Proof.
  split; [reflexivity|]. split; [reflexivity|].
  exact (out_path_safe_id "./output" "01_03_2025" "ops@bank" (ex_intro _ 3%nat eq_refl)).
Defined.

Lemma run_entities_parse_error_witness :
  let entries := [("E1"%string, JArr []); ("E2"%string, JArr [])] in
  events (@run_entities sample_env default_config "31_02_2025 -> 01_03_2025" sample_recipients entries)
  = [("E1"%string, raise ValueError); ("E2"%string, raise ValueError)] /\
  any_written (@run_entities sample_env default_config "31_02_2025 -> 01_03_2025" sample_recipients entries)
  = false.
Proof.
  exact (@run_entities_parse_error sample_env default_config "31_02_2025 -> 01_03_2025" "31_02_2025" "01_03_2025"
           sample_recipients eq_refl eq_refl _ eq_refl).
Defined.

(** ** Errors before the loop *)

Section Startup.
Context `{ReportEnv}.

(** C30: a port setting that [int()] rejects, such as an empty
    [SMTP_PORT], makes [load_config] raise [ValueError] before anything
    else: the whole run, demo mode included, ends with that exception. *)
Theorem run_bad_port (demo : bool) (date_spec : option string) :
  py_int_of_string (env_get environ "DRILL_PORT" "8047") = raise ValueError \/
  py_int_of_string (env_get environ "SMTP_PORT" "587") = raise ValueError ->
  run demo date_spec = raise ValueError.
Proof.
  intros Hport. unfold run, load_config.
  destruct (py_int_of_string (env_get environ "DRILL_PORT" "8047")) as [e|p] eqn:E1.
  - apply py_int_of_string_error in E1. subst e. reflexivity.
  - destruct Hport as [Hp|Hp]; [inversion Hp|]. rewrite Hp. reflexivity.
Qed.

End Startup.

Lemma run_bad_port_witness :
  @run blank_port_env true None = raise ValueError.
Proof. apply (@run_bad_port blank_port_env). right. reflexivity. Defined.
