(* ===== verification/Cli.v ===== *)
(** * Cli: the [__main__] block of run_reports.py

    Lines 251-257 declare an [argparse] parser with the flag [--demo]
    ([store_true], default [False]) and the option [--date] (one string,
    default [None]), parse the command line and call
    [run(demo=args.demo, date_spec=args.date)].  The parsing is argparse's
    own (a library the block only calls): what it returns enters as the
    [Namespace] of the two attributes; a command line argparse rejects
    exits with status 2 before [run] is called. *)

From Stdlib Require Import String List.
From S2P Require Import Prelude Pipeline.

(** The [Namespace] [p.parse_args()] returns (line 256). *)
Record Namespace : Type := mkNamespace {
  ns_demo : bool;              (** [args.demo] *)
  ns_date : option string      (** [args.date], [None] when [--date] is absent *)
}.

(** The defaults of lines 254-255: no flag and no date given. *)
Definition namespace_defaults : Namespace := mkNamespace false None.

(** Line 257. *)
Definition main `{ReportEnv} (args : Namespace) : except RunResult :=
  run (ns_demo args) (ns_date args).
